(** * protocol-ctf: chain-fixture loader, client harness and flag verifiers

    A shallow embedding of the Go sources of the Protocol CTF repository:

    - the chain-fixture loader ([loadGenesis], [blocksFromFile],
      [loadChain]) shared by the in-process verifiers;
    - package [harness] ([ParseLogLevel], [gethClient] with [Compile],
      [Init], [Start], [Close], [Running]);
    - the three verifier programs ([main] and [checkFlag]): the
      in-process verifier with a developer console, the verifier built on
      package [harness], and the in-process verifier with leveled logging.

    Go values are modelled as the code has them: [int] and [uint64] as [Z]
    with the wrap-around written out, a Go [(value, error)] result as a
    pair of options ([None] is Go's [nil]), [fmt.Errorf] as the rendered
    message, the file system as a finite map from names to contents.
    Everything the programs reach through a library or the operating
    system (RLP and JSON decoding, gzip, the geth node, subprocesses,
    JSON-RPC) is a parameter: a record of functions for the decoders, and
    an oracle over the history of events for the running client. *)

From Stdlib Require Import ZArith Lia Ascii String.
From Stdlib.Strings Require Import Byte.
From Equations Require Import Equations.
From stdpp Require Import base gmap strings list pretty.

Local Open Scope Z_scope.
Local Open Scope string_scope.
Local Open Scope list_scope.

(** ** Go base types *)

Module Go.

(** A Go [error] value.  [io_EOF] is the sentinel the loader compares
    with [==]; [LibError] is an error made by a library or by the
    operating system (its package, its message); [NewError] is an error
    made by this program through [fmt.Errorf]. *)
Inductive error : Type :=
| io_EOF
| LibError (pkg msg : string)
| NewError (msg : string).

#[global] Instance error_eq_dec : EqDecision error.
Proof. solve_decision. Defined.

(** [err.Error()] *)
Definition Error (e : error) : string :=
  match e with
  | io_EOF => "EOF"
  | LibError _ msg => msg
  | NewError msg => msg
  end.

(** A Go result [(v, err)]: [None] is [nil]. *)
Definition result (A : Type) : Type := (option A * option error)%type.

Definition ok {A} (a : A) : result A := (Some a, None).
Definition fail {A} (e : error) : result A := (None, Some e).

(** What a call of a library or of the operating system gives. *)
Inductive Outcome (A : Type) : Type :=
| Ok (a : A)
| Err (e : error).
Arguments Ok {A} a.
Arguments Err {A} e.

(** [int] on a 64-bit target and [uint64]. *)
Definition int_wrap (z : Z) : Z := (z + 2 ^ 63) mod 2 ^ 64 - 2 ^ 63.
Definition int_add (a b : Z) : Z := int_wrap (a + b).
Definition uint64 (z : Z) : Z := z mod 2 ^ 64.

(** Arguments of a formatting call. *)
Inductive fmt_arg : Type :=
| ArgInt (z : Z)
| ArgStr (s : string)
| ArgErr (e : error).

Definition fmt_render (a : fmt_arg) : string :=
  match a with
  | ArgInt z => pretty z
  | ArgStr s => s
  | ArgErr e => Error e
  end.

(** [fmt.Sprintf] for the verbs the programs use ([%d], [%s], [%v]):
    each verb is replaced by the next argument. *)
Fixpoint Sprintf (format : string) (args : list fmt_arg) : string :=
  match format with
  | EmptyString => EmptyString
  | String "%"%char (String verb rest) =>
      match args with
      | a :: args' => fmt_render a +:+ Sprintf rest args'
      | [] => "%!" +:+ String verb "(MISSING)" +:+ Sprintf rest []
      end
  | String c rest => String c (Sprintf rest args)
  end.

(** [fmt.Errorf] without [%w]: a fresh error carrying the message. *)
Definition Errorf (format : string) (args : list fmt_arg) : error :=
  NewError (Sprintf format args).

(** The line feed of ["...\n"]. *)
Definition LF : string := String (ascii_of_nat 10) EmptyString.

(** [strings.HasSuffix]:
    [len(s) >= len(suffix) && s[len(s)-len(suffix):] == suffix]. *)
Definition HasSuffix (s suffix : string) : bool :=
  (String.length suffix <=? String.length s)%nat &&
  String.eqb
    (substring (String.length s - String.length suffix)
               (String.length suffix) s)
    suffix.

End Go.
Import Go.

(** ** The chain-fixture loader *)

Module Loader.

(** [types.Block], as far as the verifiers look at it: the number that
    [b.NumberU64()] reports, the hash that [b.Hash()] reports, and the
    rest of the decoded block. *)
Record Block : Type := mkBlock {
  blk_number : Z;
  blk_hash : Z;
  blk_body : list byte
}.

#[global] Instance byte_eq_dec : EqDecision byte := Byte.byte_eq_dec.

Definition NumberU64 (b : Block) : Z := uint64 (blk_number b).
Definition Hash (b : Block) : Z := blk_hash b.

#[global] Instance Block_eq_dec : EqDecision Block.
Proof. solve_decision. Defined.

(** [params.ChainConfig], [core.GenesisAccount] and [core.Genesis]. *)
Record ChainConfig : Type := mkChainConfig {
  ChainID : option Z                  (* a [*big.Int] *)
}.

Record GenesisAccount : Type := mkAccount {
  Balance : Z;
  Nonce : Z;
  Code : list byte
}.

Record Genesis : Type := mkGenesis {
  Config : option ChainConfig;        (* a pointer: [None] when absent *)
  Alloc : gmap Z GenesisAccount;
  Difficulty : Z;
  BaseFee : Z
}.

(** [core.Genesis{}] *)
Definition Genesis_zero : Genesis :=
  {| Config := None; Alloc := ∅; Difficulty := 0; BaseFee := 0 |}.

Record Chain : Type := mkChain {
  genesis : Genesis;
  blocks : list Block;
  chainConfig : option ChainConfig
}.

(** An [io.Reader]: the bytes it yields, then [io.EOF] ([None]) or the
    error that ends the reading. *)
Record Reader : Type := mkReader {
  rd_bytes : list byte;
  rd_err : option error
}.

(** [*rlp.Stream]: the part of the reader not yet decoded. *)
Definition Stream : Type := Reader.
Definition rlp_NewStream (r : Reader) : Stream := r.

(** [stream.Decode(&b)]: a block and the rest of the stream, or an
    error, [io.EOF] at the end of the stream. *)
Inductive DecodeResult : Type :=
| Decoded (b : Block) (rest : Stream)
| DecodeErr (e : error).

(** The libraries the loader calls.  A decoded block takes at least one
    byte of the stream, as every RLP item does. *)
Record Lib : Type := mkLib {
  json_Unmarshal : list byte -> Genesis * option error;
  ToBlock : Genesis -> Block;
  gzip_NewReader : Reader -> Outcome Reader;
  rlp_Decode : Stream -> DecodeResult;
  rlp_Decode_consumes : forall s b rest,
    rlp_Decode s = Decoded b rest ->
    (length (rd_bytes rest) < length (rd_bytes s))%nat
}.

Definition os_ReadFile (fs : gmap string (list byte)) (name : string)
  : Outcome (list byte) :=
  match fs !! name with
  | Some data => Ok data
  | None =>
      Err (LibError "os" ("open " +:+ name +:+ ": no such file or directory"))
  end.

Definition os_Open (fs : gmap string (list byte)) (name : string)
  : Outcome Reader :=
  match fs !! name with
  | Some data => Ok {| rd_bytes := data; rd_err := None |}
  | None =>
      Err (LibError "os" ("open " +:+ name +:+ ": no such file or directory"))
  end.

Definition inspect {A} (a : A) : {b : A | a = b} := exist _ a eq_refl.

Section WithLib.
Context (L : Lib).

Definition loadGenesis (fs : gmap string (list byte)) (genesisFile : string)
  : Genesis * option error :=
  match os_ReadFile fs genesisFile with
  | Err err => (Genesis_zero, Some err)
  | Ok chainConfig =>
      match json_Unmarshal L chainConfig with
      | (_, Some err) => (Genesis_zero, Some err)
      | (gen, None) => (gen, None)
      end
  end.

(** The loop of [blocksFromFile], [for i := 0; ; i++]. *)
Equations? blocks_loop (i : Z) (stream : Stream) (blocks : list Block)
  : result (list Block) by wf (length (rd_bytes stream)) lt :=
blocks_loop i stream blocks with inspect (rlp_Decode L stream) := {
  | exist _ (DecodeErr err) _ =>
      if decide (err = io_EOF) then (Some blocks, None)
      else (None, Some (Errorf "at block index %d: %v" [ArgInt i; ArgErr err]))
  | exist _ (Decoded b rest) Hdec =>
      if decide (NumberU64 b <> uint64 (int_add i 1)) then
        (None, Some (Errorf "block at index %d has wrong number %d"
                            [ArgInt i; ArgInt (NumberU64 b)]))
      else blocks_loop (int_add i 1) rest (blocks ++ [b]) }.
Proof. eapply rlp_Decode_consumes; eassumption. Qed.

(** Lines 159-170 of [blocksFromFile]: the stream the loop decodes. *)
Definition chainStream (fs : gmap string (list byte)) (chainfile : string)
  : Outcome Stream :=
  match os_Open fs chainfile with
  | Err err => Err err
  | Ok fh =>
      if HasSuffix chainfile ".gz" then
        match gzip_NewReader L fh with
        | Err err => Err err
        | Ok reader => Ok (rlp_NewStream reader)
        end
      else Ok (rlp_NewStream fh)
  end.

Definition blocksFromFile (fs : gmap string (list byte))
    (chainfile : string) (gblock : Block) : result (list Block) :=
  match os_Open fs chainfile with
  | Err err => (None, Some err)
  | Ok fh =>
      let reader :=
        if HasSuffix chainfile ".gz" then gzip_NewReader L fh else Ok fh in
      match reader with
      | Err err => (None, Some err)
      | Ok reader =>
          let stream := rlp_NewStream reader in
          let blocks := [gblock] in
          blocks_loop 0 stream blocks
      end
  end.

Definition loadChain (fs : gmap string (list byte))
    (chainfile genesis : string) : result Chain :=
  match loadGenesis fs genesis with
  | (_, Some err) => (None, Some err)
  | (gen, None) =>
      let gblock := ToBlock L gen in
      match blocksFromFile fs chainfile gblock with
      | (_, Some err) => (None, Some err)
      | (blocks, None) =>
          let c := {| genesis := gen; blocks := default [] blocks;
                      chainConfig := Config gen |} in
          (Some c, None)
      end
  end.

(** [Decodes s bs s']: successive calls of [Decode] on [s] give the
    blocks [bs], in this order, and leave [s']. *)
Inductive Decodes : Stream -> list Block -> Stream -> Prop :=
| Decodes_nil s : Decodes s [] s
| Decodes_cons s b s' bs s'' :
    rlp_Decode L s = Decoded b s' ->
    Decodes s' bs s'' ->
    Decodes s (b :: bs) s''.

(** [numbered p bs]: the blocks [bs], decoded from position [p] on,
    carry the numbers the loop compares them with. *)
Definition numbered (p : nat) (bs : list Block) : Prop :=
  forall (j : nat) b, bs !! j = Some b ->
                      NumberU64 b = uint64 (Z.of_nat (p + j) + 1).

(** Where the loop stops, and with what. *)
Definition loop_stop (p : nat) (s : Stream) (acc : list Block)
  : result (list Block) :=
  match rlp_Decode L s with
  | DecodeErr err =>
      if decide (err = io_EOF) then (Some acc, None)
      else (None, Some (Errorf "at block index %d: %v"
                               [ArgInt (int_wrap (Z.of_nat p)); ArgErr err]))
  | Decoded b _ =>
      (None, Some (Errorf "block at index %d has wrong number %d"
                          [ArgInt (int_wrap (Z.of_nat p));
                           ArgInt (NumberU64 b)]))
  end.

End WithLib.

End Loader.

(** ** Effects: output, subprocesses, the clock, panics *)

Module Runtime.

(** What a run does that can be seen from outside, in the order in which
    it happens.  [Dial] and [Rpc] carry the time at which the call
    starts. *)
Inductive ExecKind : Type := Run | Spawn.

Inductive Event : Type :=
| Stdout (s : string)
| Stderr (s : string)
| Exec (how : ExecKind) (path : string) (argv : list string)
| Dial (addr : string) (t : Z)
| Rpc (method : string) (t : Z)
| Call (name : string).

#[global] Instance ExecKind_eq_dec : EqDecision ExecKind.
Proof. solve_decision. Defined.
#[global] Instance Event_eq_dec : EqDecision Event.
Proof. solve_decision. Defined.

(** The world a program runs in: the events so far, the paths that exist
    in the file system, the working directory, the subprocesses (is the
    process alive), the next free process id, the clock. *)
Record World : Type := mkWorld {
  trace : list Event;
  paths : gset string;
  cwd : string;
  procs : gmap nat bool;
  next_pid : nat;
  now : Z
}.

Definition set_trace (w : World) (tr : list Event) : World :=
  {| trace := tr; paths := paths w; cwd := cwd w; procs := procs w;
     next_pid := next_pid w; now := now w |}.
Definition set_paths (w : World) (ps : gset string) : World :=
  {| trace := trace w; paths := ps; cwd := cwd w; procs := procs w;
     next_pid := next_pid w; now := now w |}.
Definition set_cwd (w : World) (d : string) : World :=
  {| trace := trace w; paths := paths w; cwd := d; procs := procs w;
     next_pid := next_pid w; now := now w |}.
Definition set_procs (w : World) (ps : gmap nat bool) (n : nat) : World :=
  {| trace := trace w; paths := paths w; cwd := cwd w; procs := ps;
     next_pid := n; now := now w |}.
Definition set_now (w : World) (t : Z) : World :=
  {| trace := trace w; paths := paths w; cwd := cwd w; procs := procs w;
     next_pid := next_pid w; now := t |}.

(** A computation returns, panics, or is still running when the
    observation ends (a loop that was given too little fuel). *)
Inductive Res (A : Type) : Type :=
| Done (a : A) (w : World)
| Panicked (msg : string) (w : World)
| Unfinished (w : World).
Arguments Done {A} a w.
Arguments Panicked {A} msg w.
Arguments Unfinished {A} w.

Definition M (A : Type) : Type := World -> Res A.

#[global] Instance M_ret : MRet M := fun A a w => Done a w.
#[global] Instance M_bind : MBind M := fun A B f m w =>
  match m w with
  | Done a w' => f a w'
  | Panicked msg w' => Panicked msg w'
  | Unfinished w' => Unfinished w'
  end.

Definition panic {A} (msg : string) : M A := fun w => Panicked msg w.
Definition nil_dereference : string :=
  "runtime error: invalid memory address or nil pointer dereference".

(** [defer cleanup()] around the rest of a function body: the deferred
    call runs when the body returns, and when it panics. *)
Definition defer {A} (cleanup : M unit) (body : M A) : M A := fun w =>
  match body w with
  | Done a w' =>
      match cleanup w' with
      | Done _ w'' => Done a w''
      | Panicked msg w'' => Panicked msg w''
      | Unfinished w'' => Unfinished w''
      end
  | Panicked msg w' =>
      match cleanup w' with
      | Done _ w'' => Panicked msg w''
      | Panicked msg' w'' => Panicked msg' w''
      | Unfinished w'' => Unfinished w''
      end
  | Unfinished w' => Unfinished w'
  end.

Definition emit (ev : Event) : M unit := fun w =>
  Done tt (set_trace w (trace w ++ [ev])).

Definition history : M (list Event) := fun w => Done (trace w) w.
Definition clock : M Z := fun w => Done (now w) w.

(** [fmt.Println(s)], [fmt.Println()], [fmt.Fprintf(os.Stderr, ...)]. *)
Definition Println (s : string) : M unit := emit (Stdout (s +:+ LF)).
Definition Fprintf_Stderr (format : string) (args : list fmt_arg) : M unit :=
  emit (Stderr (Sprintf format args)).

(** What the standard output and the standard error received. *)
Definition stdout_of (tr : list Event) : list string :=
  omap (fun ev => match ev with Stdout s => Some s | _ => None end) tr.
Definition stderr_of (tr : list Event) : list string :=
  omap (fun ev => match ev with Stderr s => Some s | _ => None end) tr.

(** The RPC queries of a run: method and starting time. *)
Definition rpc_queries (tr : list Event) : list (string * Z) :=
  omap (fun ev => match ev with Rpc m t => Some (m, t) | _ => None end) tr.

(** *** The file system, as the set of paths that exist *)

(** [inside dir p]: [p] is [dir] or lies below it. *)
Definition inside (dir p : string) : Prop :=
  p = dir \/ String.prefix (dir +:+ "/") p = true.

#[global] Instance inside_dec dir p : Decision (inside dir p).
Proof. unfold inside. apply _. Defined.

(** [os.RemoveAll(path)]: removes [path] and everything below it; a path
    that does not exist is not an error. *)
Definition os_RemoveAll (path : string) : M (option error) := fun w =>
  Done None (set_paths w (filter (fun p => ~ inside path p) (paths w))).

(** [os.Mkdir(path, perm)] *)
Definition os_Mkdir (path : string) : M (option error) := fun w =>
  if decide (path ∈ paths w) then
    Done (Some (LibError "os" ("mkdir " +:+ path +:+ ": file exists"))) w
  else Done None (set_paths w ({[ path ]} ∪ paths w)).

Definition os_Getwd : M (Outcome string) := fun w => Done (Ok (cwd w)) w.
Definition os_Chdir (dir : string) : M unit := fun w => Done tt (set_cwd w dir).

(** *** Contexts *)

(** A [context.Context]: its deadline, if it has one, and the time at
    which it is cancelled from outside, if it is. *)
Record Context : Type := mkContext {
  ctx_deadline : option Z;
  ctx_cancel : option Z
}.

Definition context_Background : Context :=
  {| ctx_deadline := None; ctx_cancel := None |}.

(** [context.WithTimeout(parent, d)] at time [t]. *)
Definition context_WithTimeout (parent : Context) (t d : Z) : Context :=
  {| ctx_deadline :=
       Some (match ctx_deadline parent with
             | Some d' => Z.min d' (t + d)
             | None => t + d
             end);
     ctx_cancel := ctx_cancel parent |}.

(** The time at which [ctx.Done()] becomes ready. *)
Definition fires (ctx : Context) : option Z :=
  match ctx_deadline ctx, ctx_cancel ctx with
  | Some d, Some c => Some (Z.min d c)
  | Some d, None => Some d
  | None, Some c => Some c
  | None, None => None
  end.

Definition ctx_done (ctx : Context) (t : Z) : bool :=
  match fires ctx with
  | Some f => (f <=? t)%Z
  | None => false
  end.

Definition ctx_Err (ctx : Context) : error :=
  match ctx_deadline ctx, ctx_cancel ctx with
  | Some d, Some c =>
      if (c <? d)%Z then LibError "context" "context canceled"
      else LibError "context" "context deadline exceeded"
  | None, Some _ => LibError "context" "context canceled"
  | _, _ => LibError "context" "context deadline exceeded"
  end.

(** A call that takes a context: it takes [duration] and gives [out],
    unless the context fires first; then it gives the context's error at
    the time the context fires. *)
Definition ctx_call {A} (ctx : Context) (duration : Z) (out : Outcome A)
  : M (Outcome A) := fun w =>
  match fires ctx with
  | Some f =>
      if (f <=? now w + duration)%Z
      then Done (Err (ctx_Err ctx)) (set_now w (Z.max (now w) f))
      else Done out (set_now w (now w + duration))
  | None => Done out (set_now w (now w + duration))
  end.

End Runtime.

(** ** Package [harness] *)

Module Harness.
Import Runtime.

Definition NETWORKPORT : string := "33333".
Definition HOST : string := "localhost".
Definition PORT : string := "8545".

(** [type ClientType int], [Geth ClientType = iota]. *)
Definition ClientType : Type := Z.
Definition Geth : ClientType := 0.

(** [type LogLevel int] and its constants, [None = iota] to [Trace]. *)
Definition LogLevel : Type := Z.

Module Level.
Definition None : Z := 0.
Definition Err : Z := 1.
Definition Warn : Z := 2.
Definition Info : Z := 3.
Definition Debug : Z := 4.
Definition Trace : Z := 5.
End Level.

Definition ParseLogLevel (s : string) : LogLevel * option error :=
  if decide (s = "none") then (Level.None, None)
  else if decide (s = "error") then (Level.Err, None)
  else if decide (s = "warn") then (Level.Warn, None)
  else if decide (s = "info") then (Level.Info, None)
  else if decide (s = "debug") then (Level.Debug, None)
  else if decide (s = "Trace") then (Level.Trace, None)
  else (0, Some (Errorf "unknown log level: %s" [ArgStr s])).

Record ClientArgs : Type := mkClientArgs {
  FakePow : bool;
  LogLevel_ : LogLevel;
  DataDir : string;
  GenesisPath : string;
  ChainPath : string
}.

(** [*exec.Cmd]: the command line, whether the output of the command is
    wired to the caller's, the process once started, whether [Wait] was
    called. *)
Record Cmd : Type := mkCmd {
  cmd_Path : string;
  cmd_Args : list string;
  cmd_wired : bool;
  Process : option nat;
  finished : bool
}.

(** [gethClient].  [cmd] is a pointer, [nil] until [Start] sets it;
    [args] is the pointer the caller built the client with. *)
Record gethClient : Type := mkGethClient {
  cmd : option Cmd;
  path : string;
  args : ClientArgs
}.

(** [*ethclient.Client] *)
Record Client : Type := mkClient { rpc_addr : string }.

(** What the subprocesses and the RPC endpoint do, as functions of the
    events so far (the last one is the call being answered). *)
Record Env : Type := mkEnv {
  run_outcome : list Event -> option error;
  spawn_outcome : list Event -> option error;
  dial_outcome : list Event -> option error;
  dial_duration : list Event -> Z;
  blockNumber_outcome : list Event -> Outcome Z;
  blockNumber_duration : list Event -> Z
}.

Definition exec_CommandContext (ctx : Context) (name : string)
    (arg : list string) : Cmd :=
  {| cmd_Path := name; cmd_Args := arg; cmd_wired := false;
     Process := None; finished := false |}.

Definition wire (c : Cmd) : Cmd :=
  {| cmd_Path := cmd_Path c; cmd_Args := cmd_Args c; cmd_wired := true;
     Process := Process c; finished := finished c |}.

(** [cmd.Run()] *)
Definition Cmd_Run (E : Env) (c : Cmd) : M (option error) :=
  _ ← emit (Exec Run (cmd_Path c) (cmd_Args c));
  h ← history;
  mret (run_outcome E h).

(** [cmd.Start()] *)
Definition Cmd_Start (E : Env) (c : Cmd) : M (Cmd * option error) :=
  _ ← emit (Exec Spawn (cmd_Path c) (cmd_Args c));
  h ← history;
  match spawn_outcome E h with
  | Some err => mret (c, Some err)
  | None => fun w =>
      let pid := next_pid w in
      Done ({| cmd_Path := cmd_Path c; cmd_Args := cmd_Args c;
               cmd_wired := cmd_wired c; Process := Some pid;
               finished := finished c |}, None)
           (set_procs w (<[pid := true]> (procs w)) (S pid))
  end.

(** [p.Kill()] on a process that exists *)
Definition Process_Kill (pid : nat) : M (option error) := fun w =>
  match procs w !! pid with
  | Some true => Done None (set_procs w (<[pid := false]> (procs w)) (next_pid w))
  | _ => Done (Some (LibError "os" "os: process already finished")) w
  end.

(** [cmd.Wait()] *)
Definition Cmd_Wait (c : Cmd) : M (Cmd * option error) :=
  match Process c with
  | None => mret (c, Some (LibError "exec" "exec: not started"))
  | Some pid =>
      if finished c then
        mret (c, Some (LibError "exec" "exec: Wait was already called"))
      else fun w =>
        Done ({| cmd_Path := cmd_Path c; cmd_Args := cmd_Args c;
                 cmd_wired := cmd_wired c; Process := Process c;
                 finished := true |},
              match procs w !! pid with
              | Some true => None
              | _ => Some (LibError "exec" "signal: killed")
              end)
             (set_procs w (<[pid := false]> (procs w)) (next_pid w))
  end.

(** [ethclient.DialContext(ctx, addr)] *)
Definition ethclient_DialContext (E : Env) (ctx : Context) (addr : string)
  : M (Outcome Client) :=
  t ← clock;
  _ ← emit (Dial addr t);
  h ← history;
  ctx_call ctx (dial_duration E h)
    (match dial_outcome E h with
     | Some err => Err err
     | None => Ok {| rpc_addr := addr |}
     end).

(** [client.BlockNumber(ctx)] *)
Definition BlockNumber (E : Env) (client : Client) (ctx : Context)
  : M (Outcome Z) :=
  t ← clock;
  _ ← emit (Rpc "eth_blockNumber" t);
  h ← history;
  ctx_call ctx (blockNumber_duration E h) (blockNumber_outcome E h).

Definition newGethClient (path : string) (args : ClientArgs)
  : option gethClient * option error :=
  (Some {| cmd := None; path := path; args := args |}, None).

Definition NewClient (t : ClientType) (path : string) (args : ClientArgs)
  : option gethClient * option error :=
  if decide (t = Geth) then newGethClient path args
  else (None, Some (Errorf "client type unimplemented" [])).

Definition runCmd (E : Env) (ctx : Context) (path : string) (verbose : bool)
    (args : list string) : M (option error) :=
  let cmd := exec_CommandContext ctx path args in
  let cmd := if verbose then wire cmd else cmd in
  err ← Cmd_Run E cmd;
  match err with
  | Some err => mret (Some err)
  | None => mret None
  end.

Definition gethBin (root : string) : string :=
  Sprintf "%s/build/bin/geth" [ArgStr root].

Definition maybePrepend (shouldAdd : bool) (options maybe : list string)
  : list string :=
  if shouldAdd then maybe ++ options else options.

Definition Compile (E : Env) (g : gethClient) (ctx : Context) (verbose : bool)
  : M (option error) :=
  r ← os_Getwd;
  match r with
  | Err err => mret (Some err)
  | Ok dir =>
      defer (os_Chdir dir)
        (_ ← os_Chdir (path g);
         err ← runCmd E ctx "go" verbose
                 ["run"; "build/ci.go"; "install"; "./cmd/geth"];
         match err with
         | Some err => mret (Some err)
         | None => mret None
         end)
  end.

Definition Init (E : Env) (g : gethClient) (ctx : Context) (verbose : bool)
  : M (option error) :=
  let isFakepow := FakePow (args g) in
  let datadir := Sprintf "--datadir=%s" [ArgStr (DataDir (args g))] in
  let loglevel := Sprintf "--verbosity=%d" [ArgInt (LogLevel_ (args g))] in
  (* Run geth init. *)
  let options := [datadir; loglevel; "init"; GenesisPath (args g)] in
  let options := maybePrepend isFakepow options ["--fakepow"] in
  err ← runCmd E ctx (gethBin (path g)) verbose options;
  match err with
  | Some err => mret (Some err)
  | None =>
      (* Run geth import. *)
      let options := [datadir; loglevel; "import"; ChainPath (args g)] in
      let options := maybePrepend isFakepow options ["--fakepow"] in
      err ← runCmd E ctx (gethBin (path g)) verbose options;
      match err with
      | Some err => mret (Some err)
      | None => mret None
      end
  end.

Definition Start (E : Env) (g : gethClient) (ctx : Context) (verbose : bool)
  : M (gethClient * option error) :=
  let options :=
    [ Sprintf "--datadir=%s" [ArgStr (DataDir (args g))];
      Sprintf "--verbosity=%d" [ArgInt (LogLevel_ (args g))];
      Sprintf "--port=%s" [ArgStr NETWORKPORT];
      "--nodiscover";
      "--http";
      "--http.api=admin,eth,debug";
      Sprintf "--http.addr=%s" [ArgStr HOST];
      Sprintf "--http.port=%s" [ArgStr PORT] ] in
  let options := maybePrepend (FakePow (args g)) options ["--fakepow"] in
  let c := exec_CommandContext ctx (gethBin (path g)) options in
  let c := if verbose then wire c else c in
  '(c, err) ← Cmd_Start E c;
  let g := {| cmd := Some c; path := path g; args := args g |} in
  match err with
  | Some err => mret (g, Some err)
  | None => mret (g, None)
  end.

Definition HttpAddr (g : gethClient) : string :=
  Sprintf "http://%s:%s" [ArgStr HOST; ArgStr PORT].

(** [Close]: [g.cmd.Process.Kill()] reads through two pointers. *)
Definition Close (g : gethClient) : M (gethClient * option error) :=
  match cmd g with
  | None => panic nil_dereference
  | Some c =>
      match Process c with
      | None => panic nil_dereference
      | Some pid =>
          _ ← Process_Kill pid;
          '(c, _) ← Cmd_Wait c;
          _ ← os_RemoveAll (DataDir (args g));
          mret ({| cmd := Some c; path := path g; args := args g |}, None)
      end
  end.

(** [Running]: the loop [for { select { ... } }], one iteration for each
    unit of fuel. *)
Fixpoint Running (E : Env) (fuel : nat) (g : gethClient) (ctx : Context)
  : M bool :=
  match fuel with
  | O => fun w => Unfinished w
  | S fuel =>
      t ← clock;
      if ctx_done ctx t then mret false
      else
        r ← ethclient_DialContext E ctx (HttpAddr g);
        match r with
        | Err _ => Running E fuel g ctx    (* Client may still be starting. *)
        | Ok client =>
            r ← BlockNumber E client ctx;
            match r with
            | Ok _ => mret true
            | Err _ => Running E fuel g ctx
            end
        end
  end.

(** The strings [ParseLogLevel] has a case for. *)
Definition levels : list string :=
  ["none"; "error"; "warn"; "info"; "debug"; "Trace"].

(** The two commands of [Init], as events: [geth init] and
    [geth import]. *)
Definition init_command (g : gethClient) : Event :=
  Exec Run (gethBin (path g))
    (maybePrepend (FakePow (args g))
       [ Sprintf "--datadir=%s" [ArgStr (DataDir (args g))];
         Sprintf "--verbosity=%d" [ArgInt (LogLevel_ (args g))];
         "init"; GenesisPath (args g) ]
       ["--fakepow"]).

Definition import_command (g : gethClient) : Event :=
  Exec Run (gethBin (path g))
    (maybePrepend (FakePow (args g))
       [ Sprintf "--datadir=%s" [ArgStr (DataDir (args g))];
         Sprintf "--verbosity=%d" [ArgInt (LogLevel_ (args g))];
         "import"; ChainPath (args g) ]
       ["--fakepow"]).

(** The client is never reachable: connections never open, or queries
    are never answered. *)
Definition never_reachable (E : Env) : Prop :=
  (forall h, is_Some (dial_outcome E h)) \/
  (forall h n, blockNumber_outcome E h <> Ok n).

(** An attempt of the readiness poll that starts before time [f]. *)
Definition started_before (f : Z) (ev : Event) : Prop :=
  match ev with
  | Dial _ t => t < f
  | Rpc _ t => t < f
  | _ => False
  end.

End Harness.

(** ** Repeated teardown *)

Module Teardown.
Import Runtime Harness.

(** [Close] called [n] times in a row on the same client. *)
Fixpoint Close_times (n : nat) (g : gethClient) : M gethClient :=
  match n with
  | O => mret g
  | S n => '(g, _) ← Close g; Close_times n g
  end.

End Teardown.

(** ** The verifier built on package [harness] *)

Module HarnessVerifier.
Import Runtime Harness.

(** [time.Second], in nanoseconds, the unit of the clock. *)
Definition time_Second : Z := 1000000000.

Definition makeDataDir (path : string) : M (option error) :=
  err ← os_RemoveAll path;
  match err with
  | Some err => mret (Some err)
  | None =>
      err ← os_Mkdir path;
      match err with
      | Some err => mret (Some err)
      | None => mret None
      end
  end.

(** [checkFlag] once the client is ready: lines 291-305. *)
Definition verifyFlag (E : Env) (client : gethClient) (ctx : Context)
  : M (option error) :=
  r ← ethclient_DialContext E ctx (HttpAddr client);
  match r with
  | Err err => mret (Some err)
  | Ok eth =>
      (* Verify flag. *)
      r ← BlockNumber E eth ctx;
      match r with
      | Err err => mret (Some err)
      | Ok num =>
          if decide (num <> 1) then
            mret (Some (Errorf "chain not loaded correctly" []))
          else mret None
      end
  end.

(** [checkFlag] once the client is started and [Close] is deferred:
    lines 284-305. *)
Definition checkFlag_started (E : Env) (fuel : nat) (client : gethClient)
    (ctx : Context) : M (option error) :=
  (* Block until client is running. *)
  t ← clock;
  let ctx := context_WithTimeout ctx t (3 * time_Second) in
  defer (mret tt)                                  (* defer cancel() *)
    (ok ← Running E fuel client ctx;
     if negb ok then mret (Some (Errorf "unable to connect to client" []))
     else verifyFlag E client ctx).

Definition checkFlag (E : Env) (fuel : nat) (logLevelStr : string)
    (skipCompile verbose : bool) : M (option error) :=
  match ParseLogLevel logLevelStr with
  | (_, Some err) => mret (Some err)
  | (logLevel, None) =>
  (* Make directory to store client data. *)
  err ← makeDataDir "datadir";
  match err with
  | Some err => mret (Some err)
  | None =>
  defer (_ ← os_RemoveAll "datadir"; mret tt)
    ((* Create client configuration *)
     let args := {| FakePow := true; LogLevel_ := logLevel;
                    DataDir := "datadir"; GenesisPath := "genesis.json";
                    ChainPath := "chain.rlp" |} in
     match NewClient Geth "go-ethereum" args with
     | (_, Some err) => mret (Some err)
     | (None, None) => panic nil_dereference
     | (Some client, None) =>
     (* Compile client. *)
     let ctx := context_Background in
     err ← (if skipCompile then
              _ ← Println "skipping compilation..."; mret None
            else Compile E client ctx verbose);
     match err with
     | Some err => mret (Some err)
     | None =>
     (* Initialize client. *)
     err ← Init E client ctx verbose;
     match err with
     | Some err => mret (Some err)
     | None =>
     (* Start client. *)
     '(client, err) ← Start E client ctx verbose;
     match err with
     | Some err => mret (Some err)
     | None =>
     defer (_ ← Close client; mret tt)
       (checkFlag_started E fuel client ctx)
     end end end end)
  end end.

(** [exit]: the message on the standard error, then [os.Exit(1)]. *)
Definition exit (msg : error) : M Z :=
  _ ← Fprintf_Stderr ("%s" +:+ LF) [ArgErr msg];
  mret 1.

(** [main], from the parsed flags to the exit status. *)
Definition main (E : Env) (fuel : nat) (logLevel : string)
    (quiet skipCompile : bool) : M Z :=
  err ← checkFlag E fuel logLevel skipCompile (negb quiet);
  match err with
  | Some err => exit err
  | None => _ ← Println "Flag captured."; mret 0
  end.

End HarnessVerifier.

(** ** The in-process verifiers *)

Module Node.
Import Runtime Loader.

(** [*node.Node] *)
Record Node : Type := mkNode { node_id : nat }.

(** What the in-process geth node does in one run: each of these calls
    happens at most once. *)
Record NodeEnv : Type := mkNodeEnv {
  files : gmap string (list byte);
  lib : Lib;
  node_New : option error;
  eth_New : option error;
  InsertChain : list Block -> option error;
  stack_Start : option error;
  console_Attach : option error;
  console_New : option error;
  node_Attach : option error;
  BlockByNumber : Z -> Outcome Block;
  LvlFromString : string -> Outcome Z
}.

(** [common.HexToHash("0x3155...")] *)
Definition flagHash : Z :=
  0x31553f1bb856b900a24d456f51ac4372fa57e08c5a16812db3ff87e63320bf26.

End Node.

(** The verifier with the developer console ([--dev]). *)
Module ConsoleVerifier.
Import Runtime Loader Node.

Definition startConsole (N : NodeEnv) (stack : Node) : M (option error) :=
  _ ← emit (Call "stack.Attach");
  match console_Attach N with
  | Some err =>
      mret (Some (Errorf "Failed to attach to geth: %v" [ArgErr err]))
  | None =>
      _ ← emit (Call "console.New");
      match console_New N with
      | Some err =>
          mret (Some (Errorf "Failed to start console: %v" [ArgErr err]))
      | None =>
          defer (emit (Call "console.Stop"))
            (_ ← emit (Call "console.Welcome");
             _ ← emit (Call "console.Interactive");
             mret None)
      end
  end.

(** runGeth creates and starts a geth node *)
Definition runGeth (N : NodeEnv) : M (option Node * option error) :=
  _ ← emit (Call "node.New");
  match node_New N with
  | Some err => mret (None, Some err)
  | None =>
  let stack := {| node_id := 0 |} in
  _ ← Println "setting up geth";
  match loadChain (lib N) (files N) "chain.rlp" "genesis.json" with
  | (_, Some err) =>
      _ ← emit (Call "stack.Close");
      mret (None, Some err)
  | (None, None) => panic nil_dereference
  | (Some chain, None) =>
  (* NetworkId: chain.genesis.Config.ChainID.Uint64() *)
  match Config (genesis chain) ≫= ChainID with
  | None => panic nil_dereference
  | Some networkId =>
  _ ← emit (Call "eth.New");
  match eth_New N with
  | Some err =>
      _ ← emit (Call "stack.Close");
      mret (None, Some err)
  | None =>
  _ ← emit (Call "stack.RegisterAPIs");
  match blocks chain with
  | [] => panic "runtime error: slice bounds out of range [1:0]"
  | _ :: rest =>
  _ ← emit (Call "InsertChain");
  _ ← match InsertChain N rest with
      | Some err => Fprintf_Stderr "failed to import chain: %s" [ArgErr err]
      | None => mret tt
      end;
  _ ← emit (Call "stack.Start");
  match stack_Start N with
  | Some err =>
      _ ← emit (Call "stack.Close");
      mret (None, Some err)
  | None => mret (Some stack, None)
  end end end end end end.

Definition checkFlag (N : NodeEnv) (logLevelStr : string)
    (skipCompile verbose devMode : bool) : M (option error) :=
  (* Start geth. *)
  '(node, err) ← runGeth N;
  match err with
  | Some err =>
      _ ← Println "erroring out";
      mret (Some err)
  | None =>
  match node with
  | None => panic nil_dereference
  | Some node =>
  err ← (if devMode then
           err ← startConsole N node;
           match err with
           | Some err => mret (Some err)
           | None => _ ← Println ""; mret None
           end
         else mret None);
  match err with
  | Some err => mret (Some err)
  | None =>
  _ ← emit (Call "node.Attach");
  match node_Attach N with
  | Some err => mret None                          (* return nil *)
  | None =>
  (* Verify flag. *)
  t ← clock;
  _ ← emit (Rpc "eth_getBlockByNumber" t);
  match BlockByNumber N 1 with
  | Err err => mret (Some err)
  | Ok block =>
      if decide (Hash block <> flagHash) then
        mret (Some (Errorf "could not load chain" []))
      else mret None
  end end end end end.

Definition main (N : NodeEnv) (logLevel : string)
    (quiet skipCompile devMode : bool) : M Z :=
  err ← checkFlag N logLevel skipCompile (negb quiet) devMode;
  match err with
  | Some err =>
      _ ← Fprintf_Stderr ("Flag not captured: %s" +:+ LF) [ArgErr err];
      mret 1
  | None => _ ← Println "Flag captured."; mret 0
  end.

End ConsoleVerifier.

(** The verifier with leveled logging ([--console]). *)
Module LoggingVerifier.
Import Runtime Loader Node.

(** The root logger that [checkFlag] installs: where it writes and the
    verbosity it lets through. *)
Record Logger : Type := mkLogger {
  log_discard : bool;
  log_verbosity : Z
}.

Definition LvlError : Z := 1.

(** [log.Error(msg, "err", err)] *)
Definition log_Error (lg : Logger) (msg : string) (err : error) : M unit :=
  if negb (log_discard lg) && (LvlError <=? log_verbosity lg)%Z then
    emit (Stderr (Sprintf ("ERROR %s err=%v" +:+ LF) [ArgStr msg; ArgErr err]))
  else mret tt.

Definition startConsole (N : NodeEnv) (stack : Node) : M (option error) :=
  _ ← emit (Call "stack.Attach");
  match console_Attach N with
  | Some err =>
      mret (Some (Errorf "Failed to attach to geth: %v" [ArgErr err]))
  | None =>
      _ ← emit (Call "console.New");
      match console_New N with
      | Some err =>
          mret (Some (Errorf "Failed to start console: %v" [ArgErr err]))
      | None =>
          defer (emit (Call "console.Stop"))
            (_ ← Println "";
             _ ← emit (Call "console.Welcome");
             _ ← emit (Call "console.Interactive");
             mret None)
      end
  end.

(** runGeth creates and starts a geth node *)
Definition runGeth (N : NodeEnv) (lg : Logger)
  : M (option Node * option error) :=
  _ ← emit (Call "node.New");
  match node_New N with
  | Some err => mret (None, Some err)
  | None =>
  let stack := {| node_id := 0 |} in
  match loadChain (lib N) (files N) "chain.rlp" "genesis.json" with
  | (_, Some err) =>
      _ ← emit (Call "stack.Close");
      mret (None, Some err)
  | (None, None) => panic nil_dereference
  | (Some chain, None) =>
  match Config (genesis chain) ≫= ChainID with
  | None => panic nil_dereference
  | Some networkId =>
  _ ← emit (Call "eth.New");
  match eth_New N with
  | Some err =>
      _ ← emit (Call "stack.Close");
      mret (None, Some err)
  | None =>
  _ ← emit (Call "stack.RegisterAPIs");
  match blocks chain with
  | [] => panic "runtime error: slice bounds out of range [1:0]"
  | _ :: rest =>
  _ ← emit (Call "InsertChain");
  _ ← match InsertChain N rest with
      | Some err => log_Error lg "failed to import chain" err
      | None => mret tt
      end;
  _ ← emit (Call "stack.Start");
  match stack_Start N with
  | Some err =>
      _ ← emit (Call "stack.Close");
      mret (None, Some err)
  | None => mret (Some stack, None)
  end end end end end end.

Definition checkFlag (N : NodeEnv) (logLevel : Z) (quiet consoleMode : bool)
  : M (option error) :=
  let glogger := {| log_discard := quiet; log_verbosity := logLevel |} in
  (* Start geth. *)
  '(node, err) ← runGeth N glogger;
  match err with
  | Some err => mret (Some err)
  | None =>
  match node with
  | None => panic nil_dereference
  | Some node =>
  (* Open console if requested. *)
  err ← (if consoleMode then
           err ← startConsole N node;
           match err with
           | Some err => mret (Some err)
           | None => _ ← Println ""; mret None
           end
         else mret None);
  match err with
  | Some err => mret (Some err)
  | None =>
  _ ← emit (Call "node.Attach");
  match node_Attach N with
  | Some err => mret None                          (* return nil *)
  | None =>
  (* Verify flag. *)
  let ctx := context_Background in
  t ← clock;
  _ ← emit (Rpc "eth_getBlockByNumber" t);
  match BlockByNumber N 1 with
  | Err err => mret (Some (Errorf "couldn't load head block" []))
  | Ok block =>
      if decide (Hash block <> flagHash) then
        mret (Some (Errorf "could not load chain" []))
      else mret None
  end end end end end.

Definition main (N : NodeEnv) (logLevelStr : string)
    (quiet consoleMode : bool) : M Z :=
  match LvlFromString N logLevelStr with
  | Err err =>
      _ ← Fprintf_Stderr ("%s" +:+ LF) [ArgErr err];
      mret 1
  | Ok lvl =>
      err ← checkFlag N lvl quiet consoleMode;
      match err with
      | Some err =>
          _ ← Fprintf_Stderr ("Flag not captured: %s" +:+ LF) [ArgErr err];
          mret 1
      | None => _ ← Println "Flag captured."; mret 0
      end
  end.

End LoggingVerifier.

(** ** The fixture generator ([cmd/chainmaker]) *)

Module Chainmaker.
Import Runtime Loader.

(** The libraries the generator calls: the RLP encoding of a block, the
    JSON encoding of a genesis description, the genesis block that
    [MustCommit] returns, the blocks that [core.GenerateChain] builds on
    it, the address of the funded key. *)
Record Writer : Type := mkWriter {
  EncodeRLP : Block -> list byte;
  MarshalJSON : Genesis -> Outcome (list byte);
  MustCommit : Genesis -> Block;
  GenerateChain : Genesis -> Block -> nat -> list Block;
  PubkeyToAddress : Z
}.

(** [os.OpenFile(name, O_CREATE|O_WRONLY|O_TRUNC, 0644)]: the file exists
    and is empty afterwards; the empty name is not a file. *)
Definition os_OpenFile (fs : gmap string (list byte)) (name : string)
  : Outcome (gmap string (list byte)) :=
  if decide (name = "") then
    Err (LibError "os" "open : no such file or directory")
  else Ok (<[name := []]> fs).

(** [w.Write(data)] on the file opened under [name]. *)
Definition file_Write (fs : gmap string (list byte)) (name : string)
    (data : list byte) : gmap string (list byte) :=
  <[name := default [] (fs !! name) ++ data]> fs.

Definition writeChain (W : Writer) (chain : list Block) (filename : string)
    (fs : gmap string (list byte)) : gmap string (list byte) * option error :=
  match os_OpenFile fs filename with
  | Err err => (fs, Some err)
  | Ok fs =>
      (foldl (fun fs b => file_Write fs filename (EncodeRLP W b)) fs chain,
       None)
  end.

Definition writeGenesis (W : Writer) (gspec : Genesis) (filename : string)
    (fs : gmap string (list byte)) : gmap string (list byte) * option error :=
  match os_OpenFile fs filename with
  | Err err => (fs, Some err)
  | Ok fs =>
      match MarshalJSON W gspec with
      | Err err => (fs, Some err)
      | Ok raw => (file_Write fs filename raw, None)
      end
  end.

(** The genesis description that [main] builds. *)
Definition aa : Z := 0xaa * 2 ^ 152.               (* common.Address{0xaa} *)
Definition funds : Z := 1000000000000000.

Definition gspec (W : Writer) : Genesis :=
  {| Config := Some {| ChainID := Some 1 |};       (* params.TestChainConfig *)
     Alloc :=
       <[PubkeyToAddress W := {| Balance := funds; Nonce := 0; Code := [] |}]>
       (<[aa := {| Balance := 0; Nonce := 1;
                   Code := [x60; x41; x60; x01; x01] |}]> ∅);
     Difficulty := 1234;
     BaseFee := 1000000000 |}.

(** [main], from the two file names to the files, the output and the
    exit status. *)
Definition main (W : Writer) (chainFilename genesisFilename : string)
    (fs : gmap string (list byte))
  : gmap string (list byte) * list Event * Z :=
  let genesis := MustCommit W (gspec W) in
  (* Build chain. *)
  let blocks := GenerateChain W (gspec W) genesis 1 in
  let blocks := [genesis] ++ blocks in
  (* Write to disk. *)
  match writeGenesis W (gspec W) genesisFilename fs with
  | (fs, Some err) =>
      (fs,
       [Stderr (Sprintf "%s"
          [ArgErr (Errorf "unable to write genesis file: %s" [ArgErr err])])],
       1)
  | (fs, None) =>
      match writeChain W blocks chainFilename fs with
      | (fs, Some err) =>
          (fs,
           [Stderr (Sprintf "%s"
              [ArgErr (Errorf "unable to write chain to disk: %s" [ArgErr err])])],
           1)
      | (fs, None) =>
          (fs,
           [Stdout (Sprintf "wrote %d blocks to disk"
                      [ArgInt (Z.of_nat (length blocks))])],
           0)
      end
  end.

(** The reader of a file that holds [data]. *)
Definition file_reader (data : list byte) : Reader :=
  {| rd_bytes := data; rd_err := None |}.

(** [encodes L W b]: the decoder [L] reads back what the encoder [W]
    writes for [b], and leaves the rest of the file. *)
Definition encodes (L : Lib) (W : Writer) (b : Block) : Prop :=
  forall rest,
    rlp_Decode L (file_reader (EncodeRLP W b ++ rest))
    = Decoded b (file_reader rest).

End Chainmaker.

(** ** Package [params]: the version strings *)

Module Params.

Definition VersionMajor : Z := 1.
Definition VersionMinor : Z := 11.
Definition VersionPatch : Z := 0.
Definition VersionMeta : string := "unstable".
Definition ourPath : string := "github.com/ethereum/go-ethereum".

(** [strings.HasPrefix]:
    [len(s) >= len(prefix) && s[:len(prefix)] == prefix]. *)
Definition HasPrefix (s prefix : string) : bool :=
  (String.length prefix <=? String.length s)%nat &&
  String.eqb (substring 0 (String.length prefix) s) prefix.

Definition Version : string :=
  Sprintf "%d.%d.%d" [ArgInt VersionMajor; ArgInt VersionMinor; ArgInt VersionPatch].

Definition VersionWithMeta : string :=
  let v := Version in
  if decide (VersionMeta <> "") then v +:+ "-" +:+ VersionMeta else v.

Definition ArchiveVersion (gitCommit : string) : string :=
  let vsn := Version in
  let vsn :=
    if decide (VersionMeta <> "stable") then vsn +:+ ("-" +:+ VersionMeta)
    else vsn in
  let vsn :=
    if (8 <=? String.length gitCommit)%nat
    then vsn +:+ ("-" +:+ substring 0 8 gitCommit)
    else vsn in
  vsn.

Definition VersionWithCommit (gitCommit gitDate : string) : string :=
  let vsn := VersionWithMeta in
  let vsn :=
    if (8 <=? String.length gitCommit)%nat
    then vsn +:+ ("-" +:+ substring 0 8 gitCommit)
    else vsn in
  let vsn :=
    if bool_decide (VersionMeta <> "stable") && bool_decide (gitDate <> "")
    then vsn +:+ ("-" +:+ gitDate)
    else vsn in
  vsn.

(** [debug.Module], with the module that replaces it (path, version),
    and [debug.BuildInfo]. *)
Record Module_ : Type := mkModule {
  mod_Path : string;
  mod_Version : string;
  mod_Replace : option (string * string)
}.

Record BuildInfo : Type := mkBuildInfo {
  Path : string;
  Main : Module_;
  Deps : list Module_;
  Settings : list (string * string)
}.

(** What the Go runtime tells: [debug.ReadBuildInfo()] ([None] when not
    ok), [runtime.Version()], [runtime.GOARCH], [runtime.GOOS]. *)
Record GoRuntime : Type := mkGoRuntime {
  ReadBuildInfo : option BuildInfo;
  runtime_Version : string;
  GOARCH : string;
  GOOS : string
}.

(** The loop of [findModule] over [info.Deps]. *)
Fixpoint findDep (deps : list Module_) (path : string) : option Module_ :=
  match deps with
  | [] => None
  | m :: deps =>
      if decide (mod_Path m = path) then Some m else findDep deps path
  end.

(** findModule returns the module at path. *)
Definition findModule (info : BuildInfo) (path : string) : option Module_ :=
  if decide (Path info = ourPath) then Some (Main info)
  else findDep (Deps info) path.

(** One round of the loop of [vcsInfo]. *)
Definition vcsInfo_step (acc : string * string * string) (v : string * string)
  : string * string * string :=
  let '(revision, dirty, date) := acc in
  let '(Key, Value) := v in
  if decide (Key = "vcs.revision") then (Value, dirty, date)
  else if decide (Key = "vcs.modified") then
    if decide (Value = "true") then (revision, " (dirty)", date)
    else (revision, dirty, date)
  else if decide (Key = "vcs.time") then (revision, dirty, Value)
  else (revision, dirty, date).

(** vcsInfo returns VCS information regarding the commit, dirty status,
    and date modified.  Its argument is shadowed by a fresh
    [debug.ReadBuildInfo()]. *)
Definition vcsInfo (R : GoRuntime) (info : BuildInfo)
  : string * string * string :=
  let start := ("unknown", "", "unknown") in
  match ReadBuildInfo R with
  | Some info => foldl vcsInfo_step start (Settings info)
  | None => start
  end.

(** A string, or a panic. *)
Inductive Value (A : Type) : Type :=
| Returns (a : A)
| Panics (msg : string).
Arguments Returns {A} a.
Arguments Panics {A} msg.

(** RuntimeInfo returns build and platform information about the current
    binary. *)
Definition RuntimeInfo (R : GoRuntime) : Value string :=
  let version := VersionWithMeta in
  let version :=
    match ReadBuildInfo R with
    | None => Returns version
    | Some buildInfo =>
        if HasPrefix (Path buildInfo) ourPath then
          let '(revision, dirty, date) := vcsInfo R buildInfo in
          let version :=
            Sprintf "geth %s" [ArgStr (VersionWithCommit revision date)] in
          if decide (dirty <> "") then
            Returns (Sprintf "%s %s" [ArgStr version; ArgStr dirty])
          else Returns version
        else
          match findModule buildInfo ourPath with
          | None => Panics Runtime.nil_dereference
          | Some m =>
              let version := mod_Version m in
              match mod_Replace m with
              | Some (rpath, rversion) =>
                  Returns (Sprintf "%s (replaced by %s@%s)"
                             [ArgStr version; ArgStr rpath; ArgStr rversion])
              | None => Returns version
              end
          end
    end in
  match version with
  | Panics msg => Panics msg
  | Returns version =>
      Returns (Sprintf "%s %s %s %s"
                 [ArgStr version; ArgStr (runtime_Version R);
                  ArgStr (GOARCH R); ArgStr (GOOS R)])
  end.

End Params.

(** ** A small instance of the libraries

    A toy wire format on which the definitions run: a block is two bytes
    (its number, its hash), a compressed file is the two gzip magic bytes
    followed by the data, a genesis description is a non-empty file whose
    first byte is the chain id. *)

Module Sample.
Import Loader.

Definition byteZ (b : byte) : Z := Z.of_N (Byte.to_N b).

Definition Decode (s : Stream) : DecodeResult :=
  match rd_bytes s with
  | [] => DecodeErr (default io_EOF (rd_err s))
  | [_] => DecodeErr (LibError "rlp" "unexpected EOF")
  | n :: h :: rest =>
      Decoded {| blk_number := byteZ n; blk_hash := byteZ h; blk_body := [] |}
              {| rd_bytes := rest; rd_err := rd_err s |}
  end.

Definition NewReader (r : Reader) : Outcome Reader :=
  match rd_bytes r with
  | x1f :: x8b :: data => Ok {| rd_bytes := data; rd_err := rd_err r |}
  | _ => Err (LibError "gzip" "gzip: invalid header")
  end.

Definition Unmarshal (data : list byte) : Genesis * option error :=
  match data with
  | [] => (Genesis_zero, Some (LibError "json" "unexpected end of JSON input"))
  | c :: _ =>
      ({| Config := Some {| ChainID := Some (byteZ c) |}; Alloc := ∅;
          Difficulty := 1234; BaseFee := 1000000000 |}, None)
  end.

Definition genesisBlock (g : Genesis) : Block :=
  {| blk_number := 0; blk_hash := Difficulty g; blk_body := [] |}.

Program Definition lib : Lib :=
  {| json_Unmarshal := Unmarshal;
     ToBlock := genesisBlock;
     gzip_NewReader := NewReader;
     rlp_Decode := Decode;
     rlp_Decode_consumes := _ |}.
Next Obligation.
  intros s b rest. unfold Decode.
  destruct (rd_bytes s) as [|n [|h tl]]; try discriminate.
  intros H. injection H as _ <-. simpl. lia.
Qed.

(** A genesis file, a chain of two blocks numbered 1 and 2, the same
    chain compressed, a chain whose first block is numbered 2, a chain
    cut in the middle of its second block, and the two-block chain
    stored uncompressed under a name that ends in [.gz]. *)
Definition files : gmap string (list byte) :=
  <["genesis.json" := [x01]]>
  (<["chain.rlp" := [x01; xaa; x02; xbb]]>
  (<["chain.rlp.gz" := [x1f; x8b; x01; xaa; x02; xbb]]>
  (<["wrong.rlp" := [x02; xaa]]>
  (<["cut.rlp" := [x01; xaa; x02]]>
  (<["raw.gz" := [x01; xaa; x02; xbb]]> ∅))))).

End Sample.

(** ** Sample environments *)

Module SampleEnv.
Import Runtime Harness Node.

(** A client whose RPC endpoint never answers: every connection opens
    in one unit of time, every query fails after one more. *)
Definition unreachable : Env :=
  {| run_outcome := fun _ => None;
     spawn_outcome := fun _ => None;
     dial_outcome := fun _ => None;
     dial_duration := fun _ => 1;
     blockNumber_outcome := fun _ => Err (LibError "rpc" "connection refused");
     blockNumber_duration := fun _ => 1 |}.

(** A client that answers the third query, with head number [head]. *)
Definition answering (head : Z) : Env :=
  {| run_outcome := fun _ => None;
     spawn_outcome := fun _ => None;
     dial_outcome := fun _ => None;
     dial_duration := fun _ => 1000;
     blockNumber_outcome := fun h =>
       if (length h <? 6)%nat then Err (LibError "rpc" "connection refused")
       else Ok head;
     blockNumber_duration := fun _ => 1000000 |}.

(** A geth whose [init] subcommand fails. *)
Definition init_fails : Env :=
  {| run_outcome := fun h =>
       match last h with
       | Some (Exec Run _ argv) =>
           if decide ("init" ∈ argv) then Some (LibError "exec" "exit status 1")
           else None
       | _ => None
       end;
     spawn_outcome := fun _ => None;
     dial_outcome := fun _ => None;
     dial_duration := fun _ => 1000;
     blockNumber_outcome := fun _ => Ok 1;
     blockNumber_duration := fun _ => 1000000 |}.

Definition world0 : World :=
  {| trace := []; paths := {[ "genesis.json"; "chain.rlp" ]}; cwd := "/ctf";
     procs := ∅; next_pid := 1; now := 0 |}.

Definition args0 : ClientArgs :=
  {| FakePow := true; LogLevel_ := 3; DataDir := "datadir";
     GenesisPath := "genesis.json"; ChainPath := "chain.rlp" |}.

Definition client0 : gethClient :=
  {| cmd := None; path := "go-ethereum"; args := args0 |}.

(** An in-process node on the sample files that runs, and answers the
    query for block 1 with a block of hash [hash]; [attach] is what
    [node.Attach] gives, [import] what [InsertChain] gives. *)
Definition node (attach import : option error) (hash : Z) : NodeEnv :=
  {| files := Sample.files;
     lib := Sample.lib;
     node_New := None;
     eth_New := None;
     InsertChain := fun _ => import;
     stack_Start := None;
     console_Attach := None;
     console_New := None;
     node_Attach := attach;
     BlockByNumber := fun n =>
       Ok {| Loader.blk_number := n; Loader.blk_hash := hash;
             Loader.blk_body := [] |};
     LvlFromString := fun s =>
       if decide (s = "error") then Ok 1
       else Err (LibError "log" ("unknown level: " +:+ s)) |}.

End SampleEnv.

(** ** A sample fixture generator *)

Module SampleWriter.
Import Loader Chainmaker.

(** The inverse of [Sample.byteZ] on the integers a byte holds. *)
Definition Zbyte (z : Z) : byte := default x00 (Byte.of_N (Z.to_N z)).

(** The writer of the toy wire format that [Sample.lib] reads: two bytes
    for each block, one byte for a genesis description. *)
Definition writer : Writer :=
  {| EncodeRLP := fun b => [Zbyte (blk_number b); Zbyte (blk_hash b)];
     MarshalJSON := fun g =>
       match Config g ≫= ChainID with
       | Some id => Ok [Zbyte id]
       | None => Err (LibError "json" "json: unsupported value")
       end;
     MustCommit := fun g =>
       {| blk_number := 0; blk_hash := 7; blk_body := [] |};
     GenerateChain := fun g parent n =>
       (fun i => {| blk_number := Z.of_nat (S i); blk_hash := 170;
                    blk_body := [] |}) <$> seq 0 n;
     PubkeyToAddress := 0x71562b71999873db5b286df957af199ec94617f7 |}.

(** A genesis description that the toy JSON format carries whole. *)
Definition genesis1 : Genesis :=
  {| Config := Some {| ChainID := Some 1 |}; Alloc := ∅;
     Difficulty := 1234; BaseFee := 1000000000 |}.

Definition block (n h : Z) : Block :=
  {| blk_number := n; blk_hash := h; blk_body := [] |}.

End SampleWriter.
(** * Properties *)

(** ** Formatting and suffixes *)

Example Sprintf_index :
  Sprintf "block at index %d has wrong number %d" [ArgInt 0; ArgInt 2]
  = "block at index 0 has wrong number 2".
Proof. reflexivity. Qed.

Example HasSuffix_gz :
  HasSuffix "chain.rlp.gz" ".gz" = true /\ HasSuffix "chain.rlp" ".gz" = false
  /\ HasSuffix "gz" ".gz" = false.
Proof. repeat split; reflexivity. Qed.


(** ** The loader *)

Module LoaderFacts.
Import Loader.

Lemma int_wrap_small z : - 2 ^ 63 <= z < 2 ^ 63 -> int_wrap z = z.
Proof.
  intros Hz. unfold int_wrap.
  rewrite Z.mod_small by lia. lia.
Qed.

Lemma int_add_wrap x : int_add (int_wrap x) 1 = int_wrap (x + 1).
Proof.
  unfold int_add, int_wrap.
  replace ((x + 2 ^ 63) mod 2 ^ 64 - 2 ^ 63 + 1 + 2 ^ 63)
    with ((x + 2 ^ 63) mod 2 ^ 64 + 1) by lia.
  rewrite Zplus_mod_idemp_l.
  f_equal. f_equal. lia.
Qed.

Lemma uint64_int_wrap x : uint64 (int_wrap x) = uint64 x.
Proof.
  unfold uint64, int_wrap.
  rewrite Zminus_mod_idemp_l. f_equal. lia.
Qed.

Lemma uint64_small z : 0 <= z < 2 ^ 64 -> uint64 z = z.
Proof. intros Hz. unfold uint64. now rewrite Z.mod_small. Qed.

Section WithLib.
Context (L : Lib).

Lemma blocks_loop_unfold' i s acc :
  blocks_loop L i s acc =
  match rlp_Decode L s with
  | DecodeErr err =>
      if decide (err = io_EOF) then (Some acc, None)
      else (None, Some (Errorf "at block index %d: %v" [ArgInt i; ArgErr err]))
  | Decoded b rest =>
      if decide (NumberU64 b <> uint64 (int_add i 1)) then
        (None, Some (Errorf "block at index %d has wrong number %d"
                            [ArgInt i; ArgInt (NumberU64 b)]))
      else blocks_loop L (int_add i 1) rest (acc ++ [b])
  end.
Proof.
  funelim (blocks_loop L i s acc).
  - rewrite Hdec. reflexivity.
  - rewrite e. reflexivity.
Qed.

Lemma blocksFromFile_chainStream fs chainfile gblock :
  blocksFromFile L fs chainfile gblock =
  match chainStream L fs chainfile with
  | Err err => (None, Some err)
  | Ok s => blocks_loop L 0 s [gblock]
  end.
Proof.
  unfold blocksFromFile, chainStream.
  destruct (os_Open fs chainfile) as [fh|err]; [|reflexivity].
  destruct (HasSuffix chainfile ".gz"); [|reflexivity].
  destruct (gzip_NewReader L fh); reflexivity.
Qed.

(** *** Runs of the decoder *)

Lemma Decodes_app s bs s' bs' s'' :
  Decodes L s bs s' -> Decodes L s' bs' s'' -> Decodes L s (bs ++ bs') s''.
Proof.
  induction 1 as [s|s b s1 bs s2 Hd Hrun IH]; intros Hrest; simpl.
  - exact Hrest.
  - econstructor; [exact Hd|]. apply IH, Hrest.
Qed.

Lemma Decodes_split s bs bs' s'' :
  Decodes L s (bs ++ bs') s'' ->
  exists s', Decodes L s bs s' /\ Decodes L s' bs' s''.
Proof.
  revert s. induction bs as [|b bs IH]; intros s Hrun; simpl in Hrun.
  - exists s. split; [constructor|exact Hrun].
  - inversion Hrun as [|? ? s1 ? ? Hd Hrest]; subst.
    destruct (IH _ Hrest) as (s' & Hl & Hr).
    exists s'. split; [econstructor; eassumption|exact Hr].
Qed.

Lemma Decodes_last s bs b s'' :
  Decodes L s (bs ++ [b]) s'' ->
  exists s', Decodes L s bs s' /\ rlp_Decode L s' = Decoded b s''.
Proof.
  intros Hrun. destruct (Decodes_split _ _ _ _ Hrun) as (s' & Hl & Hr).
  exists s'. split; [exact Hl|].
  inversion Hr as [|? ? s1 ? ? Hd Hnil]; subst.
  inversion Hnil; subst. exact Hd.
Qed.

(** The blocks of a run never outnumber the bytes of the stream. *)
Lemma Decodes_length s bs s' :
  Decodes L s bs s' ->
  (length bs + length (rd_bytes s') <= length (rd_bytes s))%nat.
Proof.
  induction 1 as [s|s b s1 bs s2 Hd Hrun IH]; simpl; [lia|].
  apply rlp_Decode_consumes in Hd. lia.
Qed.

(** *** The loop *)

Lemma numbered_cons p b bs :
  numbered p (b :: bs) <->
  NumberU64 b = uint64 (Z.of_nat p + 1) /\ numbered (S p) bs.
Proof.
  unfold numbered. split.
  - intros H. split.
    + specialize (H 0%nat b eq_refl). now rewrite Nat.add_0_r in H.
    + intros j b' Hj. specialize (H (S j) b' Hj).
      now rewrite Nat.add_succ_r in H.
  - intros [H0 HS] [|j] b' Hj; simpl in Hj.
    + injection Hj as <-. now rewrite Nat.add_0_r.
    + rewrite Nat.add_succ_r. apply (HS j b' Hj).
Qed.

Lemma expected_number p :
  uint64 (int_add (int_wrap (Z.of_nat p)) 1) = uint64 (Z.of_nat p + 1).
Proof. now rewrite int_add_wrap, uint64_int_wrap. Qed.

Lemma next_index p :
  int_add (int_wrap (Z.of_nat p)) 1 = int_wrap (Z.of_nat (S p)).
Proof. rewrite int_add_wrap. f_equal. lia. Qed.

(** A run of well-numbered blocks takes the loop from position [p] to
    position [p + length bs]. *)
Lemma blocks_loop_run s bs s' :
  Decodes L s bs s' ->
  forall p acc,
    numbered p bs ->
    blocks_loop L (int_wrap (Z.of_nat p)) s acc =
    blocks_loop L (int_wrap (Z.of_nat (p + length bs))) s' (acc ++ bs).
Proof.
  induction 1 as [s|s b s1 bs s2 Hd Hrun IH]; intros p acc Hnum.
  - simpl. now rewrite Nat.add_0_r, app_nil_r.
  - apply numbered_cons in Hnum as [Hb Hnum].
    rewrite blocks_loop_unfold', Hd.
    rewrite expected_number.
    destruct (decide (NumberU64 b <> uint64 (Z.of_nat p + 1))) as [Hne|_];
      [contradiction|].
    rewrite next_index, (IH (S p) (acc ++ [b]) Hnum).
    simpl. rewrite Nat.add_succ_r, <- app_assoc. reflexivity.
Qed.

(** The loop always stops: after a run of well-numbered blocks, at the
    end of the stream, at a decoding error or at a block with a wrong
    number. *)
Lemma blocks_loop_stops n :
  forall s, (length (rd_bytes s) < n)%nat ->
  forall p acc,
  exists bs s',
    Decodes L s bs s' /\ numbered p bs /\
    (forall b rest, rlp_Decode L s' = Decoded b rest ->
                    NumberU64 b <> uint64 (Z.of_nat (p + length bs) + 1)) /\
    blocks_loop L (int_wrap (Z.of_nat p)) s acc
    = loop_stop L (p + length bs) s' (acc ++ bs).
Proof.
  induction n as [|n IH]; intros s Hlen p acc; [lia|].
  destruct (rlp_Decode L s) as [b rest|err] eqn:Hd.
  - destruct (decide (NumberU64 b <> uint64 (Z.of_nat p + 1))) as [Hne|Heq].
    + exists [], s. simpl. rewrite Nat.add_0_r, app_nil_r.
      repeat split.
      * constructor.
      * intros j b' Hj. discriminate.
      * intros b' rest' Hd'. rewrite Hd in Hd'. injection Hd' as <- <-.
        exact Hne.
      * rewrite blocks_loop_unfold'. unfold loop_stop. rewrite Hd.
        rewrite expected_number.
        destruct (decide (NumberU64 b <> uint64 (Z.of_nat p + 1)));
          [reflexivity|contradiction].
    + assert (Hb : NumberU64 b = uint64 (Z.of_nat p + 1)).
      { destruct (decide (NumberU64 b = uint64 (Z.of_nat p + 1)));
          [assumption|contradiction]. }
      pose proof (rlp_Decode_consumes L _ _ _ Hd) as Hlt.
      destruct (IH rest ltac:(lia) (S p) (acc ++ [b]))
        as (bs & s' & Hrun & Hnum & Hstop & Heq').
      exists (b :: bs), s'. repeat split.
      * econstructor; eassumption.
      * apply numbered_cons. split; assumption.
      * intros b' rest' Hd'. simpl. rewrite Nat.add_succ_r.
        apply (Hstop b' rest' Hd').
      * rewrite blocks_loop_unfold', Hd, expected_number.
        destruct (decide (NumberU64 b <> uint64 (Z.of_nat p + 1)));
          [contradiction|].
        rewrite next_index, Heq'. simpl.
        rewrite Nat.add_succ_r, <- app_assoc. reflexivity.
  - exists [], s. simpl. rewrite Nat.add_0_r, app_nil_r.
    repeat split.
    + constructor.
    + intros j b' Hj. discriminate.
    + intros b' rest' Hd'. rewrite Hd in Hd'. discriminate.
    + rewrite blocks_loop_unfold'. unfold loop_stop. rewrite Hd.
      reflexivity.
Qed.

(** Two runs from the same stream: one continues the other. *)
Lemma Decodes_compare s bs1 s1 :
  Decodes L s bs1 s1 ->
  forall bs2 s2, Decodes L s bs2 s2 ->
  (exists r, bs2 = bs1 ++ r /\ Decodes L s1 r s2) \/
  (exists r, bs1 = bs2 ++ r /\ Decodes L s2 r s1).
Proof.
  induction 1 as [s|s b s' bs s'' Hd Hrun IH]; intros bs2 s2 Hrun2.
  - left. exists bs2. split; [reflexivity|exact Hrun2].
  - inversion Hrun2 as [|? b2 s2' bs2' ? Hd2 Hrest2]; subst.
    + right. exists (b :: bs). split; [reflexivity|].
      econstructor; eassumption.
    + rewrite Hd in Hd2. injection Hd2 as <- <-.
      destruct (IH _ _ Hrest2) as [(r & -> & Hr)|(r & -> & Hr)].
      * left. exists r. split; [reflexivity|exact Hr].
      * right. exists r. split; [reflexivity|exact Hr].
Qed.

Lemma numbered_exact bs :
  Z.of_nat (length bs) <= 2 ^ 63 ->
  (forall (j : nat) b, bs !! j = Some b -> NumberU64 b = Z.of_nat j + 1) ->
  numbered 0 bs.
Proof.
  intros Hlen Hnum j b Hj. simpl.
  pose proof (lookup_lt_Some _ _ _ Hj) as Hlt.
  rewrite uint64_small by lia. apply (Hnum j b Hj).
Qed.

Lemma numbered_lookup bs (i : nat) b :
  numbered 0 bs -> bs !! i = Some b -> Z.of_nat i < 2 ^ 63 ->
  NumberU64 b = Z.of_nat i + 1.
Proof.
  intros Hnum Hi Hlt. rewrite (Hnum i b Hi). simpl.
  apply uint64_small. lia.
Qed.

Lemma loadChain_unfold fs chainfile genesisFile gen :
  loadGenesis L fs genesisFile = (gen, None) ->
  loadChain L fs chainfile genesisFile =
  match blocksFromFile L fs chainfile (ToBlock L gen) with
  | (_, Some err) => (None, Some err)
  | (blocks, None) =>
      (Some {| genesis := gen; blocks := default [] blocks;
               chainConfig := Config gen |}, None)
  end.
Proof. intros Hgen. unfold loadChain. rewrite Hgen. reflexivity. Qed.

(** The loader started on the stream [s], in terms of [loop_stop]. *)
Lemma blocksFromFile_stops fs chainfile gblock s :
  chainStream L fs chainfile = Ok s ->
  exists bs s',
    Decodes L s bs s' /\ numbered 0 bs /\
    (forall b rest, rlp_Decode L s' = Decoded b rest ->
                    NumberU64 b <> uint64 (Z.of_nat (length bs) + 1)) /\
    blocksFromFile L fs chainfile gblock = loop_stop L (length bs) s' (gblock :: bs).
Proof.
  intros Hs. rewrite blocksFromFile_chainStream, Hs.
  destruct (blocks_loop_stops (S (length (rd_bytes s))) s ltac:(lia) 0%nat [gblock])
    as (bs & s' & Hrun & Hnum & Hstop & Heq).
  exists bs, s'. repeat split; assumption.
Qed.

(** The loader after a run of well-numbered blocks. *)
Lemma blocksFromFile_after_run fs chainfile gblock s bs s' :
  chainStream L fs chainfile = Ok s ->
  Decodes L s bs s' ->
  Z.of_nat (length bs) < 2 ^ 63 ->
  (forall (j : nat) b, bs !! j = Some b -> NumberU64 b = Z.of_nat j + 1) ->
  blocksFromFile L fs chainfile gblock =
  blocks_loop L (Z.of_nat (length bs)) s' (gblock :: bs).
Proof.
  intros Hs Hrun Hlen Hnum.
  rewrite blocksFromFile_chainStream, Hs.
  change 0 with (int_wrap (Z.of_nat 0)).
  rewrite (blocks_loop_run _ _ _ Hrun 0%nat [gblock]
             (numbered_exact bs ltac:(lia) Hnum)).
  simpl. rewrite int_wrap_small by lia. reflexivity.
Qed.

End WithLib.
End LoaderFacts.

Module LoaderSpec.
Import Loader LoaderFacts.

Lemma blocks_loop_at_nat (L : Lib) (i : nat) s acc :
  Z.of_nat i < 2 ^ 63 ->
  blocks_loop L (Z.of_nat i) s acc =
  match rlp_Decode L s with
  | DecodeErr err =>
      if decide (err = io_EOF) then (Some acc, None)
      else (None, Some (Errorf "at block index %d: %v"
                               [ArgInt (Z.of_nat i); ArgErr err]))
  | Decoded b rest =>
      if decide (NumberU64 b <> Z.of_nat i + 1) then
        (None, Some (Errorf "block at index %d has wrong number %d"
                            [ArgInt (Z.of_nat i); ArgInt (NumberU64 b)]))
      else blocks_loop L (int_add (Z.of_nat i) 1) rest (acc ++ [b])
  end.
Proof.
  intros Hi. rewrite blocks_loop_unfold'.
  replace (uint64 (int_add (Z.of_nat i) 1)) with (Z.of_nat i + 1);
    [reflexivity|].
  rewrite <- (int_wrap_small (Z.of_nat i)) at 2 by lia.
  rewrite expected_number, uint64_small by lia. reflexivity.
Qed.

Lemma Decodes_at_end (L : Lib) s r s' err :
  rlp_Decode L s = DecodeErr err -> Decodes L s r s' -> r = [].
Proof.
  intros Hend Hrun. inversion Hrun as [|? ? ? ? ? Hd _]; subst;
    [reflexivity|]. rewrite Hend in Hd. discriminate.
Qed.

(** A successful load decoded the whole stream, up to [io.EOF], into
    well-numbered blocks. *)
Lemma blocksFromFile_success (L : Lib) fs chainfile gblock s blocks :
  chainStream L fs chainfile = Ok s ->
  blocksFromFile L fs chainfile gblock = (blocks, None) ->
  exists bs s_end,
    Decodes L s bs s_end /\ rlp_Decode L s_end = DecodeErr io_EOF /\
    numbered 0 bs /\ blocks = Some (gblock :: bs).
Proof.
  intros Hs Hload.
  destruct (blocksFromFile_stops L fs chainfile gblock s Hs)
    as (bs & s' & Hrun & Hnum & _ & Heq).
  rewrite Heq in Hload. unfold loop_stop in Hload.
  exists bs, s'. destruct (rlp_Decode L s') as [b rest|err]; [discriminate|].
  destruct (decide (err = io_EOF)) as [->|]; [|discriminate].
  injection Hload as <-. repeat split; assumption.
Qed.

(** C1. For every chain file, loading succeeds only if the block decoded
    at stream position [i] (counted from 0) carries the number [i + 1],
    for every [i]; the first block whose number differs makes
    [blocksFromFile], and with it [loadChain], return no chain and the
    error "block at index [i] has wrong number [n]", where [n] is the
    number the block carries.  Positions are those a Go [int] holds. *)
Theorem sequence_invariant (L : Lib) (fs : gmap string (list byte))
    (chainfile genesisFile : string) (gen : Genesis) (s : Stream) :
  loadGenesis L fs genesisFile = (gen, None) ->
  chainStream L fs chainfile = Ok s ->
  (forall c, loadChain L fs chainfile genesisFile = (Some c, None) ->
     forall (i : nat) bs b s',
       Decodes L s (bs ++ [b]) s' -> length bs = i -> Z.of_nat i < 2 ^ 63 ->
       NumberU64 b = Z.of_nat i + 1)
  /\
  (forall (i : nat) bs b s',
     Decodes L s (bs ++ [b]) s' -> length bs = i -> Z.of_nat i < 2 ^ 63 ->
     (forall (j : nat) b', bs !! j = Some b' -> NumberU64 b' = Z.of_nat j + 1) ->
     NumberU64 b <> Z.of_nat i + 1 ->
     let err := Errorf "block at index %d has wrong number %d"
                       [ArgInt (Z.of_nat i); ArgInt (NumberU64 b)] in
     blocksFromFile L fs chainfile (ToBlock L gen) = (None, Some err) /\
     loadChain L fs chainfile genesisFile = (None, Some err)).
Proof.
  intros Hgen Hs. split.
  - intros c Hload i bs b s' Hrun Hlen Hi.
    rewrite (loadChain_unfold L _ _ _ _ Hgen) in Hload.
    destruct (blocksFromFile L fs chainfile (ToBlock L gen))
      as [blocks [err|]] eqn:Hblocks; [discriminate|].
    destruct (blocksFromFile_success L _ _ _ _ _ Hs Hblocks)
      as (bs0 & s_end & Hrun0 & Hend & Hnum & _).
    assert (Hb : bs0 !! i = Some b).
    { destruct (Decodes_compare L _ _ _ Hrun0 _ _ Hrun)
        as [(r & Heq & Hr)|(r & -> & Hr)].
      - rewrite (Decodes_at_end L _ _ _ _ Hend Hr), app_nil_r in Heq.
        subst bs0 i. now rewrite lookup_app_r, Nat.sub_diag by lia.
      - subst i. rewrite <- app_assoc, lookup_app_r, Nat.sub_diag by lia.
        reflexivity. }
    exact (numbered_lookup bs0 i b Hnum Hb Hi).
  - intros i bs b s' Hrun Hlen Hi Hnum Hwrong err.
    destruct (Decodes_last L _ _ _ _ Hrun) as (s1 & Hrun1 & Hd).
    assert (Hblocks :
      blocksFromFile L fs chainfile (ToBlock L gen) = (None, Some err)).
    { rewrite (blocksFromFile_after_run L _ _ _ _ _ _ Hs Hrun1) by (subst; lia || assumption).
      rewrite Hlen, (blocks_loop_at_nat L i) by lia. rewrite Hd.
      destruct (decide (NumberU64 b <> Z.of_nat i + 1));
        [reflexivity|contradiction]. }
    split; [exact Hblocks|].
    rewrite (loadChain_unfold L _ _ _ _ Hgen), Hblocks. reflexivity.
Qed.

Lemma sequence_invariant_witness :
  loadChain Sample.lib Sample.files "wrong.rlp" "genesis.json"
  = (None, Some (NewError "block at index 0 has wrong number 2")).
Proof.
  pose (gen := fst (loadGenesis Sample.lib Sample.files "genesis.json")).
  pose (s := {| rd_bytes := [x02; xaa]; rd_err := None |}).
  pose (b := {| blk_number := 2; blk_hash := 170; blk_body := [] |}).
  pose (s' := {| rd_bytes := []; rd_err := None |}).
  destruct (sequence_invariant Sample.lib Sample.files "wrong.rlp"
              "genesis.json" gen s eq_refl eq_refl) as [_ Hfirst].
  apply (Hfirst 0%nat [] b s').
  - apply (Decodes_cons Sample.lib s b s' [] s'); [reflexivity|constructor].
  - reflexivity.
  - reflexivity.
  - intros j b' Hj. discriminate.
  - vm_compute. discriminate.
Defined.

(** C6. For every successful load, the first element of the returned
    chain is the genesis block derived from the loaded genesis
    description ([ToBlock], a function of it), the remaining elements are
    the blocks decoded from the stream, in stream order and up to its
    end, and the length of the chain is the number of decoded blocks
    plus one. *)
Theorem chain_shape (L : Lib) (fs : gmap string (list byte))
    (chainfile genesisFile : string) (c : Chain) :
  loadChain L fs chainfile genesisFile = (Some c, None) ->
  exists gen s bs s_end,
    loadGenesis L fs genesisFile = (gen, None) /\
    genesis c = gen /\
    chainStream L fs chainfile = Ok s /\
    Decodes L s bs s_end /\
    rlp_Decode L s_end = DecodeErr io_EOF /\
    blocks c = ToBlock L gen :: bs /\
    length (blocks c) = S (length bs).
Proof.
  intros Hload.
  destruct (loadGenesis L fs genesisFile) as [gen [err|]] eqn:Hgen.
  { unfold loadChain in Hload. rewrite Hgen in Hload. discriminate. }
  rewrite (loadChain_unfold L _ _ _ _ Hgen) in Hload.
  destruct (blocksFromFile L fs chainfile (ToBlock L gen))
    as [bl [err|]] eqn:Hblocks; [discriminate|].
  injection Hload as <-.
  destruct (chainStream L fs chainfile) as [s|err] eqn:Hs.
  - destruct (blocksFromFile_success L _ _ _ _ _ Hs Hblocks)
      as (bs & s_end & Hrun & Hend & _ & ->).
    exists gen, s, bs, s_end. simpl. repeat split; assumption || reflexivity.
  - rewrite blocksFromFile_chainStream, Hs in Hblocks. discriminate.
Qed.

Lemma chain_shape_witness :
  exists c gen bs,
    loadChain Sample.lib Sample.files "chain.rlp" "genesis.json"
    = (Some c, None) /\
    loadGenesis Sample.lib Sample.files "genesis.json" = (gen, None) /\
    blocks c = Sample.genesisBlock gen :: bs /\
    length (blocks c) = S (length bs).
Proof.
  destruct (loadChain Sample.lib Sample.files "chain.rlp" "genesis.json")
    as [[c|] [err|]] eqn:Hload; try (vm_compute in Hload; discriminate).
  destruct (chain_shape Sample.lib Sample.files "chain.rlp" "genesis.json" c Hload)
    as (gen & s & bs & s_end & Hgen & _ & _ & _ & _ & Hblocks & Hlen).
  exists c, gen, bs. repeat split; assumption.
Defined.

(** C7. Every decoding failure before the end of the stream is fatal,
    and the error names the zero-indexed position at which it occurred
    ("at block index [i]: cause"); whenever the loader returns an error
    it returns no chain: [loadChain] returns a nil chain and
    [blocksFromFile] a nil slice, never a partial one. *)
Theorem decode_failure_fatal (L : Lib) (fs : gmap string (list byte))
    (chainfile genesisFile : string) :
  (forall gen s (i : nat) bs s' cause,
     loadGenesis L fs genesisFile = (gen, None) ->
     chainStream L fs chainfile = Ok s ->
     Decodes L s bs s' -> length bs = i -> Z.of_nat i < 2 ^ 63 ->
     (forall (j : nat) b, bs !! j = Some b -> NumberU64 b = Z.of_nat j + 1) ->
     rlp_Decode L s' = DecodeErr cause -> cause <> io_EOF ->
     let err := Errorf "at block index %d: %v"
                       [ArgInt (Z.of_nat i); ArgErr cause] in
     blocksFromFile L fs chainfile (ToBlock L gen) = (None, Some err) /\
     loadChain L fs chainfile genesisFile = (None, Some err))
  /\
  (forall c err,
     loadChain L fs chainfile genesisFile = (c, Some err) -> c = None)
  /\
  (forall gblock bl err,
     blocksFromFile L fs chainfile gblock = (bl, Some err) -> bl = None).
Proof.
  assert (Hnil : forall gblock bl err,
            blocksFromFile L fs chainfile gblock = (bl, Some err) -> bl = None).
  { intros gblock bl err Hload.
    rewrite blocksFromFile_chainStream in Hload.
    destruct (chainStream L fs chainfile) as [s|e] eqn:Hs.
    - destruct (blocks_loop_stops L (S (length (rd_bytes s))) s ltac:(lia)
                  0%nat [gblock]) as (bs & s' & _ & _ & _ & Heq).
      change (int_wrap (Z.of_nat 0)) with 0 in Heq.
      rewrite Heq in Hload. unfold loop_stop in Hload.
      destruct (rlp_Decode L s') as [b rest|e].
      + now injection Hload as <- _.
      + destruct (decide (e = io_EOF)); [discriminate|].
        now injection Hload as <- _.
    - now injection Hload as <- _. }
  split; [|split; [|exact Hnil]].
  - intros gen s i bs s' cause Hgen Hs Hrun Hlen Hi Hnum Hd Hcause err.
    assert (Hblocks :
      blocksFromFile L fs chainfile (ToBlock L gen) = (None, Some err)).
    { rewrite (blocksFromFile_after_run L _ _ _ _ _ _ Hs Hrun)
        by (subst; lia || assumption).
      rewrite Hlen, (blocks_loop_at_nat L i) by lia. rewrite Hd.
      destruct (decide (cause = io_EOF)); [contradiction|reflexivity]. }
    split; [exact Hblocks|].
    rewrite (loadChain_unfold L _ _ _ _ Hgen), Hblocks. reflexivity.
  - intros c err Hload. unfold loadChain in Hload.
    destruct (loadGenesis L fs genesisFile) as [gen [e|]].
    + now injection Hload as <- _.
    + destruct (blocksFromFile L fs chainfile (ToBlock L gen)) as [bl [e|]].
      * now injection Hload as <- _.
      * discriminate.
Qed.

Lemma decode_failure_fatal_witness :
  loadChain Sample.lib Sample.files "cut.rlp" "genesis.json"
  = (None, Some (NewError "at block index 1: unexpected EOF")).
Proof.
  pose (gen := fst (loadGenesis Sample.lib Sample.files "genesis.json")).
  pose (s := {| rd_bytes := [x01; xaa; x02]; rd_err := None |}).
  pose (b := {| blk_number := 1; blk_hash := 170; blk_body := [] |}).
  pose (s' := {| rd_bytes := [x02]; rd_err := None |}).
  destruct (decode_failure_fatal Sample.lib Sample.files "cut.rlp"
              "genesis.json") as [Hfatal _].
  apply (Hfatal gen s 1%nat [b] s' (LibError "rlp" "unexpected EOF")).
  - reflexivity.
  - reflexivity.
  - apply (Decodes_cons Sample.lib s b s' [] s'); [reflexivity|constructor].
  - reflexivity.
  - reflexivity.
  - intros [|[|j]] b' Hj; try discriminate. injection Hj as <-. reflexivity.
  - reflexivity.
  - discriminate.
Defined.

(** C8, as the code has it.  For every pair of chain files whose
    contents are related by gzip compression, where the name of the
    compressed one ends in [.gz] and the name of the other one does not,
    loading both gives the same result: the same blocks in the same order
    on success, the same error otherwise. *)
Theorem gzip_transparency (L : Lib) (fs : gmap string (list byte))
    (plain gz genesisFile : string) (data cdata : list byte) (gblock : Block) :
  fs !! plain = Some data ->
  fs !! gz = Some cdata ->
  gzip_NewReader L {| rd_bytes := cdata; rd_err := None |}
    = Ok {| rd_bytes := data; rd_err := None |} ->
  HasSuffix gz ".gz" = true ->
  HasSuffix plain ".gz" = false ->
  blocksFromFile L fs gz gblock = blocksFromFile L fs plain gblock /\
  loadChain L fs gz genesisFile = loadChain L fs plain genesisFile.
Proof.
  intros Hplain Hgz Hrel Hsuffix Hnone.
  assert (Hblocks : forall g,
            blocksFromFile L fs gz g = blocksFromFile L fs plain g).
  { intros g. unfold blocksFromFile, os_Open.
    rewrite Hplain, Hgz, Hsuffix, Hnone, Hrel. reflexivity. }
  split; [apply Hblocks|].
  unfold loadChain.
  destruct (loadGenesis L fs genesisFile) as [gen [err|]]; [reflexivity|].
  rewrite Hblocks. reflexivity.
Qed.

Lemma gzip_transparency_witness :
  loadChain Sample.lib Sample.files "chain.rlp.gz" "genesis.json"
  = loadChain Sample.lib Sample.files "chain.rlp" "genesis.json".
Proof.
  apply (gzip_transparency Sample.lib Sample.files "chain.rlp" "chain.rlp.gz"
           "genesis.json" [x01; xaa; x02; xbb] [x1f; x8b; x01; xaa; x02; xbb]
           (Sample.genesisBlock Genesis_zero));
    reflexivity.
Defined.

(** C8, as the claim is written, fails when the uncompressed file itself
    has a name that ends in [.gz]: the loader then reads it through the
    decompressor too.  Here the two files are related by compression and
    the compressed one is named [chain.rlp.gz], yet it loads and the
    uncompressed [raw.gz] does not. *)
Lemma gzip_transparency_counterexample :
  let data := [x01; xaa; x02; xbb] in
  let cdata := [x1f; x8b; x01; xaa; x02; xbb] in
  Sample.files !! "raw.gz" = Some data /\
  Sample.files !! "chain.rlp.gz" = Some cdata /\
  gzip_NewReader Sample.lib {| rd_bytes := cdata; rd_err := None |}
    = Ok {| rd_bytes := data; rd_err := None |} /\
  HasSuffix "chain.rlp.gz" ".gz" = true /\
  (exists c, loadChain Sample.lib Sample.files "chain.rlp.gz" "genesis.json"
             = (Some c, None)) /\
  loadChain Sample.lib Sample.files "raw.gz" "genesis.json"
  = (None, Some (LibError "gzip" "gzip: invalid header")) /\
  loadChain Sample.lib Sample.files "chain.rlp.gz" "genesis.json"
  <> loadChain Sample.lib Sample.files "raw.gz" "genesis.json".
Proof.
  repeat split; try reflexivity.
  - eexists. vm_compute. reflexivity.
  - vm_compute. discriminate.
Qed.

End LoaderSpec.

(** ** Package [harness] *)

Module HarnessSpec.
Import Runtime Harness Teardown.

Ltac run :=
  repeat (unfold mbind, M_bind, mret, M_ret, emit, history, clock; simpl).

(** C10. [ParseLogLevel] accepts exactly the strings "none", "error",
    "warn", "info", "debug" and "Trace", and maps them to the six levels
    [None] to [Trace] (0 to 5) in this order; every other string, the
    lowercase "trace" among them, gives an error. *)
Theorem ParseLogLevel_spec :
  map ParseLogLevel levels
  = [(Level.None, None); (Level.Err, None); (Level.Warn, None);
     (Level.Info, None); (Level.Debug, None); (Level.Trace, None)] /\
  [Level.None; Level.Err; Level.Warn; Level.Info; Level.Debug; Level.Trace]
  = [0; 1; 2; 3; 4; 5] /\
  (forall s, s ∉ levels ->
     ParseLogLevel s = (0, Some (Errorf "unknown log level: %s" [ArgStr s]))) /\
  ParseLogLevel "trace" = (0, Some (NewError "unknown log level: trace")) /\
  (forall s, snd (ParseLogLevel s) = None <-> s ∈ levels).
Proof.
  assert (Hother : forall s, s ∉ levels ->
    ParseLogLevel s = (0, Some (Errorf "unknown log level: %s" [ArgStr s]))).
  { intros s Hs. unfold ParseLogLevel, levels in *.
    repeat (destruct (decide _) as [->|_];
            [exfalso; apply Hs; repeat (apply elem_of_cons; (by left) || right)|]).
    reflexivity. }
  repeat split; try reflexivity; try exact Hother.
  - intros Hok. destruct (decide (s ∈ levels)) as [Hin|Hout]; [exact Hin|].
    rewrite (Hother s Hout) in Hok. discriminate.
  - intros Hin. unfold levels in Hin.
    repeat (apply elem_of_cons in Hin as [->|Hin]; [reflexivity|]).
    now apply elem_of_nil in Hin.
Qed.

Lemma ParseLogLevel_spec_witness :
  ParseLogLevel "verbose" = (0, Some (NewError "unknown log level: verbose")).
Proof.
  destruct ParseLogLevel_spec as (_ & _ & Hother & _).
  apply (Hother "verbose"). unfold levels. intros Hin.
  repeat (apply elem_of_cons in Hin as [Heq|Hin]; [discriminate Heq|]).
  now apply elem_of_nil in Hin.
Defined.

Lemma stderr_of_app tr1 tr2 :
  stderr_of (tr1 ++ tr2) = stderr_of tr1 ++ stderr_of tr2.
Proof. unfold stderr_of. apply omap_app. Qed.

Lemma stdout_of_app tr1 tr2 :
  stdout_of (tr1 ++ tr2) = stdout_of tr1 ++ stdout_of tr2.
Proof. unfold stdout_of. apply omap_app. Qed.

Lemma runCmd_run E ctx path verbose argv w :
  runCmd E ctx path verbose argv w =
  Done (run_outcome E (trace w ++ [Exec Run path argv]))
       (set_trace w (trace w ++ [Exec Run path argv])).
Proof.
  unfold runCmd, Cmd_Run. run.
  destruct verbose; simpl;
    destruct (run_outcome E (trace w ++ [Exec Run path argv]));
    reflexivity.
Qed.

(** C9. [Init] runs the genesis import ([geth init]) before the chain
    import ([geth import]); when the first fails, [Init] returns its
    error as it is and the second is not run; when the first succeeds,
    [Init] returns what the second gives, its error included.  In the
    verifier that imports the chain in process, a failure of the import
    is written to the standard error. *)
Theorem Init_order (E : Env) (g : gethClient) (ctx : Context)
    (verbose : bool) (w : World) :
  (forall err,
     run_outcome E (trace w ++ [init_command g]) = Some err ->
     exists w', Init E g ctx verbose w = Done (Some err) w' /\
                trace w' = trace w ++ [init_command g]) /\
  (run_outcome E (trace w ++ [init_command g]) = None ->
   exists w',
     Init E g ctx verbose w
     = Done (run_outcome E (trace w ++ [init_command g; import_command g])) w' /\
     trace w' = trace w ++ [init_command g; import_command g]) /\
  (forall (N : Node.NodeEnv) chain gblock rest id err,
     Node.node_New N = None ->
     Loader.loadChain (Node.lib N) (Node.files N) "chain.rlp" "genesis.json"
       = (Some chain, None) ->
     Loader.Config (Loader.genesis chain) ≫= Loader.ChainID = Some id ->
     Node.eth_New N = None ->
     Loader.blocks chain = gblock :: rest ->
     Node.InsertChain N rest = Some err ->
     exists r w',
       ConsoleVerifier.runGeth N w = Done r w' /\
       stderr_of (trace w') =
       stderr_of (trace w) ++ [Sprintf "failed to import chain: %s" [ArgErr err]]).
Proof.
  split; [|split].
  - intros err Hinit. unfold Init. unfold mbind, M_bind.
    rewrite runCmd_run. fold (init_command g). rewrite Hinit.
    eexists. split; reflexivity.
  - intros Hinit. unfold Init. unfold mbind, M_bind.
    rewrite runCmd_run. fold (init_command g). rewrite Hinit.
    rewrite runCmd_run. fold (import_command g). simpl.
    rewrite <- app_assoc. simpl.
    destruct (run_outcome E (trace w ++ [init_command g; import_command g]));
      eexists; (split; [reflexivity|]); simpl; reflexivity.
  - intros N chain gblock rest id err Hnew Hload Hid Heth Hblocks Himport.
    destruct (Loader.Config (Loader.genesis chain)) as [cfg|] eqn:Hcfg;
      [simpl in Hid|discriminate].
    unfold ConsoleVerifier.runGeth. run.
    rewrite Hnew, Hload, Hcfg. run. rewrite Hid, Heth, Hblocks, Himport. run.
    destruct (Node.stack_Start N); run;
      eexists _, _; (split; [reflexivity|]); simpl;
      repeat rewrite stderr_of_app; simpl; repeat rewrite app_nil_r;
      reflexivity.
Qed.

Lemma Init_order_witness :
  exists w',
    Init SampleEnv.init_fails SampleEnv.client0 context_Background false
         SampleEnv.world0
    = Done (Some (LibError "exec" "exit status 1")) w' /\
    trace w' = [init_command SampleEnv.client0].
Proof.
  destruct (Init_order SampleEnv.init_fails SampleEnv.client0
              context_Background false SampleEnv.world0) as [Hfail _].
  apply (Hfail (LibError "exec" "exit status 1")). reflexivity.
Defined.

(** *** Teardown *)

Lemma Start_success E g0 ctx verbose w0 g w1 :
  Start E g0 ctx verbose w0 = Done (g, None) w1 ->
  exists c pid, cmd g = Some c /\ Process c = Some pid /\ args g = args g0.
Proof.
  unfold Start, Cmd_Start. run.
  match goal with |- context [spawn_outcome E ?h] =>
    destruct (spawn_outcome E h) end; run; intros H; [discriminate|].
  injection H as <- _. simpl. eexists _, _. repeat split; reflexivity.
Qed.

Lemma Close_started g c pid w :
  cmd g = Some c -> Process c = Some pid ->
  exists c' w',
    Close g w = Done ({| cmd := Some c'; path := path g; args := args g |}, None) w' /\
    Process c' = Some pid /\
    paths w' = filter (fun p => ~ inside (DataDir (args g)) p) (paths w).
Proof.
  intros Hcmd Hproc. unfold Close. rewrite Hcmd, Hproc.
  unfold Process_Kill, Cmd_Wait, os_RemoveAll. run. rewrite Hproc.
  destruct (procs w !! pid) as [[|]|]; destruct (finished c); run;
    eexists _, _; (split; [reflexivity|]); split; simpl;
    assumption || reflexivity.
Qed.

Lemma Close_times_S n g w :
  Close_times (S n) g w =
  match Close g w with
  | Done (g1, _) w1 => Close_times n g1 w1
  | Panicked msg w1 => Panicked msg w1
  | Unfinished w1 => Unfinished w1
  end.
Proof.
  simpl. unfold mbind, M_bind.
  destruct (Close g w) as [[g1 err] w1|msg w1|w1]; reflexivity.
Qed.

Lemma Close_times_started n :
  forall g c pid w,
    cmd g = Some c -> Process c = Some pid ->
    exists g' w',
      Close_times (S n) g w = Done g' w' /\
      forall p, inside (DataDir (args g)) p -> p ∉ paths w'.
Proof.
  induction n as [|n IH]; intros g c pid w Hcmd Hproc;
    destruct (Close_started g c pid w Hcmd Hproc) as (c' & w1 & Hclose & Hproc' & Hpaths).
  - exists {| cmd := Some c'; path := path g; args := args g |}, w1.
    split.
    + rewrite Close_times_S, Hclose. reflexivity.
    + intros p Hin Hp. rewrite Hpaths in Hp.
      apply elem_of_filter in Hp as [Hout _]. contradiction.
  - destruct (IH {| cmd := Some c'; path := path g; args := args g |} c' pid w1
                eq_refl Hproc') as (g' & w' & Htimes & Hgone).
    exists g', w'. split; [|exact Hgone].
    rewrite Close_times_S, Hclose. exact Htimes.
Qed.

(** C2, as the code has it.  On a client whose [Start] succeeded, [Close]
    called once or several times in a row never panics and leaves no
    path of the data directory behind, whatever the subprocess wrote
    there in between. *)
Theorem Close_after_Start (E : Env) (g0 g : gethClient) (ctx : Context)
    (verbose : bool) (w0 w1 : World) :
  Start E g0 ctx verbose w0 = Done (g, None) w1 ->
  forall (n : nat) (w : World),
  exists g' w',
    Close_times (S n) g w = Done g' w' /\
    forall p, inside (DataDir (args g0)) p -> p ∉ paths w'.
Proof.
  intros Hstart n w.
  destruct (Start_success _ _ _ _ _ _ _ Hstart) as (c & pid & Hcmd & Hproc & <-).
  exact (Close_times_started n g c pid w Hcmd Hproc).
Qed.

Lemma Close_after_Start_witness :
  exists g w1 g' w',
    Start (SampleEnv.answering 1) SampleEnv.client0 context_Background false
          SampleEnv.world0 = Done (g, None) w1 /\
    Close_times 2 g (set_paths w1 ({[ "datadir"; "datadir/geth" ]} ∪ paths w1))
      = Done g' w' /\
    ("datadir" ∉ paths w') /\ ("datadir/geth" ∉ paths w').
Proof.
  destruct (Start (SampleEnv.answering 1) SampleEnv.client0 context_Background
              false SampleEnv.world0) as [[g [err|]] w1|msg w1|w1] eqn:Hstart;
    try (vm_compute in Hstart; discriminate).
  destruct (Close_after_Start _ _ _ _ _ _ _ Hstart 1%nat
              (set_paths w1 ({[ "datadir"; "datadir/geth" ]} ∪ paths w1)))
    as (g' & w' & Hclose & Hgone).
  exists g, w1, g', w'. split; [reflexivity|]. split; [exact Hclose|].
  split; apply Hgone; [left; reflexivity|right; reflexivity].
Defined.

(** C2, as the claim is written, fails in the initial state: [Close] on
    a client that was never started reads through the nil [cmd] and
    panics; so does [Close] after a [Start] that failed, where the
    process is nil. *)
Lemma Close_initial_panics :
  Close SampleEnv.client0 SampleEnv.world0
  = Panicked nil_dereference SampleEnv.world0 /\
  Close_times 2 SampleEnv.client0 SampleEnv.world0
  = Panicked nil_dereference SampleEnv.world0.
Proof. split; reflexivity. Qed.

(** *** The readiness poll *)

Lemma DialContext_run E ctx addr w :
  ethclient_DialContext E ctx addr w =
  ctx_call ctx (dial_duration E (trace w ++ [Dial addr (now w)]))
    (match dial_outcome E (trace w ++ [Dial addr (now w)]) with
     | Some err => Err err
     | None => Ok {| rpc_addr := addr |}
     end)
    (set_trace w (trace w ++ [Dial addr (now w)])).
Proof. reflexivity. Qed.

Lemma BlockNumber_run E client ctx w :
  BlockNumber E client ctx w =
  ctx_call ctx (blockNumber_duration E (trace w ++ [Rpc "eth_blockNumber" (now w)]))
    (blockNumber_outcome E (trace w ++ [Rpc "eth_blockNumber" (now w)]))
    (set_trace w (trace w ++ [Rpc "eth_blockNumber" (now w)])).
Proof. reflexivity. Qed.

(** A call under a context returns, at a time between its start and the
    firing of the context, or after its own duration. *)
Lemma ctx_call_returns {A} ctx d (out : Outcome A) w :
  exists r t, ctx_call ctx d out w = Done r (set_now w t).
Proof.
  unfold ctx_call. destruct (fires ctx) as [f|]; [|eauto].
  destruct (f <=? now w + d)%Z; eauto.
Qed.

Lemma Running_S E fuel g ctx w :
  Running E (S fuel) g ctx w =
  if ctx_done ctx (now w) then Done false w
  else
    match ethclient_DialContext E ctx (HttpAddr g) w with
    | Done (Err _) w1 => Running E fuel g ctx w1
    | Done (Ok client) w1 =>
        match BlockNumber E client ctx w1 with
        | Done (Ok _) w2 => Done true w2
        | Done (Err _) w2 => Running E fuel g ctx w2
        | Panicked msg w2 => Panicked msg w2
        | Unfinished w2 => Unfinished w2
        end
    | Panicked msg w1 => Panicked msg w1
    | Unfinished w1 => Unfinished w1
    end.
Proof.
  simpl. unfold mbind at 1, M_bind at 1, clock.
  destruct (ctx_done ctx (now w)); [reflexivity|].
  unfold mbind at 1, M_bind at 1.
  destruct (ethclient_DialContext E ctx (HttpAddr g) w) as [[client|e] w1| |];
    try reflexivity.
  unfold mbind at 1, M_bind at 1.
  destruct (BlockNumber E client ctx w1) as [[n|e] w2| |]; reflexivity.
Qed.

(** The poll answers "not running" only once the context has fired. *)
Lemma Running_false_fired E g ctx fuel :
  forall w w', Running E fuel g ctx w = Done false w' ->
               ctx_done ctx (now w') = true.
Proof.
  induction fuel as [|fuel IH]; intros w w' Hrun; [discriminate|].
  rewrite Running_S in Hrun.
  destruct (ctx_done ctx (now w)) eqn:Hdone.
  { injection Hrun as <-. exact Hdone. }
  rewrite DialContext_run in Hrun.
  match type of Hrun with context [ctx_call ?c ?d ?o ?w0] =>
    destruct (ctx_call_returns c d o w0) as (r & t & Heq0) end.
  rewrite Heq0 in Hrun.
  destruct r as [client|e]; [|exact (IH _ _ Hrun)].
  rewrite BlockNumber_run in Hrun.
  match type of Hrun with context [ctx_call ?c ?d ?o ?w0] =>
    destruct (ctx_call_returns c d o w0) as (r & t' & Heq) end.
  rewrite Heq in Hrun.
  destruct r as [n|e]; [discriminate|exact (IH _ _ Hrun)].
Qed.

Lemma started_before_cons f ev evs :
  started_before f ev -> Forall (started_before f) evs ->
  Forall (started_before f) (ev :: evs).
Proof. intros. now constructor. Qed.

(** With a client that is never reachable, the poll answers "not
    running" at the time the context fires. *)
Lemma Running_unreachable E g ctx f :
  fires ctx = Some f ->
  (forall h, 0 < dial_duration E h) ->
  (forall h, 0 <= blockNumber_duration E h) ->
  never_reachable E ->
  forall fuel w,
    Z.max 0 (f - now w) < Z.of_nat fuel ->
    exists evs w',
      Running E fuel g ctx w = Done false w' /\
      now w' = Z.max (now w) f /\
      trace w' = trace w ++ evs /\
      Forall (started_before f) evs.
Proof.
  intros Hf Hdial Hquery Hnever.
  induction fuel as [|fuel IH]; intros w Hfuel; [lia|].
  rewrite Running_S. unfold ctx_done. rewrite Hf.
  destruct (Z.leb_spec f (now w)) as [Hfired|Hbefore].
  { exists [], w. rewrite app_nil_r. repeat split; [lia|constructor]. }
  rewrite DialContext_run. unfold ctx_call at 1. rewrite Hf. simpl.
  set (h1 := trace w ++ [Dial (HttpAddr g) (now w)]).
  pose proof (Hdial h1) as Hd1.
  assert (Hstep : forall t (r : Outcome Client) w1,
    w1 = set_now (set_trace w h1) t -> now w < t <= f ->
    exists evs w',
      Running E fuel g ctx w1 = Done false w' /\
      now w' = Z.max (now w) f /\
      trace w' = trace w ++ evs /\
      Forall (started_before f) evs).
  { intros t _ w1 -> Ht.
    destruct (IH (set_now (set_trace w h1) t)) as (evs & w' & Hrun & Hnow & Htr & Hevs);
      [simpl; lia|].
    exists (Dial (HttpAddr g) (now w) :: evs), w'.
    split; [exact Hrun|]. simpl in Hnow, Htr. split; [lia|].
    split; [rewrite Htr; unfold h1; now rewrite <- app_assoc|].
    apply started_before_cons; [exact Hbefore|exact Hevs]. }
  destruct (Z.leb_spec f (now w + dial_duration E h1)) as [Hclip|Hdone].
  { apply (Hstep (Z.max (now w) f) (Err (ctx_Err ctx))); [reflexivity|lia]. }
  destruct (dial_outcome E h1) as [e|] eqn:Hout.
  { apply (Hstep (now w + dial_duration E h1) (Err e)); [reflexivity|lia]. }
  rewrite BlockNumber_run. unfold ctx_call at 1. rewrite Hf. simpl.
  set (t1 := now w + dial_duration E h1).
  set (h2 := h1 ++ [Rpc "eth_blockNumber" t1]).
  pose proof (Hquery h2) as Hd2.
  assert (Hstep2 : forall t w2,
    w2 = set_now (set_trace (set_now (set_trace w h1) t1) h2) t ->
    t1 <= t <= f ->
    exists evs w',
      Running E fuel g ctx w2 = Done false w' /\
      now w' = Z.max (now w) f /\
      trace w' = trace w ++ evs /\
      Forall (started_before f) evs).
  { intros t w2 -> Ht.
    destruct (IH (set_now (set_trace (set_now (set_trace w h1) t1) h2) t))
      as (evs & w' & Hrun & Hnow & Htr & Hevs); [simpl; lia|].
    exists (Dial (HttpAddr g) (now w) :: Rpc "eth_blockNumber" t1 :: evs), w'.
    split; [exact Hrun|]. simpl in Hnow, Htr. split; [lia|].
    split; [rewrite Htr; unfold h2, h1; now rewrite <- !app_assoc|].
    apply started_before_cons; [exact Hbefore|].
    apply started_before_cons; [exact Hdone|exact Hevs]. }
  destruct (Z.leb_spec f (t1 + blockNumber_duration E h2)) as [Hclip2|Hdone2].
  { apply (Hstep2 (Z.max t1 f)); [reflexivity|lia]. }
  destruct (blockNumber_outcome E h2) as [n|e] eqn:Hout2.
  { exfalso. destruct Hnever as [Hnodial|Hnoquery].
    - destruct (Hnodial h1) as [e He]. rewrite Hout in He. discriminate.
    - exact (Hnoquery h2 n Hout2). }
  apply (Hstep2 (t1 + blockNumber_duration E h2)); [reflexivity|lia].
Qed.

(** C5. Let the context of the poll fire at time [f] (its deadline, or
    its cancellation when that comes first), let every connection
    attempt take time and no call take negative time.  The poll answers
    "not running" only at or after [f], never earlier.  If the client is
    never reachable, the poll, given enough fuel, answers "not running"
    at time [f] (at once if [f] has passed): it does not block past [f],
    and every attempt it made started before [f]. *)
Theorem Running_timeout (E : Env) (g : gethClient) (ctx : Context) (f : Z) :
  fires ctx = Some f ->
  (forall h, 0 < dial_duration E h) ->
  (forall h, 0 <= blockNumber_duration E h) ->
  (forall fuel w w', Running E fuel g ctx w = Done false w' -> f <= now w') /\
  (never_reachable E ->
   forall fuel w,
     Z.max 0 (f - now w) < Z.of_nat fuel ->
     exists evs w',
       Running E fuel g ctx w = Done false w' /\
       now w' = Z.max (now w) f /\
       trace w' = trace w ++ evs /\
       Forall (started_before f) evs).
Proof.
  intros Hf Hdial Hquery. split.
  - intros fuel w w' Hrun.
    pose proof (Running_false_fired E g ctx fuel w w' Hrun) as Hdone.
    unfold ctx_done in Hdone. rewrite Hf in Hdone. lia.
  - intros Hnever. exact (Running_unreachable E g ctx f Hf Hdial Hquery Hnever).
Qed.

Lemma Running_timeout_witness :
  let ctx := context_WithTimeout context_Background 0 3 in
  exists evs w',
    Running SampleEnv.unreachable 4 SampleEnv.client0 ctx SampleEnv.world0
    = Done false w' /\
    now w' = 3 /\
    trace w' = evs /\
    Forall (started_before 3) evs.
Proof.
  intros ctx.
  destruct (Running_timeout SampleEnv.unreachable SampleEnv.client0 ctx
              3 eq_refl) as [_ Hpoll].
  - intros h. reflexivity.
  - intros h. discriminate.
  - assert (Hnever : never_reachable SampleEnv.unreachable).
    { right. intros h n H. discriminate H. }
    apply (Hpoll Hnever 4%nat SampleEnv.world0). reflexivity.
Defined.

End HarnessSpec.

(** ** The verifiers *)

Module VerifierSpec.
Import Runtime Harness Node Loader.

Ltac run :=
  repeat (unfold mbind, M_bind, mret, M_ret, emit, history, clock; simpl).

Lemma rpc_queries_app tr1 tr2 :
  rpc_queries (tr1 ++ tr2) = rpc_queries tr1 ++ rpc_queries tr2.
Proof. unfold rpc_queries. apply omap_app. Qed.

(** The in-process verifiers when [node.Attach] fails: [checkFlag]
    returns nil. *)
Lemma ConsoleVerifier_attach_failure N l s v w node w1 err :
  ConsoleVerifier.runGeth N w = Done (Some node, None) w1 ->
  node_Attach N = Some err ->
  ConsoleVerifier.checkFlag N l s v false w
  = Done None (set_trace w1 (trace w1 ++ [Call "node.Attach"])).
Proof.
  intros Hgeth Hattach. unfold ConsoleVerifier.checkFlag.
  unfold mbind at 1, M_bind at 1. rewrite Hgeth. run.
  rewrite Hattach. reflexivity.
Qed.

Lemma LoggingVerifier_attach_failure N lvl quiet w node w1 err :
  LoggingVerifier.runGeth N
    {| LoggingVerifier.log_discard := quiet;
       LoggingVerifier.log_verbosity := lvl |} w
  = Done (Some node, None) w1 ->
  node_Attach N = Some err ->
  LoggingVerifier.checkFlag N lvl quiet false w
  = Done None (set_trace w1 (trace w1 ++ [Call "node.Attach"])).
Proof.
  intros Hgeth Hattach. unfold LoggingVerifier.checkFlag.
  unfold mbind at 1, M_bind at 1. rewrite Hgeth. run.
  rewrite Hattach. reflexivity.
Qed.

(** C3, at the input where the code departs from it: the node starts
    and [node.Attach] fails.  Both in-process verifiers print
    "Flag captured.", print nothing on the standard error and exit with
    status 0. *)
Theorem attach_failure_reports_success :
  let N := SampleEnv.node (Some (LibError "rpc" "attach failed")) None 0 in
  (exists w',
     ConsoleVerifier.main N "info" true false false SampleEnv.world0
     = Done 0 w' /\
     stdout_of (trace w') = ["setting up geth" +:+ LF; "Flag captured." +:+ LF] /\
     stderr_of (trace w') = []) /\
  (exists w',
     LoggingVerifier.main N "error" true false SampleEnv.world0 = Done 0 w' /\
     stdout_of (trace w') = ["Flag captured." +:+ LF] /\
     stderr_of (trace w') = []).
Proof.
  intros N. split.
  - destruct (ConsoleVerifier.runGeth N SampleEnv.world0)
      as [[[node|] [e|]] w1|msg w1|w1] eqn:Hgeth;
      try (vm_compute in Hgeth; discriminate).
    eexists. unfold ConsoleVerifier.main. unfold mbind at 1, M_bind at 1.
    rewrite (ConsoleVerifier_attach_failure N _ _ _ _ node w1 _ Hgeth eq_refl).
    vm_compute in Hgeth. injection Hgeth as _ <-.
    split; [reflexivity|]. split; reflexivity.
  - destruct (LoggingVerifier.runGeth N
                {| LoggingVerifier.log_discard := true;
                   LoggingVerifier.log_verbosity := 1 |} SampleEnv.world0)
      as [[[node|] [e|]] w1|msg w1|w1] eqn:Hgeth;
      try (vm_compute in Hgeth; discriminate).
    eexists. unfold LoggingVerifier.main. simpl.
    unfold mbind at 1, M_bind at 1.
    rewrite (LoggingVerifier_attach_failure N _ _ _ node w1 _ Hgeth eq_refl).
    vm_compute in Hgeth. injection Hgeth as _ <-.
    split; [reflexivity|]. split; reflexivity.
Qed.

(** *** The assertion on the chain head *)

Lemma BlockNumber_trace E client ctx w q w' :
  BlockNumber E client ctx w = Done q w' ->
  trace w' = trace w ++ [Rpc "eth_blockNumber" (now w)].
Proof.
  rewrite HarnessSpec.BlockNumber_run.
  match goal with |- context [ctx_call ?c ?d ?o ?w0] =>
    destruct (HarnessSpec.ctx_call_returns c d o w0) as (r & t & ->) end.
  intros H. injection H as _ <-. reflexivity.
Qed.

Lemma DialContext_trace E ctx addr w r w' :
  ethclient_DialContext E ctx addr w = Done r w' ->
  trace w' = trace w ++ [Dial addr (now w)].
Proof.
  rewrite HarnessSpec.DialContext_run.
  match goal with |- context [ctx_call ?c ?d ?o ?w0] =>
    destruct (HarnessSpec.ctx_call_returns c d o w0) as (r' & t & ->) end.
  intros H. injection H as _ <-. reflexivity.
Qed.

Lemma verifyFlag_run E g ctx w eth w1 q w2 :
  ethclient_DialContext E ctx (HttpAddr g) w = Done (Ok eth) w1 ->
  BlockNumber E eth ctx w1 = Done q w2 ->
  HarnessVerifier.verifyFlag E g ctx w =
  Done (match q with
        | Ok num =>
            if decide (num <> 1)
            then Some (Errorf "chain not loaded correctly" [])
            else None
        | Err err => Some err
        end) w2.
Proof.
  intros Hdial Hquery. unfold HarnessVerifier.verifyFlag.
  unfold mbind at 1, M_bind at 1. rewrite Hdial.
  unfold mbind at 1, M_bind at 1. rewrite Hquery.
  destruct q as [num|err]; [|reflexivity].
  destruct (decide (num <> 1)); reflexivity.
Qed.

(** C4. Once the client is ready (the poll answered "running" in the
    verifier built on [harness], [node.Attach] gave a connection in the
    in-process verifiers) and the RPC connection is open, the verifier
    issues exactly one query for the chain head and compares the answer
    with a constant: the block number 1 in the first case, the block hash
    [flagHash] of block 1 in the other two.  It returns nil when they
    are equal, and an error when they differ or the query fails. *)
Theorem single_assertion :
  (forall (E : Env) fuel g ctx w0 w eth w1 q w2,
     let ctx' := context_WithTimeout ctx (now w0)
                   (3 * HarnessVerifier.time_Second) in
     Running E fuel g ctx' w0 = Done true w ->
     ethclient_DialContext E ctx' (HttpAddr g) w = Done (Ok eth) w1 ->
     BlockNumber E eth ctx' w1 = Done q w2 ->
     exists r,
       HarnessVerifier.checkFlag_started E fuel g ctx w0 = Done r w2 /\
       rpc_queries (trace w2)
       = rpc_queries (trace w) ++ [("eth_blockNumber", now w1)] /\
       (r = None <-> q = Ok 1) /\
       (forall num, q = Ok num -> num <> 1 ->
                    r = Some (Errorf "chain not loaded correctly" [])) /\
       (forall err, q = Err err -> r = Some err))
  /\
  (forall (N : NodeEnv) l s v devMode w node w1,
     ConsoleVerifier.runGeth N w = Done (Some node, None) w1 ->
     console_Attach N = None -> console_New N = None ->
     node_Attach N = None ->
     exists r w2,
       ConsoleVerifier.checkFlag N l s v devMode w = Done r w2 /\
       rpc_queries (trace w2)
       = rpc_queries (trace w1) ++ [("eth_getBlockByNumber", now w1)] /\
       (r = None <-> exists b, BlockByNumber N 1 = Ok b /\ Hash b = flagHash) /\
       (forall b, BlockByNumber N 1 = Ok b -> Hash b <> flagHash ->
                  r = Some (Errorf "could not load chain" [])))
  /\
  (forall (N : NodeEnv) lvl quiet consoleMode w node w1,
     LoggingVerifier.runGeth N
       {| LoggingVerifier.log_discard := quiet;
          LoggingVerifier.log_verbosity := lvl |} w
     = Done (Some node, None) w1 ->
     console_Attach N = None -> console_New N = None ->
     node_Attach N = None ->
     exists r w2,
       LoggingVerifier.checkFlag N lvl quiet consoleMode w = Done r w2 /\
       rpc_queries (trace w2)
       = rpc_queries (trace w1) ++ [("eth_getBlockByNumber", now w1)] /\
       (r = None <-> exists b, BlockByNumber N 1 = Ok b /\ Hash b = flagHash) /\
       (forall b, BlockByNumber N 1 = Ok b -> Hash b <> flagHash ->
                  r = Some (Errorf "could not load chain" []))).
Proof.
  split; [|split].
  - intros E fuel g ctx w0 w eth w1 q w2 ctx' Hready Hdial Hquery.
    eexists. split.
    { unfold HarnessVerifier.checkFlag_started.
      unfold mbind at 1, M_bind at 1, clock. fold ctx'.
      unfold defer. unfold mbind at 1, M_bind at 1. rewrite Hready.
      change (negb true) with false. cbv iota.
      rewrite (verifyFlag_run E g ctx' w eth w1 q w2 Hdial Hquery).
      reflexivity. }
    split.
    { rewrite (BlockNumber_trace _ _ _ _ _ _ Hquery),
        (DialContext_trace _ _ _ _ _ _ Hdial).
      rewrite !rpc_queries_app. simpl. now rewrite app_nil_r. }
    split; [|split].
    + destruct q as [num|err]; [|split; discriminate].
      destruct (decide (num <> 1)) as [Hne|Heq].
      * split; [discriminate|]. intros H. injection H as ->. contradiction.
      * split; [|reflexivity]. intros _. f_equal.
        destruct (decide (num = 1)); [assumption|contradiction].
    + intros num -> Hne.
      destruct (decide (num <> 1)); [reflexivity|contradiction].
    + intros err ->. reflexivity.
  - intros N l s v devMode w node w1 Hgeth Hcattach Hcnew Hattach.
    unfold ConsoleVerifier.checkFlag.
    unfold mbind at 1, M_bind at 1. rewrite Hgeth. cbv iota beta.
    unfold ConsoleVerifier.startConsole. rewrite Hcattach, Hcnew.
    destruct (BlockByNumber N 1) as [b|err] eqn:Hblock.
    + destruct (decide (Hash b <> flagHash)) as [Hne|Heq];
        destruct devMode; run; rewrite Hattach; run; rewrite ?Hblock;
        (destruct (decide (Hash b <> flagHash)); [|try contradiction]);
        try contradiction;
        eexists _, _; (split; [reflexivity|]); simpl;
        (split; [rewrite ?rpc_queries_app; simpl;
                 rewrite ?app_nil_r; reflexivity|]).
      all: split.
      all: try (split; [discriminate|intros (b' & Hb' & Hh); congruence]).
      all: try (intros b' Hb' Hh; reflexivity).
      all: try (split; [intros _; exists b; split; [reflexivity|];
                        destruct (decide (Hash b = flagHash));
                          [assumption|contradiction]
                       |reflexivity]).
      all: try (intros b' Hb' Hh; injection Hb' as <-; contradiction).
    + destruct devMode; run; rewrite Hattach; run; rewrite ?Hblock;
        eexists _, _; (split; [reflexivity|]); simpl;
        (split; [rewrite ?rpc_queries_app; simpl;
                 rewrite ?app_nil_r; reflexivity|]);
        (split; [split; [discriminate|intros (b' & Hb' & _); discriminate]
                |intros b' Hb'; discriminate]).
  - intros N lvl quiet consoleMode w node w1 Hgeth Hcattach Hcnew Hattach.
    unfold LoggingVerifier.checkFlag.
    unfold mbind at 1, M_bind at 1. cbv zeta. rewrite Hgeth. cbv iota beta.
    unfold LoggingVerifier.startConsole. rewrite Hcattach, Hcnew.
    destruct (BlockByNumber N 1) as [b|err] eqn:Hblock.
    + destruct (decide (Hash b <> flagHash)) as [Hne|Heq];
        destruct consoleMode; run; rewrite Hattach; run; rewrite ?Hblock;
        (destruct (decide (Hash b <> flagHash)); [|try contradiction]);
        try contradiction;
        eexists _, _; (split; [reflexivity|]); simpl;
        (split; [rewrite ?rpc_queries_app; simpl;
                 rewrite ?app_nil_r; reflexivity|]).
      all: split.
      all: try (split; [discriminate|intros (b' & Hb' & Hh); congruence]).
      all: try (intros b' Hb' Hh; reflexivity).
      all: try (split; [intros _; exists b; split; [reflexivity|];
                        destruct (decide (Hash b = flagHash));
                          [assumption|contradiction]
                       |reflexivity]).
      all: try (intros b' Hb' Hh; injection Hb' as <-; contradiction).
    + destruct consoleMode; run; rewrite Hattach; run; rewrite ?Hblock;
        eexists _, _; (split; [reflexivity|]); simpl;
        (split; [rewrite ?rpc_queries_app; simpl;
                 rewrite ?app_nil_r; reflexivity|]);
        (split; [split; [discriminate|intros (b' & Hb' & _); discriminate]
                |intros b' Hb'; discriminate]).
Qed.

Lemma single_assertion_witness :
  (exists w',
     HarnessVerifier.checkFlag_started (SampleEnv.answering 1) 10
       SampleEnv.client0 context_Background SampleEnv.world0 = Done None w' /\
     length (rpc_queries (trace w')) = 4%nat) /\
  (exists w',
     ConsoleVerifier.checkFlag (SampleEnv.node None None 0) "info" false true
       false SampleEnv.world0
     = Done (Some (NewError "could not load chain")) w' /\
     rpc_queries (trace w') = [("eth_getBlockByNumber", 0)]).
Proof.
  destruct single_assertion as (Hharness & Hconsole & _). split.
  - set (E := SampleEnv.answering 1).
    pose (ctx' := context_WithTimeout context_Background
                    (now SampleEnv.world0) (3 * HarnessVerifier.time_Second)).
    destruct (Running E 10 SampleEnv.client0 ctx' SampleEnv.world0)
      as [[|] w|msg w|w] eqn:Hready; try (vm_compute in Hready; discriminate).
    pose proof Hready as Hw. vm_compute in Hw. injection Hw as Hw. subst w.
    match type of Hready with _ = Done true ?w0 => set (w := w0) in * end.
    destruct (ethclient_DialContext E ctx' (HttpAddr SampleEnv.client0) w)
      as [[eth|e] w1|msg w1|w1] eqn:Hdial; try (vm_compute in Hdial; discriminate).
    pose proof Hdial as Hw. vm_compute in Hw. injection Hw as Heth Hw.
    subst w1 eth.
    match type of Hdial with _ = Done (Ok ?c) ?w0 =>
      set (eth := c) in *; set (w1 := w0) in * end.
    destruct (BlockNumber E eth ctx' w1) as [q w2|msg w2|w2] eqn:Hquery;
      try (vm_compute in Hquery; discriminate).
    pose proof Hquery as Hw. vm_compute in Hw. injection Hw as Hq Hw.
    subst w2 q.
    destruct (Hharness E 10%nat SampleEnv.client0 context_Background
                SampleEnv.world0 w eth w1 _ _ Hready Hdial Hquery)
      as (r & Hres & Hqueries & Hnil & _).
    eexists. split.
    + rewrite Hres. f_equal. apply Hnil. reflexivity.
    + rewrite Hqueries. vm_compute. reflexivity.
  - set (N := SampleEnv.node None None 0).
    destruct (ConsoleVerifier.runGeth N SampleEnv.world0)
      as [[[node|] [e|]] w1|msg w1|w1] eqn:Hgeth;
      try (vm_compute in Hgeth; discriminate).
    pose proof Hgeth as Hw. vm_compute in Hw. injection Hw as _ Hw. subst w1.
    destruct (Hconsole N "info" false true false SampleEnv.world0 node _ Hgeth
                eq_refl eq_refl eq_refl)
      as (r & w2 & Hres & Hqueries & _ & Hdiffer).
    exists w2. split.
    + rewrite Hres. f_equal. eapply Hdiffer; [reflexivity|].
      vm_compute. discriminate.
    + rewrite Hqueries. vm_compute. reflexivity.
Defined.

End VerifierSpec.

(** ** More on the loader, and the fixture generator *)

Module LoaderExtra.
Import Runtime Loader LoaderFacts Chainmaker.

(** X1. A genesis file that is missing or that [json.Unmarshal] rejects
    makes [loadGenesis] return the zero [Genesis] and [loadChain] fail
    with the very error of [os.ReadFile] or [json.Unmarshal], whatever
    the chain file holds. *)
Theorem genesis_error_first (L : Lib) (fs : gmap string (list byte))
    (genesisFile : string) :
  (fs !! genesisFile = None ->
   let err := LibError "os" ("open " +:+ genesisFile +:+
                             ": no such file or directory") in
   loadGenesis L fs genesisFile = (Genesis_zero, Some err) /\
   forall chainfile, loadChain L fs chainfile genesisFile = (None, Some err)) /\
  (forall data g err,
     fs !! genesisFile = Some data ->
     json_Unmarshal L data = (g, Some err) ->
     loadGenesis L fs genesisFile = (Genesis_zero, Some err) /\
     forall chainfile, loadChain L fs chainfile genesisFile = (None, Some err)).
Proof.
  split.
  - intros Hnone err.
    assert (Hgen : loadGenesis L fs genesisFile = (Genesis_zero, Some err)).
    { unfold loadGenesis, os_ReadFile. rewrite Hnone. reflexivity. }
    split; [exact Hgen|]. intros chainfile. unfold loadChain.
    rewrite Hgen. reflexivity.
  - intros data g err Hdata Hjson.
    assert (Hgen : loadGenesis L fs genesisFile = (Genesis_zero, Some err)).
    { unfold loadGenesis, os_ReadFile. rewrite Hdata, Hjson. reflexivity. }
    split; [exact Hgen|]. intros chainfile. unfold loadChain.
    rewrite Hgen. reflexivity.
Qed.

Lemma genesis_error_first_witness :
  loadChain Sample.lib Sample.files "chain.rlp" "nogenesis.json"
  = (None, Some (LibError "os"
       "open nogenesis.json: no such file or directory")).
Proof.
  destruct (genesis_error_first Sample.lib Sample.files "nogenesis.json")
    as [Hmissing _].
  apply Hmissing. reflexivity.
Defined.

(** X2. A chain file that holds no block (the first [Decode] gives
    [io.EOF]) loads, and the chain is the genesis block alone. *)
Theorem empty_chain_file (L : Lib) (fs : gmap string (list byte))
    (chainfile genesisFile : string) (gen : Genesis) (s : Stream) :
  loadGenesis L fs genesisFile = (gen, None) ->
  chainStream L fs chainfile = Ok s ->
  rlp_Decode L s = DecodeErr io_EOF ->
  loadChain L fs chainfile genesisFile
  = (Some {| genesis := gen; blocks := [ToBlock L gen];
             chainConfig := Config gen |}, None).
Proof.
  intros Hgen Hs Heof.
  rewrite (loadChain_unfold L _ _ _ _ Hgen), blocksFromFile_chainStream, Hs.
  rewrite blocks_loop_unfold', Heof. reflexivity.
Qed.

Lemma empty_chain_file_witness :
  let fs := <["empty.rlp" := []]> Sample.files in
  exists c, loadChain Sample.lib fs "empty.rlp" "genesis.json" = (Some c, None)
            /\ length (blocks c) = 1%nat.
Proof.
  intros fs. eexists. split.
  - apply (empty_chain_file Sample.lib fs "empty.rlp" "genesis.json"
             (fst (loadGenesis Sample.lib fs "genesis.json"))
             (file_reader [])); reflexivity.
  - reflexivity.
Defined.

(** X3. What fails before the first block is decoded is returned as it
    is, with no block index: a chain file that is missing gives the
    error of [os.Open], a file named [*.gz] that [gzip.NewReader] rejects
    gives the error of [gzip.NewReader]. *)
Theorem chain_open_errors (L : Lib) (fs : gmap string (list byte))
    (chainfile genesisFile : string) (gen : Genesis) :
  loadGenesis L fs genesisFile = (gen, None) ->
  (fs !! chainfile = None ->
   loadChain L fs chainfile genesisFile
   = (None, Some (LibError "os" ("open " +:+ chainfile +:+
                                 ": no such file or directory")))) /\
  (forall data err,
     fs !! chainfile = Some data ->
     HasSuffix chainfile ".gz" = true ->
     gzip_NewReader L (file_reader data) = Err err ->
     loadChain L fs chainfile genesisFile = (None, Some err)).
Proof.
  intros Hgen. split.
  - intros Hnone. rewrite (loadChain_unfold L _ _ _ _ Hgen).
    unfold blocksFromFile, os_Open. rewrite Hnone. reflexivity.
  - intros data err Hdata Hgz Hbad. rewrite (loadChain_unfold L _ _ _ _ Hgen).
    unfold blocksFromFile, os_Open. rewrite Hdata, Hgz.
    fold (file_reader data). rewrite Hbad. reflexivity.
Qed.

Lemma chain_open_errors_witness :
  loadChain Sample.lib Sample.files "raw.gz" "genesis.json"
  = (None, Some (LibError "gzip" "gzip: invalid header")).
Proof.
  destruct (chain_open_errors Sample.lib Sample.files "raw.gz" "genesis.json"
              (fst (loadGenesis Sample.lib Sample.files "genesis.json"))
              eq_refl) as [_ Hgz].
  apply (Hgz [x01; xaa; x02; xbb]); reflexivity.
Defined.

(** *** What [writeChain] leaves on disk *)

Lemma write_blocks (W : Writer) name chain :
  forall fs acc,
    foldl (fun fs b => file_Write fs name (EncodeRLP W b))
          (<[name := acc]> fs) chain
    = <[name := acc ++ concat (EncodeRLP W <$> chain)]> fs.
Proof.
  induction chain as [|b chain IH]; intros fs acc; simpl.
  - now rewrite app_nil_r.
  - unfold file_Write at 2. rewrite lookup_insert_eq. simpl.
    rewrite insert_insert_eq, IH, <- app_assoc. reflexivity.
Qed.

Lemma writeChain_content (W : Writer) chain name fs :
  name <> "" ->
  writeChain W chain name fs
  = (<[name := concat (EncodeRLP W <$> chain)]> fs, None).
Proof.
  intros Hname. unfold writeChain, os_OpenFile.
  destruct (decide (name = "")); [contradiction|].
  now rewrite write_blocks.
Qed.

Lemma Decodes_written (L : Lib) (W : Writer) chain rest :
  (forall b, b ∈ chain -> encodes L W b) ->
  Decodes L (file_reader (concat (EncodeRLP W <$> chain) ++ rest)) chain
          (file_reader rest).
Proof.
  induction chain as [|b chain IH]; intros Henc; simpl.
  - constructor.
  - rewrite <- app_assoc. econstructor.
    + apply Henc. apply elem_of_cons. now left.
    + apply IH. intros b' Hb'. apply Henc. apply elem_of_cons. now right.
Qed.

Lemma chainStream_plain (L : Lib) fs name data :
  fs !! name = Some data -> HasSuffix name ".gz" = false ->
  chainStream L fs name = Ok (file_reader data).
Proof.
  intros Hdata Hplain. unfold chainStream, os_Open.
  rewrite Hdata, Hplain. reflexivity.
Qed.

(** X4. Round trip.  Blocks numbered 1, 2, ... that [writeChain] writes
    to a file whose name does not end in [.gz] are read back by
    [blocksFromFile] in the same order, after the genesis block, provided
    the decoder reads what the encoder writes and gives [io.EOF] on the
    empty stream. *)
Theorem writeChain_blocksFromFile (L : Lib) (W : Writer)
    (fs : gmap string (list byte)) (filename : string) (chain : list Block)
    (gblock : Block) :
  filename <> "" ->
  HasSuffix filename ".gz" = false ->
  (forall b, b ∈ chain -> encodes L W b) ->
  rlp_Decode L (file_reader []) = DecodeErr io_EOF ->
  (forall (i : nat) b, chain !! i = Some b -> NumberU64 b = Z.of_nat i + 1) ->
  Z.of_nat (length chain) < 2 ^ 63 ->
  exists fs',
    writeChain W chain filename fs = (fs', None) /\
    blocksFromFile L fs' filename gblock = (Some (gblock :: chain), None).
Proof.
  intros Hname Hplain Henc Heof Hnum Hlen.
  eexists. split; [apply writeChain_content, Hname|].
  pose proof (Decodes_written L W chain [] Henc) as Hrun.
  rewrite app_nil_r in Hrun.
  rewrite (blocksFromFile_after_run L _ filename gblock _ chain _
             (chainStream_plain L _ _ _ (lookup_insert_eq _ _ _) Hplain)
             Hrun Hlen Hnum).
  rewrite blocks_loop_unfold', Heof. reflexivity.
Qed.

Lemma writeChain_blocksFromFile_witness :
  let chain := [SampleWriter.block 1 170; SampleWriter.block 2 187] in
  exists fs',
    writeChain SampleWriter.writer chain "out.rlp" ∅ = (fs', None) /\
    blocksFromFile Sample.lib fs' "out.rlp" (SampleWriter.block 0 7)
    = (Some (SampleWriter.block 0 7 :: chain), None).
Proof.
  intros chain.
  apply (writeChain_blocksFromFile Sample.lib SampleWriter.writer ∅ "out.rlp"
           chain (SampleWriter.block 0 7)).
  - discriminate.
  - reflexivity.
  - intros b Hb rest.
    apply elem_of_cons in Hb as [->|Hb];
      [|apply elem_of_cons in Hb as [->|Hb]; [|now apply elem_of_nil in Hb]];
      reflexivity.
  - reflexivity.
  - intros [|[|i]] b Hb; try discriminate; injection Hb as <-; reflexivity.
  - reflexivity.
Defined.

Lemma writeGenesis_content (W : Writer) g name fs raw :
  name <> "" -> MarshalJSON W g = Ok raw ->
  writeGenesis W g name fs = (<[name := raw]> fs, None).
Proof.
  intros Hname Hraw. unfold writeGenesis, os_OpenFile.
  destruct (decide (name = "")); [contradiction|]. rewrite Hraw.
  unfold file_Write. rewrite lookup_insert_eq, insert_insert_eq. reflexivity.
Qed.

(** X5. The chain file that the generator's [main] writes starts with
    the genesis block ([blocks = append([genesis], blocks...)]), so the
    in-process loader rejects it at index 0: when the genesis block is
    numbered 0 and the decoder reads what the encoder writes,
    [loadChain] on the two files that [main] wrote fails with
    "block at index 0 has wrong number 0". *)
Theorem chainmaker_output_rejected (L : Lib) (W : Writer)
    (fs : gmap string (list byte)) (chainFilename genesisFilename : string)
    (raw : list byte) (gen : Genesis) :
  chainFilename <> "" -> genesisFilename <> "" ->
  chainFilename <> genesisFilename ->
  HasSuffix chainFilename ".gz" = false ->
  MarshalJSON W (gspec W) = Ok raw ->
  json_Unmarshal L raw = (gen, None) ->
  encodes L W (MustCommit W (gspec W)) ->
  NumberU64 (MustCommit W (gspec W)) = 0 ->
  exists fs' n,
    main W chainFilename genesisFilename fs
    = (fs', [Stdout (Sprintf "wrote %d blocks to disk" [ArgInt n])], 0) /\
    loadChain L fs' chainFilename genesisFilename
    = (None, Some (NewError "block at index 0 has wrong number 0")).
Proof.
  intros Hchain Hgenesis Hdiff Hplain Hraw Hjson Henc Hzero.
  unfold main.
  rewrite (writeGenesis_content W _ _ _ _ Hgenesis Hraw).
  rewrite (writeChain_content W _ _ _ Hchain).
  eexists _, _. split; [reflexivity|].
  set (g := MustCommit W (gspec W)) in *.
  set (rest := GenerateChain W (gspec W) g 1).
  set (fs' := <[chainFilename := _]> _).
  assert (Hgen : loadGenesis L fs' genesisFilename = (gen, None)).
  { unfold loadGenesis, os_ReadFile, fs'.
    rewrite lookup_insert_ne, lookup_insert_eq by exact Hdiff.
    rewrite Hjson. reflexivity. }
  rewrite (loadChain_unfold L _ _ _ _ Hgen).
  assert (Hs : chainStream L fs' chainFilename
               = Ok (file_reader (concat (EncodeRLP W <$> ([g] ++ rest))))).
  { apply chainStream_plain; [apply lookup_insert_eq|exact Hplain]. }
  rewrite blocksFromFile_chainStream, Hs.
  rewrite blocks_loop_unfold'. simpl. rewrite (Henc _).
  rewrite Hzero.
  destruct (decide (0 <> uint64 (int_add 0 1))) as [_|Hno];
    [reflexivity|].
  exfalso. apply Hno. vm_compute. discriminate.
Qed.

Lemma chainmaker_output_rejected_witness :
  exists fs' n,
    main SampleWriter.writer "chain.rlp" "genesis.json" ∅
    = (fs', [Stdout (Sprintf "wrote %d blocks to disk" [ArgInt n])], 0) /\
    loadChain Sample.lib fs' "chain.rlp" "genesis.json"
    = (None, Some (NewError "block at index 0 has wrong number 0")).
Proof.
  apply (chainmaker_output_rejected Sample.lib SampleWriter.writer ∅
           "chain.rlp" "genesis.json" [x01]
           (fst (Sample.Unmarshal [x01])));
    try discriminate; try reflexivity.
  intros rest. reflexivity.
Defined.

(** X6. [writeGenesis] opens (and empties) the file before it marshals:
    when [MarshalJSON] succeeds the file holds exactly its bytes, and
    [loadGenesis] reads back the description if [json.Unmarshal] inverts
    [MarshalJSON] on it; when [MarshalJSON] fails, [writeGenesis] returns
    that error and leaves the file empty, whatever it held before. *)
Theorem writeGenesis_loadGenesis (L : Lib) (W : Writer)
    (fs : gmap string (list byte)) (filename : string) (g : Genesis) :
  filename <> "" ->
  (forall raw,
     MarshalJSON W g = Ok raw ->
     json_Unmarshal L raw = (g, None) ->
     exists fs',
       writeGenesis W g filename fs = (fs', None) /\
       fs' !! filename = Some raw /\
       loadGenesis L fs' filename = (g, None)) /\
  (forall err,
     MarshalJSON W g = Err err ->
     exists fs',
       writeGenesis W g filename fs = (fs', Some err) /\
       fs' !! filename = Some []).
Proof.
  intros Hname. split.
  - intros raw Hraw Hjson. eexists. split; [|split].
    + apply (writeGenesis_content W g filename fs raw Hname Hraw).
    + apply lookup_insert_eq.
    + unfold loadGenesis, os_ReadFile. rewrite lookup_insert_eq, Hjson.
      reflexivity.
  - intros err Hfail. unfold writeGenesis, os_OpenFile.
    destruct (decide (filename = "")); [contradiction|]. rewrite Hfail.
    eexists. split; [reflexivity|apply lookup_insert_eq].
Qed.

Lemma writeGenesis_loadGenesis_witness :
  (exists fs',
     writeGenesis SampleWriter.writer SampleWriter.genesis1 "genesis.json"
       Sample.files = (fs', None) /\
     fs' !! "genesis.json" = Some [x01] /\
     loadGenesis Sample.lib fs' "genesis.json" = (SampleWriter.genesis1, None)) /\
  (exists fs',
     writeGenesis SampleWriter.writer Genesis_zero "genesis.json" Sample.files
     = (fs', Some (LibError "json" "json: unsupported value")) /\
     fs' !! "genesis.json" = Some []).
Proof.
  split.
  - destruct (writeGenesis_loadGenesis Sample.lib SampleWriter.writer
                Sample.files "genesis.json" SampleWriter.genesis1)
      as [Hok _]; [discriminate|].
    apply (Hok [x01]); reflexivity.
  - destruct (writeGenesis_loadGenesis Sample.lib SampleWriter.writer
                Sample.files "genesis.json" Genesis_zero)
      as [_ Hfail]; [discriminate|].
    apply Hfail. reflexivity.
Defined.

End LoaderExtra.

(** ** More on package [harness] *)

Module HarnessExtra.
Import Runtime Harness Teardown.

Ltac run :=
  repeat (unfold mbind, M_bind, mret, M_ret, emit, history, clock; simpl).

(** X7. When [Start] fails, the client keeps the command that could not
    be started, with no process: a later [Close] panics on the nil
    process, and nothing is removed. *)
Theorem Close_after_failed_Start (E : Env) (g0 g : gethClient)
    (ctx : Context) (verbose : bool) (w0 w1 : World) (err : error) :
  Start E g0 ctx verbose w0 = Done (g, Some err) w1 ->
  (exists c, cmd g = Some c /\ Process c = None) /\
  forall w, Close g w = Panicked nil_dereference w.
Proof.
  unfold Start, Cmd_Start. run.
  match goal with |- context [spawn_outcome E ?h] =>
    destruct (spawn_outcome E h) as [e|] end; run; intros H; [|discriminate].
  injection H as <- _ _. unfold Close. simpl.
  destruct verbose; simpl; (split; [eexists; split; reflexivity|reflexivity]).
Qed.

Lemma Close_after_failed_Start_witness :
  let E := {| run_outcome := fun _ => None;
              spawn_outcome := fun _ => Some (LibError "exec" "no such file");
              dial_outcome := fun _ => None;
              dial_duration := fun _ => 1;
              blockNumber_outcome := fun _ => Ok 1;
              blockNumber_duration := fun _ => 1 |} in
  exists g w1,
    Start E SampleEnv.client0 context_Background false SampleEnv.world0
    = Done (g, Some (LibError "exec" "no such file")) w1 /\
    Close g w1 = Panicked nil_dereference w1.
Proof.
  intros E.
  destruct (Start E SampleEnv.client0 context_Background false SampleEnv.world0)
    as [[g [err|]] w1|msg w1|w1] eqn:Hstart;
    try (vm_compute in Hstart; discriminate).
  assert (Herr : err = LibError "exec" "no such file").
  { vm_compute in Hstart. now injection Hstart as _ <- _. }
  subst err. exists g, w1. split; [reflexivity|].
  apply (Close_after_failed_Start E _ _ _ _ _ _ _ Hstart).
Defined.

(** X8. A [Start] that succeeds leaves a live process with a fresh id in
    the client, adds the one event of spawning geth and returns at
    once: it does not wait for the client to answer. *)
Theorem Start_spawns (E : Env) (g0 g : gethClient) (ctx : Context)
    (verbose : bool) (w0 w1 : World) :
  Start E g0 ctx verbose w0 = Done (g, None) w1 ->
  exists c argv,
    cmd g = Some c /\ Process c = Some (next_pid w0) /\
    procs w1 !! next_pid w0 = Some true /\
    next_pid w1 = S (next_pid w0) /\
    trace w1 = trace w0 ++ [Exec Spawn (gethBin (path g0)) argv] /\
    (hd_error argv = Some "--fakepow" <-> FakePow (args g0) = true) /\
    now w1 = now w0 /\ paths w1 = paths w0.
Proof.
  unfold Start, Cmd_Start. run.
  match goal with |- context [spawn_outcome E ?h] =>
    destruct (spawn_outcome E h) as [e|] end; run; intros H; [discriminate|].
  injection H as <- <-. simpl.
  destruct verbose; simpl; eexists _, _;
    (split; [reflexivity|]); (split; [reflexivity|]);
    (split; [apply lookup_insert_eq|]); (split; [reflexivity|]);
    (split; [reflexivity|]);
    (split; [|split; reflexivity]);
    unfold maybePrepend; destruct (FakePow (args g0)); simpl;
    split; try reflexivity; try discriminate;
    intros H; vm_compute in H; discriminate.
Qed.

Lemma Start_spawns_witness :
  exists g w1 c,
    Start (SampleEnv.answering 1) SampleEnv.client0 context_Background false
          SampleEnv.world0 = Done (g, None) w1 /\
    cmd g = Some c /\ Process c = Some 1%nat /\ procs w1 !! 1%nat = Some true.
Proof.
  destruct (Start (SampleEnv.answering 1) SampleEnv.client0 context_Background
              false SampleEnv.world0) as [[g [err|]] w1|msg w1|w1] eqn:Hstart;
    try (vm_compute in Hstart; discriminate).
  destruct (Start_spawns _ _ _ _ _ _ _ Hstart)
    as (c & argv & Hcmd & Hproc & Halive & _).
  exists g, w1, c. repeat split; assumption.
Defined.

(** X9. [Compile] returns exactly what the build command
    [go run build/ci.go install ./cmd/geth] gives, and comes back to the
    working directory it started in whether the build fails or not. *)
Theorem Compile_restores_cwd (E : Env) (g : gethClient) (ctx : Context)
    (verbose : bool) (w : World) :
  let build := Exec Run "go" ["run"; "build/ci.go"; "install"; "./cmd/geth"] in
  exists w',
    Compile E g ctx verbose w = Done (run_outcome E (trace w ++ [build])) w' /\
    cwd w' = cwd w /\
    trace w' = trace w ++ [build] /\
    paths w' = paths w.
Proof.
  intros build. unfold Compile, os_Getwd, defer, os_Chdir.
  unfold mbind at 1, M_bind at 1. unfold mbind at 1, M_bind at 1.
  unfold mbind at 1, M_bind at 1. rewrite HarnessSpec.runCmd_run. simpl.
  fold build.
  destruct (run_outcome E (trace w ++ [build])); eexists;
    (split; [reflexivity|]); repeat split; reflexivity.
Qed.

(** X10. With a context that never fires and a client that is never
    reachable, [Running] never returns: however many rounds of the loop
    are observed, the poll is still going. *)
Theorem Running_without_deadline (E : Env) (g : gethClient) (ctx : Context) :
  fires ctx = None ->
  never_reachable E ->
  forall fuel w, exists w', Running E fuel g ctx w = Unfinished w'.
Proof.
  intros Hnever Hunreach.
  induction fuel as [|fuel IH]; intros w; [eexists; reflexivity|].
  rewrite HarnessSpec.Running_S. unfold ctx_done. rewrite Hnever.
  rewrite HarnessSpec.DialContext_run. unfold ctx_call at 1. rewrite Hnever.
  set (h1 := trace w ++ [Dial (HttpAddr g) (now w)]).
  destruct (dial_outcome E h1) as [e|] eqn:Hdial; [apply IH|].
  rewrite HarnessSpec.BlockNumber_run. unfold ctx_call at 1. rewrite Hnever.
  simpl.
  match goal with |- context [blockNumber_outcome E ?h] =>
    destruct (blockNumber_outcome E h) as [n|e] eqn:Hquery end;
    [|apply IH].
  exfalso. destruct Hunreach as [Hnodial|Hnoquery].
  - destruct (Hnodial h1) as [e He]. rewrite Hdial in He. discriminate.
  - exact (Hnoquery _ n Hquery).
Qed.

Lemma Running_without_deadline_witness :
  exists w',
    Running SampleEnv.unreachable 7 SampleEnv.client0 context_Background
            SampleEnv.world0 = Unfinished w'.
Proof.
  apply (Running_without_deadline SampleEnv.unreachable SampleEnv.client0
           context_Background eq_refl).
  right. intros h n H. discriminate H.
Defined.

(** X11. [Running] answers "running" only after a block-number query
    that the client answered: that query is the last event of the poll,
    and the answer comes strictly before the context fires. *)
Theorem Running_true_answered (E : Env) (g : gethClient) (ctx : Context)
    (fuel : nat) :
  forall w w',
    Running E fuel g ctx w = Done true w' ->
    exists h t n,
      trace w' = h ++ [Rpc "eth_blockNumber" t] /\
      blockNumber_outcome E (h ++ [Rpc "eth_blockNumber" t]) = Ok n /\
      (forall f, fires ctx = Some f -> now w' < f).
Proof.
  induction fuel as [|fuel IH]; intros w w' Hrun; [discriminate|].
  rewrite HarnessSpec.Running_S in Hrun.
  destruct (ctx_done ctx (now w)); [discriminate|].
  rewrite HarnessSpec.DialContext_run in Hrun.
  set (h1 := trace w ++ [Dial (HttpAddr g) (now w)]) in *.
  unfold ctx_call at 1 in Hrun.
  assert (Hquery : forall w1 : World,
    match BlockNumber E {| rpc_addr := HttpAddr g |} ctx w1 with
    | Done (Ok _) w2 => Done true w2
    | Done (Err _) w2 => Running E fuel g ctx w2
    | Panicked msg w2 => Panicked msg w2
    | Unfinished w2 => Unfinished w2
    end = Done true w' ->
    exists h t n,
      trace w' = h ++ [Rpc "eth_blockNumber" t] /\
      blockNumber_outcome E (h ++ [Rpc "eth_blockNumber" t]) = Ok n /\
      (forall f, fires ctx = Some f -> now w' < f)).
  { intros w1 H. rewrite HarnessSpec.BlockNumber_run in H.
    unfold ctx_call at 1 in H. simpl in H.
    set (h2 := trace w1 ++ [Rpc "eth_blockNumber" (now w1)]) in *.
    destruct (fires ctx) as [f|] eqn:Hf.
    - destruct (Z.leb_spec f (now w1 + blockNumber_duration E h2));
        [exact (IH _ _ H)|].
      destruct (blockNumber_outcome E h2) as [n|e] eqn:Hout;
        [|exact (IH _ _ H)].
      injection H as <-. exists (trace w1), (now w1), n.
      repeat split; try assumption.
      intros f' Hf'. injection Hf' as <-. simpl. lia.
    - destruct (blockNumber_outcome E h2) as [n|e] eqn:Hout;
        [|exact (IH _ _ H)].
      injection H as <-. exists (trace w1), (now w1), n.
      repeat split; try assumption. intros f' Hf'. discriminate. }
  destruct (fires ctx) as [f|].
  - destruct (f <=? now (set_trace w h1) + dial_duration E h1)%Z;
      [exact (IH _ _ Hrun)|].
    destruct (dial_outcome E h1); [exact (IH _ _ Hrun)|].
    exact (Hquery _ Hrun).
  - destruct (dial_outcome E h1); [exact (IH _ _ Hrun)|].
    exact (Hquery _ Hrun).
Qed.

Lemma Running_true_answered_witness :
  exists w' h t,
    Running (SampleEnv.answering 1) 10 SampleEnv.client0
      (context_WithTimeout context_Background 0 3000000000) SampleEnv.world0
    = Done true w' /\
    trace w' = h ++ [Rpc "eth_blockNumber" t] /\
    now w' < 3000000000.
Proof.
  destruct (Running (SampleEnv.answering 1) 10 SampleEnv.client0
              (context_WithTimeout context_Background 0 3000000000)
              SampleEnv.world0) as [[|] w'|msg w'|w'] eqn:Hrun;
    try (vm_compute in Hrun; discriminate).
  destruct (Running_true_answered _ _ _ _ _ _ Hrun)
    as (h & t & n & Htrace & _ & Hbefore).
  exists w', h, t. split; [reflexivity|]. split; [exact Htrace|].
  apply Hbefore. reflexivity.
Defined.

End HarnessExtra.

(** ** More on the verifier built on [harness] *)

Module HarnessVerifierExtra.
Import Runtime Harness HarnessVerifier.

Ltac run :=
  repeat (unfold mbind, M_bind, mret, M_ret, emit, history, clock; simpl).

Lemma defer_Done {A} (cleanup : M unit) (body : M A) w r w' :
  defer cleanup body w = Done r w' ->
  exists w1, body w = Done r w1 /\ cleanup w1 = Done tt w'.
Proof.
  unfold defer. destruct (body w) as [a w1|msg w1|w1]; [| |discriminate].
  - destruct (cleanup w1) as [[] w2|msg w2|w2] eqn:Hc; try discriminate.
    intros H. injection H as <- <-. exists w1. split; [reflexivity|exact Hc].
  - destruct (cleanup w1) as [[] w2|msg' w2|w2]; discriminate.
Qed.

Lemma makeDataDir_run (path : string) (w : World) :
  makeDataDir path w =
  Done None (set_paths w ({[ path ]} ∪
                          filter (fun p => ~ inside path p) (paths w))).
Proof.
  unfold makeDataDir, os_RemoveAll, os_Mkdir. run.
  destruct (decide (path ∈ filter (fun p => ~ inside path p) (paths w)))
    as [Hin|_]; [|reflexivity].
  apply elem_of_filter in Hin as [Hout _]. exfalso. apply Hout. now left.
Qed.


Lemma unknown_level (l : string) :
  l ∉ levels ->
  ParseLogLevel l = (0, Some (Errorf "unknown log level: %s" [ArgStr l])).
Proof.
  intros Hl. unfold ParseLogLevel, levels in *.
  repeat (destruct (decide _) as [->|_];
          [exfalso; apply Hl; repeat (apply elem_of_cons; (by left) || right)|]).
  reflexivity.
Qed.

(** X13. A log level that [ParseLogLevel] does not know stops the
    verifier before it touches anything: [checkFlag] returns the error
    and the world is as it was (no data directory made or removed, no
    command run); [main] writes the message to the standard error and
    exits with status 1. *)
Theorem unknown_level_no_effect (E : Env) (fuel : nat) (l : string)
    (quiet skipCompile : bool) (w : World) :
  l ∉ levels ->
  let err := Errorf "unknown log level: %s" [ArgStr l] in
  (forall verbose, checkFlag E fuel l skipCompile verbose w = Done (Some err) w) /\
  main E fuel l quiet skipCompile w
  = Done 1 (set_trace w (trace w ++ [Stderr (Error err +:+ LF)])).
Proof.
  intros Hl err.
  assert (Hcheck : forall verbose,
            checkFlag E fuel l skipCompile verbose w = Done (Some err) w).
  { intros verbose. unfold checkFlag. rewrite (unknown_level l Hl).
    reflexivity. }
  split; [exact Hcheck|].
  unfold main. unfold mbind at 1, M_bind at 1. rewrite Hcheck.
  reflexivity.
Qed.

Lemma unknown_level_no_effect_witness :
  main (SampleEnv.answering 1) 10 "trace" true true SampleEnv.world0
  = Done 1 (set_trace SampleEnv.world0
              [Stderr ("unknown log level: trace" +:+ LF)]).
Proof.
  destruct (unknown_level_no_effect (SampleEnv.answering 1) 10 "trace" true
              true SampleEnv.world0) as [_ Hmain].
  - unfold levels. intros Hin.
    repeat (apply elem_of_cons in Hin as [Heq|Hin]; [discriminate Heq|]).
    now apply elem_of_nil in Hin.
  - exact Hmain.
Defined.

Lemma RemoveAll_gone path w w' :
  (_ ← os_RemoveAll path; mret tt) w = Done tt w' ->
  (forall p, inside path p -> p ∉ paths w') /\ trace w' = trace w /\
  procs w' = procs w /\ now w' = now w.
Proof.
  unfold os_RemoveAll. run. intros H. injection H as <-. simpl.
  repeat split. intros p Hin Hp.
  apply elem_of_filter in Hp as [Hout _]. contradiction.
Qed.

(** X14. Once the log level is accepted, every return of [checkFlag]
    leaves no data directory behind: whatever stage failed or succeeded,
    no path at or below "datadir" exists afterwards. *)
Theorem checkFlag_removes_datadir (E : Env) (fuel : nat) (l : string)
    (skipCompile verbose : bool) (w w' : World) (r : option error) :
  snd (ParseLogLevel l) = None ->
  checkFlag E fuel l skipCompile verbose w = Done r w' ->
  forall p, inside "datadir" p -> p ∉ paths w'.
Proof.
  intros Hl Hrun. unfold checkFlag in Hrun.
  destruct (ParseLogLevel l) as [lvl [e|]]; [discriminate|].
  unfold mbind at 1, M_bind at 1 in Hrun.
  rewrite makeDataDir_run in Hrun.
  apply defer_Done in Hrun as (wb & _ & Hclean).
  exact (proj1 (RemoveAll_gone _ _ _ Hclean)).
Qed.

Lemma checkFlag_removes_datadir_witness :
  exists r w',
    checkFlag SampleEnv.init_fails 10 "info" true false
      (set_paths SampleEnv.world0 {[ "datadir"; "datadir/geth/chaindata" ]})
    = Done r w' /\
    ("datadir" ∉ paths w') /\ ("datadir/geth/chaindata" ∉ paths w').
Proof.
  destruct (checkFlag SampleEnv.init_fails 10 "info" true false
              (set_paths SampleEnv.world0
                 {[ "datadir"; "datadir/geth/chaindata" ]}))
    as [r w'|msg w'|w'] eqn:Hrun; try (vm_compute in Hrun; discriminate).
  exists r, w'. split; [reflexivity|].
  split;
    apply (checkFlag_removes_datadir SampleEnv.init_fails 10 "info" true false
             _ w' r eq_refl Hrun);
    [left; reflexivity|right; reflexivity].
Defined.

Lemma BlockNumber_Ok E client ctx w n w' :
  BlockNumber E client ctx w = Done (Ok n) w' ->
  trace w' = trace w ++ [Rpc "eth_blockNumber" (now w)] /\
  blockNumber_outcome E (trace w ++ [Rpc "eth_blockNumber" (now w)]) = Ok n.
Proof.
  rewrite HarnessSpec.BlockNumber_run. unfold ctx_call.
  destruct (fires ctx) as [f|].
  - destruct (f <=? _)%Z; [discriminate|].
    intros H. injection H as Hn <-. split; [reflexivity|exact Hn].
  - intros H. injection H as Hn <-. split; [reflexivity|exact Hn].
Qed.

Lemma Close_frame g w w' :
  (_ ← Close g; mret tt) w = Done tt w' ->
  trace w' = trace w /\ now w' = now w.
Proof.
  unfold Close. destruct (cmd g) as [c|]; [|discriminate].
  destruct (Process c) as [pid|] eqn:Hproc; [|discriminate].
  unfold Process_Kill, Cmd_Wait, os_RemoveAll. rewrite Hproc. run.
  destruct (procs w !! pid) as [[|]|]; destruct (finished c); run;
    intros H; injection H as <-; split; reflexivity.
Qed.

Lemma NewClient_Geth path args :
  NewClient Geth path args
  = (Some {| cmd := None; path := path; args := args |}, None).
Proof. reflexivity. Qed.

Lemma verifyFlag_nil E client ctx w w' :
  verifyFlag E client ctx w = Done None w' ->
  exists h t,
    trace w' = h ++ [Rpc "eth_blockNumber" t] /\
    blockNumber_outcome E (h ++ [Rpc "eth_blockNumber" t]) = Ok 1.
Proof.
  unfold verifyFlag. unfold mbind at 1, M_bind at 1.
  destruct (ethclient_DialContext E ctx (HttpAddr client) w)
    as [[eth|e] w1|msg w1|w1]; try discriminate.
  unfold mbind at 1, M_bind at 1.
  destruct (BlockNumber E eth ctx w1) as [[num|e] w2|msg w2|w2] eqn:Hquery;
    try discriminate.
  destruct (decide (num <> 1)) as [Hne|Heq]; [discriminate|].
  intros H. injection H as <-.
  assert (num = 1) as -> by (destruct (decide (num = 1)); [assumption|contradiction]).
  apply BlockNumber_Ok in Hquery as [Htrace Hout].
  exists (trace w1), (now w1). split; assumption.
Qed.

Lemma checkFlag_started_nil E fuel client ctx w w' :
  checkFlag_started E fuel client ctx w = Done None w' ->
  exists h t,
    trace w' = h ++ [Rpc "eth_blockNumber" t] /\
    blockNumber_outcome E (h ++ [Rpc "eth_blockNumber" t]) = Ok 1.
Proof.
  unfold checkFlag_started. unfold mbind at 1, M_bind at 1, clock.
  intros H. apply defer_Done in H as (w1 & Hbody & Hcancel).
  injection Hcancel as <-.
  unfold mbind at 1, M_bind at 1 in Hbody.
  destruct (Running E fuel client _ w) as [[|] w2|msg w2|w2];
    try discriminate.
  exact (verifyFlag_nil _ _ _ _ _ Hbody).
Qed.

(** X15. Soundness of the verifier built on [harness]: [checkFlag]
    returns nil, and [main] prints "Flag captured." and exits with
    status 0, only when the last RPC query of the run was a
    block-number query that the client answered with 1. *)
Theorem flag_captured_sound (E : Env) (fuel : nat) (l : string)
    (quiet skipCompile : bool) (w w' : World) :
  (forall verbose,
     checkFlag E fuel l skipCompile verbose w = Done None w' ->
     exists h t,
       trace w' = h ++ [Rpc "eth_blockNumber" t] /\
       blockNumber_outcome E (h ++ [Rpc "eth_blockNumber" t]) = Ok 1) /\
  (main E fuel l quiet skipCompile w = Done 0 w' ->
   exists h t,
     trace w' = h ++ [Rpc "eth_blockNumber" t; Stdout ("Flag captured." +:+ LF)] /\
     blockNumber_outcome E (h ++ [Rpc "eth_blockNumber" t]) = Ok 1).
Proof.
  assert (Hcheck : forall verbose w',
     checkFlag E fuel l skipCompile verbose w = Done None w' ->
     exists h t,
       trace w' = h ++ [Rpc "eth_blockNumber" t] /\
       blockNumber_outcome E (h ++ [Rpc "eth_blockNumber" t]) = Ok 1).
  { clear w'. intros verbose w' Hrun. unfold checkFlag in Hrun.
    destruct (ParseLogLevel l) as [lvl [e|]]; [discriminate|].
    unfold mbind at 1, M_bind at 1 in Hrun.
    rewrite makeDataDir_run in Hrun.
    set (w1 := set_paths w _) in Hrun.
    apply defer_Done in Hrun as (wb & Hbody & Hclean).
    apply RemoveAll_gone in Hclean as (_ & -> & _).
    rewrite NewClient_Geth in Hbody.
    unfold mbind at 1, M_bind at 1 in Hbody.
    match type of Hbody with context [match ?c w1 with _ => _ end] =>
      destruct (c w1) as [[e|] w2|msg w2|w2] end; try discriminate.
    unfold mbind at 1, M_bind at 1 in Hbody.
    match type of Hbody with context [match ?c w2 with _ => _ end] =>
      destruct (c w2) as [[e|] w3|msg w3|w3] end; try discriminate.
    unfold mbind at 1, M_bind at 1 in Hbody.
    match type of Hbody with context [match ?c w3 with _ => _ end] =>
      destruct (c w3) as [[client [e|]] w4|msg w4|w4] end; try discriminate.
    apply defer_Done in Hbody as (w5 & Hstarted & Hclose).
    apply Close_frame in Hclose as [-> _].
    exact (checkFlag_started_nil _ _ _ _ _ _ Hstarted). }
  split; [intros verbose; apply Hcheck|].
  unfold main. unfold mbind at 1, M_bind at 1.
  destruct (checkFlag E fuel l skipCompile (negb quiet) w)
    as [[e|] w1|msg w1|w1] eqn:Hrun; try discriminate.
  run. intros H. injection H as <-. simpl.
  destruct (Hcheck _ _ Hrun) as (h & t & -> & Hout).
  exists h, t. split; [now rewrite <- app_assoc|exact Hout].
Qed.

Lemma flag_captured_sound_witness :
  exists w' h t,
    main (SampleEnv.answering 1) 10 "info" true true SampleEnv.world0
    = Done 0 w' /\
    trace w' = h ++ [Rpc "eth_blockNumber" t; Stdout ("Flag captured." +:+ LF)].
Proof.
  destruct (main (SampleEnv.answering 1) 10 "info" true true SampleEnv.world0)
    as [code w'|msg w'|w'] eqn:Hrun; try (vm_compute in Hrun; discriminate).
  assert (code = 0) as -> by (vm_compute in Hrun; now injection Hrun as <- _).
  destruct (flag_captured_sound (SampleEnv.answering 1) 10 "info" true true
              SampleEnv.world0 w') as [_ Hmain].
  destruct (Hmain Hrun) as (h & t & Htrace & _).
  exists w', h, t. split; [reflexivity|exact Htrace].
Defined.

Lemma Compile_run E g ctx verbose w :
  Compile E g ctx verbose w =
  Done (run_outcome E (trace w ++
          [Exec Run "go" ["run"; "build/ci.go"; "install"; "./cmd/geth"]]))
       (set_trace w (trace w ++
          [Exec Run "go" ["run"; "build/ci.go"; "install"; "./cmd/geth"]])).
Proof.
  unfold Compile, os_Getwd, defer, os_Chdir.
  unfold mbind at 1, M_bind at 1. unfold mbind at 1, M_bind at 1.
  unfold mbind at 1, M_bind at 1. rewrite HarnessSpec.runCmd_run. simpl.
  destruct (run_outcome E _); destruct w; reflexivity.
Qed.

Lemma Init_run E g ctx verbose w :
  (forall h, run_outcome E h = None) ->
  Init E g ctx verbose w =
  Done None (set_trace w (trace w ++ [init_command g; import_command g])).
Proof.
  intros Hok. unfold Init. unfold mbind at 1, M_bind at 1.
  rewrite HarnessSpec.runCmd_run, Hok.
  unfold mbind at 1, M_bind at 1.
  rewrite HarnessSpec.runCmd_run, Hok. simpl.
  rewrite <- app_assoc. reflexivity.
Qed.

Lemma Start_run E g ctx verbose w :
  (forall h, spawn_outcome E h = None) ->
  exists c w',
    Start E g ctx verbose w
    = Done ({| cmd := Some c; path := path g; args := args g |}, None) w' /\
    Process c = Some (next_pid w) /\
    procs w' !! next_pid w = Some true /\
    now w' = now w.
Proof.
  intros Hok. unfold Start, Cmd_Start. run. rewrite Hok.
  destruct verbose; eexists _, _; (split; [reflexivity|]); simpl;
    (split; [reflexivity|]); (split; [apply lookup_insert_eq|reflexivity]).
Qed.

(** The poll touches nothing but the trace and the clock. *)
Lemma Running_frame E g ctx fuel :
  forall w b w',
    Running E fuel g ctx w = Done b w' ->
    procs w' = procs w /\ paths w' = paths w.
Proof.
  induction fuel as [|fuel IH]; intros w b w' Hrun; [discriminate|].
  rewrite HarnessSpec.Running_S in Hrun.
  destruct (ctx_done ctx (now w)).
  { injection Hrun as _ <-. split; reflexivity. }
  rewrite HarnessSpec.DialContext_run in Hrun.
  match type of Hrun with context [ctx_call ?c ?d ?o ?w0] =>
    destruct (HarnessSpec.ctx_call_returns c d o w0) as (r & t & Heq0) end.
  rewrite Heq0 in Hrun.
  destruct r as [client|e]; [|exact (IH _ _ _ Hrun)].
  rewrite HarnessSpec.BlockNumber_run in Hrun.
  match type of Hrun with context [ctx_call ?c ?d ?o ?w0] =>
    destruct (HarnessSpec.ctx_call_returns c d o w0) as (r & t' & Heq) end.
  rewrite Heq in Hrun.
  destruct r as [n|e]; [|exact (IH _ _ _ Hrun)].
  injection Hrun as _ <-. split; reflexivity.
Qed.

Lemma Close_kills g c pid w :
  cmd g = Some c -> Process c = Some pid -> procs w !! pid = Some true ->
  exists w',
    (_ ← Close g; mret tt) w = Done tt w' /\
    procs w' !! pid = Some false /\ now w' = now w.
Proof.
  intros Hcmd Hproc Halive. unfold Close. rewrite Hcmd, Hproc.
  unfold Process_Kill, Cmd_Wait, os_RemoveAll. rewrite Hproc. run.
  rewrite Halive. destruct (finished c); run;
    eexists; (split; [reflexivity|]); simpl;
    (split; [|reflexivity]); rewrite ?lookup_insert_eq; reflexivity.
Qed.

Lemma defer_run {A} (cleanup : M unit) (body : M A) w r w1 w2 :
  body w = Done r w1 -> cleanup w1 = Done tt w2 ->
  defer cleanup body w = Done r w2.
Proof. intros Hb Hc. unfold defer. now rewrite Hb, Hc. Qed.

(** X16. The whole run against a client that is never reachable: when
    the log level is known, the subcommands and the spawning of geth
    succeed and the poll is given enough rounds, [checkFlag] returns
    "unable to connect to client" three seconds after it started the
    poll (the stages before the poll take no time on the clock of the
    model), the subprocess it spawned has been killed and no path of the
    data directory is left. *)
Theorem unreachable_client_times_out (E : Env) (fuel : nat) (l : string)
    (skipCompile verbose : bool) (w : World) :
  snd (ParseLogLevel l) = None ->
  (forall h, run_outcome E h = None) ->
  (forall h, spawn_outcome E h = None) ->
  never_reachable E ->
  (forall h, 0 < dial_duration E h) ->
  (forall h, 0 <= blockNumber_duration E h) ->
  3 * time_Second < Z.of_nat fuel ->
  exists w',
    checkFlag E fuel l skipCompile verbose w
    = Done (Some (NewError "unable to connect to client")) w' /\
    now w' = now w + 3 * time_Second /\
    procs w' !! next_pid w = Some false /\
    (forall p, inside "datadir" p -> p ∉ paths w').
Proof.
  intros Hl Hcmds Hspawn Hnever Hdial Hquery Hfuel.
  unfold checkFlag. destruct (ParseLogLevel l) as [lvl [e|]]; [discriminate|].
  unfold mbind at 1, M_bind at 1. rewrite makeDataDir_run.
  set (w1 := set_paths w _).
  rewrite NewClient_Geth. cbv iota beta.
  set (client := {| cmd := None; path := "go-ethereum"; args := _ |}).
  (* the run once the client is compiled *)
  assert (Hrest : forall w2, now w2 = now w -> next_pid w2 = next_pid w ->
    exists wb,
      (err ← Init E client context_Background verbose;
       match err with
       | Some err => mret (Some err)
       | None =>
           '(client, err) ← Start E client context_Background verbose;
           match err with
           | Some err => mret (Some err)
           | None =>
               defer (_ ← Close client; mret tt)
                 (checkFlag_started E fuel client context_Background)
           end
       end) w2
      = Done (Some (NewError "unable to connect to client")) wb /\
      now wb = now w + 3 * time_Second /\
      procs wb !! next_pid w = Some false).
  { intros w2 Hnow Hpid.
    unfold mbind at 1, M_bind at 1. rewrite (Init_run E _ _ _ _ Hcmds).
    unfold mbind at 1, M_bind at 1.
    destruct (Start_run E client context_Background verbose
                (set_trace w2 (trace w2 ++ [init_command client;
                                            import_command client])) Hspawn)
      as (c & w3 & -> & Hproc & Halive & Hnow3).
    simpl in Hproc, Halive, Hnow3. cbv iota beta.
    set (started := {| cmd := Some c; path := _; args := _ |}).
    (* the poll *)
    assert (Henough : Z.max 0 (now w3 + 3 * time_Second - now w3)
                      < Z.of_nat fuel).
    { clear -Hfuel. unfold time_Second in *. lia. }
    destruct (HarnessSpec.Running_unreachable E started
                (context_WithTimeout context_Background (now w3)
                   (3 * time_Second))
                (now w3 + 3 * time_Second) eq_refl Hdial Hquery Hnever
                fuel w3 Henough)
      as (evs & w4 & Hpoll & Hnow4 & _ & _).
    destruct (Running_frame _ _ _ _ _ _ _ Hpoll) as [Hprocs4 _].
    assert (Hstarted :
      checkFlag_started E fuel started context_Background w3
      = Done (Some (NewError "unable to connect to client")) w4).
    { unfold checkFlag_started. unfold mbind at 1, M_bind at 1, clock.
      apply (defer_run _ _ _ _ w4 w4); [|reflexivity].
      unfold mbind at 1, M_bind at 1. rewrite Hpoll. reflexivity. }
    destruct (Close_kills started c (next_pid w2) w4 eq_refl Hproc)
      as (w5 & Hclose & Hdead & Hnow5).
    { rewrite Hprocs4. exact Halive. }
    exists w5. split; [exact (defer_run _ _ _ _ _ _ Hstarted Hclose)|].
    split; [|now rewrite <- Hpid].
    clear -Hnow Hnow3 Hnow4 Hnow5. unfold time_Second in *. lia. }
  (* the compilation, or not *)
  assert (Hbody : exists wb,
    (err ← (if skipCompile
            then _ ← Println "skipping compilation..."; mret None
            else Compile E client context_Background verbose);
     match err with
     | Some err => mret (Some err)
     | None =>
         err ← Init E client context_Background verbose;
         match err with
         | Some err => mret (Some err)
         | None =>
             '(client, err) ← Start E client context_Background verbose;
             match err with
             | Some err => mret (Some err)
             | None =>
                 defer (_ ← Close client; mret tt)
                   (checkFlag_started E fuel client context_Background)
             end
         end
     end) w1
    = Done (Some (NewError "unable to connect to client")) wb /\
    now wb = now w + 3 * time_Second /\
    procs wb !! next_pid w = Some false).
  { unfold mbind at 1, M_bind at 1. destruct skipCompile.
    - unfold Println. run. apply Hrest; reflexivity.
    - rewrite Compile_run, Hcmds. apply Hrest; reflexivity. }
  destruct Hbody as (wb & Hbody & Hnow & Hdead).
  eexists. split.
  { apply (defer_run _ _ _ _ wb _ Hbody). reflexivity. }
  simpl. repeat split; try assumption.
  intros p Hin Hp. apply elem_of_filter in Hp as [Hout _]. contradiction.
Qed.

Lemma unreachable_client_times_out_witness :
  exists w',
    checkFlag SampleEnv.unreachable (Z.to_nat 3000000001) "info" true false
      SampleEnv.world0
    = Done (Some (NewError "unable to connect to client")) w' /\
    now w' = 3000000000.
Proof.
  destruct (unreachable_client_times_out SampleEnv.unreachable
              (Z.to_nat 3000000001) "info" true false SampleEnv.world0)
    as (w' & Hrun & Hnow & _).
  - reflexivity.
  - reflexivity.
  - reflexivity.
  - right. intros h n H. discriminate H.
  - intros h. reflexivity.
  - intros h. discriminate.
  - rewrite Z2Nat.id by discriminate. reflexivity.
  - exists w'. split; [exact Hrun|exact Hnow].
Defined.

End HarnessVerifierExtra.

(** ** More on the in-process verifiers *)

Module NodeExtra.
Import Runtime Loader Node.

Ltac run :=
  repeat (unfold mbind, M_bind, mret, M_ret, emit, history, clock; simpl).

Ltac run_in H :=
  repeat (unfold mbind, M_bind, mret, M_ret, emit, history, clock in H;
          simpl in H).

(** Split on the next thing that the run in [H] looks at. *)
Ltac next_case H :=
  match type of H with
  | context [match ?x with _ => _ end] =>
      lazymatch x with
      | context [match _ with _ => _ end] => fail
      | _ => destruct x eqn:?
      end
  end.

(** X17. [runGeth] never leaves a node open behind an error: when it
    returns an error it returns no node, and either [node.New] itself
    failed or the last thing it did was [stack.Close()]; when it returns
    no error it returns the node, and the last thing it did was to start
    it.  This holds for both in-process verifiers. *)
Theorem runGeth_closes_stack (N : NodeEnv) (w w' : World)
    (r : option Node) (err : option error) :
  (ConsoleVerifier.runGeth N w = Done (r, err) w' \/
   exists lg, LoggingVerifier.runGeth N lg w = Done (r, err) w') ->
  match err with
  | Some e =>
      r = None /\
      ((node_New N = Some e /\ trace w' = trace w ++ [Call "node.New"]) \/
       (node_New N = None /\ last (trace w') = Some (Call "stack.Close")))
  | None =>
      (exists stack, r = Some stack) /\
      last (trace w') = Some (Call "stack.Start")
  end.
Proof.
  intros [Hrun|[lg Hrun]].
  - unfold ConsoleVerifier.runGeth in Hrun. run_in Hrun.
    repeat (next_case Hrun; run_in Hrun; try discriminate).
    all: injection Hrun as <- <- <-; simpl.
    all: repeat split; eauto.
    all: try (right; split; [reflexivity|]).
    all: repeat rewrite app_assoc; apply last_snoc.
  - unfold LoggingVerifier.runGeth, LoggingVerifier.log_Error in Hrun.
    run_in Hrun.
    repeat (next_case Hrun; run_in Hrun; try discriminate).
    all: injection Hrun as <- <- <-; simpl.
    all: repeat split; eauto.
    all: try (right; split; [reflexivity|]).
    all: repeat rewrite app_assoc; apply last_snoc.
Qed.

Lemma runGeth_closes_stack_witness :
  let N := {| files := Sample.files; lib := Sample.lib; node_New := None;
              eth_New := Some (LibError "eth" "database already open");
              InsertChain := fun _ => None; stack_Start := None;
              console_Attach := None; console_New := None;
              node_Attach := None;
              BlockByNumber := fun _ => Err (LibError "rpc" "not found");
              LvlFromString := fun _ => Ok 1 |} in
  exists w',
    ConsoleVerifier.runGeth N SampleEnv.world0
    = Done (None, Some (LibError "eth" "database already open")) w' /\
    last (trace w') = Some (Call "stack.Close").
Proof.
  intros N.
  destruct (ConsoleVerifier.runGeth N SampleEnv.world0)
    as [[r [err|]] w'|msg w'|w'] eqn:Hgeth;
    try (vm_compute in Hgeth; discriminate).
  pose proof (runGeth_closes_stack N SampleEnv.world0 w' r (Some err)
                (or_introl Hgeth)) as [-> [[Hnew _]|[_ Hlast]]];
    [discriminate Hnew|].
  exists w'. split; [|exact Hlast].
  f_equal. f_equal. f_equal. vm_compute in Hgeth. now injection Hgeth as <- _.
Defined.

(** X18. A genesis description without a chain configuration, or with
    a configuration without a chain id, loads, and then [runGeth] panics
    on [chain.genesis.Config.ChainID.Uint64()]: it returns no error, the
    node is not closed, and [main] ends in the panic without a
    "Flag not captured" line. *)
Theorem runGeth_panics_without_chain_id (N : NodeEnv) (w : World)
    (chain : Chain) :
  node_New N = None ->
  loadChain (lib N) (files N) "chain.rlp" "genesis.json" = (Some chain, None) ->
  Config (genesis chain) ≫= ChainID = None ->
  let w' := set_trace w (trace w ++ [Call "node.New";
                                     Stdout ("setting up geth" +:+ LF)]) in
  ConsoleVerifier.runGeth N w = Panicked nil_dereference w' /\
  (forall l quiet skipCompile devMode,
     ConsoleVerifier.main N l quiet skipCompile devMode w
     = Panicked nil_dereference w') /\
  (forall lg,
     LoggingVerifier.runGeth N lg w
     = Panicked nil_dereference (set_trace w (trace w ++ [Call "node.New"]))).
Proof.
  intros Hnew Hload Hid w'.
  destruct (Config (genesis chain)) as [cfg|] eqn:Hcfg; simpl in Hid.
  all: assert (Hgeth : ConsoleVerifier.runGeth N w
                       = Panicked nil_dereference w')
    by (unfold ConsoleVerifier.runGeth; run; rewrite Hnew; run;
        rewrite Hload, Hcfg; run; rewrite ?Hid; unfold w';
        rewrite <- app_assoc; reflexivity).
  all: assert (Hlog : forall lg, LoggingVerifier.runGeth N lg w
                 = Panicked nil_dereference
                     (set_trace w (trace w ++ [Call "node.New"])))
    by (intros lg; unfold LoggingVerifier.runGeth; run; rewrite Hnew; run;
        rewrite Hload, Hcfg; run; rewrite ?Hid; reflexivity).
  all: split; [exact Hgeth|]; split; [|exact Hlog].
  all: intros l quiet skipCompile devMode.
  all: unfold ConsoleVerifier.main, ConsoleVerifier.checkFlag.
  all: unfold mbind at 1, M_bind at 1; unfold mbind at 1, M_bind at 1.
  all: rewrite Hgeth; reflexivity.
Qed.

Lemma runGeth_panics_without_chain_id_witness :
  let N := SampleEnv.node None None 0 in
  let N' := {| files := <["genesis.json" := [x00]]> (files N);
               lib := {| json_Unmarshal := fun _ => (Genesis_zero, None);
                         ToBlock := ToBlock (lib N);
                         gzip_NewReader := gzip_NewReader (lib N);
                         rlp_Decode := rlp_Decode (lib N);
                         rlp_Decode_consumes := rlp_Decode_consumes (lib N) |};
               node_New := None; eth_New := None;
               InsertChain := InsertChain N; stack_Start := None;
               console_Attach := None; console_New := None;
               node_Attach := None; BlockByNumber := BlockByNumber N;
               LvlFromString := LvlFromString N |} in
  exists w',
    ConsoleVerifier.main N' "info" true false false SampleEnv.world0
    = Panicked nil_dereference w' /\
    stderr_of (trace w') = [].
Proof.
  intros N N'.
  destruct (loadChain (lib N') (files N') "chain.rlp" "genesis.json")
    as [[chain|] [e|]] eqn:Hload; try (vm_compute in Hload; discriminate).
  assert (Hid : Config (genesis chain) ≫= ChainID = None).
  { vm_compute in Hload. injection Hload as <-. reflexivity. }
  destruct (runGeth_panics_without_chain_id N' SampleEnv.world0 chain
              eq_refl Hload Hid) as (_ & Hmain & _).
  eexists. split; [apply Hmain|reflexivity].
Defined.

(** X19. A failure of the chain import does not fail [runGeth]: when
    [InsertChain] returns an error and the node then starts, [runGeth]
    returns the node and no error.  In the logging verifier run with
    [--quiet], or with a verbosity below "error", the failure leaves
    nothing on the standard error either. *)
Theorem import_failure_not_propagated (N : NodeEnv) (w : World)
    (chain : Chain) (gblock : Block) (rest : list Block) (id : Z)
    (err : error) :
  node_New N = None ->
  loadChain (lib N) (files N) "chain.rlp" "genesis.json" = (Some chain, None) ->
  Config (genesis chain) ≫= ChainID = Some id ->
  eth_New N = None ->
  blocks chain = gblock :: rest ->
  InsertChain N rest = Some err ->
  stack_Start N = None ->
  (exists node w', ConsoleVerifier.runGeth N w = Done (Some node, None) w') /\
  (forall lg,
     exists node w',
       LoggingVerifier.runGeth N lg w = Done (Some node, None) w' /\
       (LoggingVerifier.log_discard lg = true \/
        LoggingVerifier.log_verbosity lg < LoggingVerifier.LvlError ->
        stderr_of (trace w') = stderr_of (trace w) /\
        stdout_of (trace w') = stdout_of (trace w))).
Proof.
  intros Hnew Hload Hid Heth Hblocks Himport Hstart.
  destruct (Config (genesis chain)) as [cfg|] eqn:Hcfg;
    [simpl in Hid|discriminate].
  split.
  - unfold ConsoleVerifier.runGeth. run.
    rewrite Hnew, Hload, Hcfg. run.
    rewrite Hid, Heth, Hblocks, Himport. run. rewrite Hstart.
    eexists _, _. reflexivity.
  - intros lg. unfold LoggingVerifier.runGeth, LoggingVerifier.log_Error. run.
    rewrite Hnew, Hload, Hcfg. run.
    rewrite Hid, Heth, Hblocks, Himport. run.
    destruct (LoggingVerifier.log_discard lg) eqn:Hquiet; simpl.
    + rewrite Hstart. eexists _, _. split; [reflexivity|]. intros _. simpl.
      rewrite !HarnessSpec.stderr_of_app, !HarnessSpec.stdout_of_app. simpl.
      rewrite !app_nil_r. split; reflexivity.
    + destruct (Z.leb_spec LoggingVerifier.LvlError
                  (LoggingVerifier.log_verbosity lg)) as [Hloud|Hlow];
        run; rewrite Hstart; eexists _, _; (split; [reflexivity|]);
        intros [Hq|Hv]; try discriminate; try lia.
      simpl. rewrite !HarnessSpec.stderr_of_app, !HarnessSpec.stdout_of_app.
      simpl. rewrite !app_nil_r. split; reflexivity.
Qed.

Lemma import_failure_not_propagated_witness :
  let N := SampleEnv.node None (Some (LibError "core" "invalid gas used")) 0 in
  exists node w',
    LoggingVerifier.runGeth N
      {| LoggingVerifier.log_discard := true;
         LoggingVerifier.log_verbosity := 1 |} SampleEnv.world0
    = Done (Some node, None) w' /\
    stderr_of (trace w') = [].
Proof.
  intros N.
  destruct (loadChain (lib N) (files N) "chain.rlp" "genesis.json")
    as [[chain|] [e|]] eqn:Hload; try (vm_compute in Hload; discriminate).
  assert (Hchain : Config (genesis chain) ≫= ChainID = Some 1 /\
                   blocks chain = Sample.genesisBlock (genesis chain)
                                  :: tail (blocks chain)).
  { vm_compute in Hload. injection Hload as <-. split; reflexivity. }
  destruct Hchain as [Hid Hblocks].
  destruct (import_failure_not_propagated N SampleEnv.world0 chain _ _ 1
              (LibError "core" "invalid gas used")
              eq_refl Hload Hid eq_refl Hblocks eq_refl eq_refl)
    as [_ Hquiet].
  destruct (Hquiet {| LoggingVerifier.log_discard := true;
                      LoggingVerifier.log_verbosity := 1 |})
    as (node & w' & Hrun & Hsilent).
  exists node, w'. split; [exact Hrun|].
  destruct (Hsilent (or_introl eq_refl)) as [-> _]. reflexivity.
Defined.

(** X20. When [runGeth] fails, both in-process verifiers report its
    error as it is: [checkFlag] returns it (after printing
    "erroring out" in the console verifier), and [main] writes
    "Flag not captured: " and the message to the standard error, exits
    with status 1 and does not print "Flag captured.". *)
Theorem runGeth_failure_reported (N : NodeEnv) (w w1 : World)
    (r : option Node) (err : error) :
  (ConsoleVerifier.runGeth N w = Done (r, Some err) w1 ->
   forall l quiet skipCompile devMode,
     ConsoleVerifier.main N l quiet skipCompile devMode w
     = Done 1 (set_trace w1
                 (trace w1 ++ [Stdout ("erroring out" +:+ LF);
                               Stderr ("Flag not captured: " +:+ Error err
                                       +:+ LF)]))) /\
  (forall l lvl quiet consoleMode,
     LvlFromString N l = Ok lvl ->
     LoggingVerifier.runGeth N
       {| LoggingVerifier.log_discard := quiet;
          LoggingVerifier.log_verbosity := lvl |} w
     = Done (r, Some err) w1 ->
     LoggingVerifier.main N l quiet consoleMode w
     = Done 1 (set_trace w1
                 (trace w1 ++ [Stderr ("Flag not captured: " +:+ Error err
                                       +:+ LF)]))).
Proof.
  split.
  - intros Hgeth l quiet skipCompile devMode.
    unfold ConsoleVerifier.main, ConsoleVerifier.checkFlag.
    unfold mbind at 1, M_bind at 1. unfold mbind at 1, M_bind at 1.
    rewrite Hgeth. run. rewrite <- app_assoc. reflexivity.
  - intros l lvl quiet consoleMode Hlvl Hgeth.
    unfold LoggingVerifier.main. rewrite Hlvl.
    unfold LoggingVerifier.checkFlag.
    unfold mbind at 1, M_bind at 1. unfold mbind at 1, M_bind at 1.
    cbv zeta. rewrite Hgeth. reflexivity.
Qed.

Lemma runGeth_failure_reported_witness :
  let N := {| files := ∅; lib := Sample.lib; node_New := None;
              eth_New := None; InsertChain := fun _ => None;
              stack_Start := None; console_Attach := None;
              console_New := None; node_Attach := None;
              BlockByNumber := fun _ => Err (LibError "rpc" "not found");
              LvlFromString := fun _ => Ok 1 |} in
  exists w',
    ConsoleVerifier.main N "info" true false false SampleEnv.world0
    = Done 1 w' /\
    stderr_of (trace w')
    = ["Flag not captured: open genesis.json: no such file or directory"
       +:+ LF].
Proof.
  intros N.
  destruct (ConsoleVerifier.runGeth N SampleEnv.world0)
    as [[r [err|]] w1|msg w1|w1] eqn:Hgeth;
    try (vm_compute in Hgeth; discriminate).
  destruct (runGeth_failure_reported N SampleEnv.world0 w1 r err) as [Hmain _].
  eexists. split; [apply (Hmain Hgeth)|].
  vm_compute in Hgeth. injection Hgeth as _ <- <-. reflexivity.
Defined.

End NodeExtra.

(** ** Package [params] *)

Module ParamsExtra.
Import Params.

Lemma substring_length (n : nat) :
  forall s, (n <= String.length s)%nat ->
            String.length (substring 0 n s) = n.
Proof.
  induction n as [|n IH]; intros [|c s] Hlen; simpl in *;
    [reflexivity|reflexivity|lia|].
  rewrite IH by lia. reflexivity.
Qed.

Lemma append_length (s1 s2 : string) :
  String.length (s1 +:+ s2) = (String.length s1 + String.length s2)%nat.
Proof.
  induction s1 as [|c s1 IH]; [reflexivity|].
  change (S (String.length (s1 +:+ s2))
          = S (String.length s1 + String.length s2)).
  now f_equal.
Qed.

Lemma append_assoc (s1 s2 s3 : string) :
  (s1 +:+ s2) +:+ s3 = s1 +:+ (s2 +:+ s3).
Proof.
  induction s1 as [|c s1 IH]; [reflexivity|].
  change (String c ((s1 +:+ s2) +:+ s3) = String c (s1 +:+ (s2 +:+ s3))).
  now f_equal.
Qed.

Lemma append_empty (s : string) : s +:+ "" = s.
Proof.
  induction s as [|c s IH]; [reflexivity|].
  change (String c (s +:+ "") = String c s). now f_equal.
Qed.

(** X21. The version strings: [Version] is "1.11.0" and
    [VersionWithMeta] "1.11.0-unstable".  [ArchiveVersion] appends the
    first 8 bytes of the commit and nothing else of it, and ignores a
    commit of fewer than 8 bytes altogether; [VersionWithCommit] is
    [ArchiveVersion] followed by the date, when there is one. *)
Theorem version_strings :
  Version = "1.11.0" /\
  VersionWithMeta = "1.11.0-unstable" /\
  (forall c, (String.length c < 8)%nat -> ArchiveVersion c = "1.11.0-unstable") /\
  (forall c, (8 <= String.length c)%nat ->
     ArchiveVersion c = "1.11.0-unstable-" +:+ substring 0 8 c /\
     String.length (ArchiveVersion c) = 24%nat) /\
  (forall c1 c2,
     (8 <= String.length c1)%nat -> (8 <= String.length c2)%nat ->
     substring 0 8 c1 = substring 0 8 c2 ->
     ArchiveVersion c1 = ArchiveVersion c2) /\
  (forall c d,
     VersionWithCommit c d =
     ArchiveVersion c +:+ (if decide (d = "") then "" else "-" +:+ d)).
Proof.
  assert (Hlong : forall c, (8 <= String.length c)%nat ->
            ArchiveVersion c = "1.11.0-unstable-" +:+ substring 0 8 c).
  { intros c Hc. unfold ArchiveVersion.
    destruct (Nat.leb_spec 8 (String.length c)); [reflexivity|lia]. }
  split; [reflexivity|]. split; [reflexivity|]. split; [|split; [|split]].
  - intros c Hc. unfold ArchiveVersion.
    destruct (Nat.leb_spec 8 (String.length c)); [lia|reflexivity].
  - intros c Hc. split; [exact (Hlong c Hc)|].
    rewrite (Hlong c Hc), append_length, substring_length by exact Hc.
    reflexivity.
  - intros c1 c2 H1 H2 Heq. now rewrite (Hlong c1 H1), (Hlong c2 H2), Heq.
  - intros c d. unfold VersionWithCommit, ArchiveVersion.
    change (bool_decide (VersionMeta <> "stable")) with true.
    destruct (8 <=? String.length c)%nat;
      destruct (decide (d = "")) as [->|Hd]; simpl.
    + now rewrite append_empty.
    + rewrite bool_decide_eq_true_2 by exact Hd.
      rewrite !append_assoc. reflexivity.
    + reflexivity.
    + rewrite bool_decide_eq_true_2 by exact Hd. reflexivity.
Qed.

Lemma version_strings_witness :
  ArchiveVersion "dea1ce052a10cd7d401a5c04f83f371a06fe293c"
  = ArchiveVersion "dea1ce05ffffffff" /\
  ArchiveVersion "dea1ce0" = "1.11.0-unstable".
Proof.
  destruct version_strings as (_ & _ & Hshort & _ & Hprefix & _). split.
  - apply Hprefix; [simpl; lia|simpl; lia|reflexivity].
  - apply Hshort. simpl. lia.
Defined.

Lemma findDep_spec deps path :
  match findDep deps path with
  | Some m =>
      exists before after,
        deps = before ++ m :: after /\ mod_Path m = path /\
        forall m', m' ∈ before -> mod_Path m' <> path
  | None => forall m, m ∈ deps -> mod_Path m <> path
  end.
Proof.
  induction deps as [|d deps IH]; simpl.
  - intros m Hm. now apply elem_of_nil in Hm.
  - destruct (decide (mod_Path d = path)) as [Hd|Hd].
    + exists [], deps. repeat split; [exact Hd|].
      intros m' Hm'. now apply elem_of_nil in Hm'.
    + destruct (findDep deps path) as [m|].
      * destruct IH as (before & after & -> & Hm & Hbefore).
        exists (d :: before), after. repeat split; [exact Hm|].
        intros m' Hm'. apply elem_of_cons in Hm' as [->|Hm'];
          [exact Hd|exact (Hbefore m' Hm')].
      * intros m Hm. apply elem_of_cons in Hm as [->|Hm];
          [exact Hd|exact (IH m Hm)].
Qed.

Lemma findModule_spec_aux (info : BuildInfo) (path : string) :
  (Path info = ourPath -> findModule info path = Some (Main info)) /\
  (Path info <> ourPath ->
   match findModule info path with
   | Some m =>
       exists before after,
         Deps info = before ++ m :: after /\ mod_Path m = path /\
         forall m', m' ∈ before -> mod_Path m' <> path
   | None => forall m, m ∈ Deps info -> mod_Path m <> path
   end).
Proof.
  unfold findModule. split; intros Hpath.
  - destruct (decide (Path info = ourPath)); [reflexivity|contradiction].
  - destruct (decide (Path info = ourPath)); [contradiction|].
    apply findDep_spec.
Qed.

(** X22. [findModule] returns the main module whenever the path of the
    build is the go-ethereum path, whatever path was asked for;
    otherwise it returns the first dependency with the path asked for,
    and nil when there is none. *)
Theorem findModule_spec (info : BuildInfo) (path : string) :
  (Path info = ourPath -> findModule info path = Some (Main info)) /\
  (Path info <> ourPath ->
   match findModule info path with
   | Some m =>
       exists before after,
         Deps info = before ++ m :: after /\ mod_Path m = path /\
         forall m', m' ∈ before -> mod_Path m' <> path
   | None => forall m, m ∈ Deps info -> mod_Path m <> path
   end).
Proof. exact (findModule_spec_aux info path). Qed.

Lemma findModule_spec_witness :
  let geth := {| mod_Path := ourPath; mod_Version := "v1.10.26";
                 mod_Replace := None |} in
  let other := {| mod_Path := "golang.org/x/sys"; mod_Version := "v0.1.0";
                  mod_Replace := None |} in
  let info := {| Path := "example.com/tool"; Main := other;
                 Deps := [other; geth]; Settings := [] |} in
  findModule info "github.com/ethereum/other" = None /\
  forall m, m ∈ Deps info -> mod_Path m <> "github.com/ethereum/other".
Proof.
  intros geth other info.
  destruct (findModule_spec info "github.com/ethereum/other") as [_ Hdeps].
  assert (Hnone : findModule info "github.com/ethereum/other" = None)
    by reflexivity.
  split; [exact Hnone|].
  rewrite Hnone in Hdeps. apply Hdeps. discriminate.
Defined.

Lemma HasPrefix_ourPath s : s = ourPath -> HasPrefix s ourPath = true.
Proof. intros ->. reflexivity. Qed.

(** X23. [RuntimeInfo] panics exactly when there is build information,
    the build is not under the go-ethereum path and go-ethereum is not
    among its dependencies: [findModule] then returns nil and
    [mod.Version] reads through it.  Without build information it
    returns the version with metadata followed by the Go version, the
    architecture and the operating system. *)
Theorem RuntimeInfo_panics (R : GoRuntime) :
  ((exists msg, RuntimeInfo R = Panics msg) <->
   exists info,
     ReadBuildInfo R = Some info /\
     HasPrefix (Path info) ourPath = false /\
     forall m, m ∈ Deps info -> mod_Path m <> ourPath) /\
  (ReadBuildInfo R = None ->
   RuntimeInfo R =
   Returns (Sprintf "%s %s %s %s"
              [ArgStr "1.11.0-unstable"; ArgStr (runtime_Version R);
               ArgStr (GOARCH R); ArgStr (GOOS R)])).
Proof.
  split.
  - unfold RuntimeInfo. destruct (ReadBuildInfo R) as [info|] eqn:Hinfo.
    + destruct (HasPrefix (Path info) ourPath) eqn:Hprefix.
      * split.
        -- intros [msg H].
           destruct (vcsInfo R info) as [[revision dirty] date].
           destruct (decide (dirty <> "")); discriminate.
        -- intros (info' & Hinfo' & Hno & _). injection Hinfo' as <-.
           rewrite Hprefix in Hno. discriminate.
      * assert (Hpath : Path info <> ourPath).
        { intros Heq. rewrite (HasPrefix_ourPath _ Heq) in Hprefix.
          discriminate. }
        pose proof (proj2 (findModule_spec_aux info ourPath) Hpath) as Hfind.
        destruct (findModule info ourPath) as [m|].
        -- split.
           ++ intros [msg H]. destruct (mod_Replace m) as [[rp rv]|];
                discriminate.
           ++ intros (info' & Hinfo' & _ & Hdeps). injection Hinfo' as <-.
              destruct Hfind as (before & after & Heq & Hm & _).
              exfalso. apply (Hdeps m); [|exact Hm].
              rewrite Heq. apply elem_of_app. right. apply elem_of_cons.
              now left.
        -- split.
           ++ intros _. exists info. repeat split; assumption.
           ++ intros _. eexists. reflexivity.
    + split.
      * intros [msg H]. discriminate.
      * intros (info & Hinfo' & _). discriminate.
  - intros Hnone. unfold RuntimeInfo. rewrite Hnone. reflexivity.
Qed.

Lemma RuntimeInfo_panics_witness :
  let tool := {| mod_Path := "example.com/tool"; mod_Version := "v0.1.0";
                 mod_Replace := None |} in
  let R := {| ReadBuildInfo :=
                Some {| Path := "example.com/tool"; Main := tool;
                        Deps := []; Settings := [] |};
              runtime_Version := "go1.19"; GOARCH := "amd64";
              GOOS := "linux" |} in
  exists msg, RuntimeInfo R = Panics msg.
Proof.
  intros tool R. destruct (RuntimeInfo_panics R) as [[_ Hpanic] _].
  apply Hpanic. eexists. split; [reflexivity|]. split; [reflexivity|].
  intros m Hm. now apply elem_of_nil in Hm.
Defined.

Lemma vcs_fold_dirty (l : list (string * string)) :
  forall r d t,
    match foldl vcsInfo_step (r, d, t) l with
    | (_, d', _) =>
        (d' = " (dirty)" <->
         d = " (dirty)" \/ ("vcs.modified", "true") ∈ l) /\
        (d' = d \/ d' = " (dirty)")
    end.
Proof.
  induction l as [|[k v] l IH]; intros r d t; simpl.
  - split; [|now left]. split; [now left|].
    intros [H|H]; [exact H|now apply elem_of_nil in H].
  - assert (Hskip : (k, v) <> ("vcs.modified", "true") ->
      match foldl vcsInfo_step (r, d, t) l with
      | (_, d', _) =>
          (d' = " (dirty)" <->
           d = " (dirty)" \/ ("vcs.modified", "true") ∈ (k, v) :: l) /\
          (d' = d \/ d' = " (dirty)")
      end ->
      forall r' t',
      match foldl vcsInfo_step (r', d, t') l with
      | (_, d', _) =>
          (d' = " (dirty)" <->
           d = " (dirty)" \/ ("vcs.modified", "true") ∈ (k, v) :: l) /\
          (d' = d \/ d' = " (dirty)")
      end).
    { intros Hne _ r' t'. specialize (IH r' d t').
      destruct (foldl vcsInfo_step (r', d, t') l) as [[r1 d1] t1].
      destruct IH as [Hiff Hor]. split; [|exact Hor].
      rewrite Hiff. split; intros [H|H]; try (now left).
      - right. apply elem_of_cons. now right.
      - apply elem_of_cons in H as [H|H]; [congruence|now right]. }
    destruct (decide (k = "vcs.revision")) as [->|Hrev].
    { apply Hskip; [discriminate|]. specialize (IH r d t).
      destruct (foldl vcsInfo_step (r, d, t) l) as [[r1 d1] t1].
      destruct IH as [Hiff Hor]. split; [|exact Hor]. rewrite Hiff.
      split; intros [H|H]; try (now left).
      - right. apply elem_of_cons. now right.
      - apply elem_of_cons in H as [H|H]; [discriminate|now right]. }
    destruct (decide (k = "vcs.modified")) as [->|Hmod].
    + destruct (decide (v = "true")) as [->|Htrue].
      * specialize (IH r " (dirty)" t).
        destruct (foldl vcsInfo_step (r, " (dirty)", t) l) as [[r1 d1] t1].
        destruct IH as [Hiff Hor].
        assert (Hd : d1 = " (dirty)") by (destruct Hor; assumption).
        split; [|now right]. split; [|intros _; exact Hd].
        intros _. right. apply elem_of_cons. now left.
      * specialize (IH r d t).
        destruct (foldl vcsInfo_step (r, d, t) l) as [[r1 d1] t1].
        destruct IH as [Hiff Hor]. split; [|exact Hor]. rewrite Hiff.
        split; intros [H|H]; try (now left).
        -- right. apply elem_of_cons. now right.
        -- apply elem_of_cons in H as [H|H]; [congruence|now right].
    + assert (Hne : (k, v) <> ("vcs.modified", "true")) by congruence.
      destruct (decide (k = "vcs.time")) as [->|Htime];
        (apply Hskip; [exact Hne|]); specialize (IH r d t);
        destruct (foldl vcsInfo_step (r, d, t) l) as [[r1 d1] t1];
        destruct IH as [Hiff Hor]; (split; [|exact Hor]); rewrite Hiff;
        (split; intros [H|H]; try (now left);
         [right; apply elem_of_cons; now right
         |apply elem_of_cons in H as [H|H]; [congruence|now right]]).
Qed.

Lemma vcs_fold_keeps_revision (l : list (string * string)) :
  (forall kv, kv ∈ l -> kv.1 <> "vcs.revision") ->
  forall r d t, (foldl vcsInfo_step (r, d, t) l).1.1 = r.
Proof.
  induction l as [|[k v] l IH]; intros Hfree r d t; [reflexivity|].
  assert (Hk : k <> "vcs.revision").
  { apply (Hfree (k, v)). apply elem_of_cons. now left. }
  assert (Hl : forall kv, kv ∈ l -> kv.1 <> "vcs.revision").
  { intros kv Hkv. apply Hfree. apply elem_of_cons. now right. }
  simpl. destruct (decide (k = "vcs.revision")); [contradiction|].
  destruct (decide (k = "vcs.modified")); [destruct (decide (v = "true"))|];
    [apply IH, Hl|apply IH, Hl|].
  destruct (decide (k = "vcs.time")); apply IH, Hl.
Qed.

(** X24. [vcsInfo] does not look at its argument: it reads the build
    information afresh.  Without build information it returns
    "unknown", "", "unknown".  With it, the dirty mark is " (dirty)"
    exactly when some setting [vcs.modified] is "true" (a later "false"
    does not take it back) and is empty otherwise; the revision is the
    value of the last [vcs.revision] setting, and "unknown" when there
    is none. *)
Theorem vcsInfo_spec (R : GoRuntime) (info : BuildInfo) :
  (forall info', vcsInfo R info' = vcsInfo R info) /\
  (ReadBuildInfo R = None -> vcsInfo R info = ("unknown", "", "unknown")) /\
  (forall bi, ReadBuildInfo R = Some bi ->
     match vcsInfo R info with
     | (revision, dirty, date) =>
         (dirty = " (dirty)" <-> ("vcs.modified", "true") ∈ Settings bi) /\
         (dirty = "" \/ dirty = " (dirty)") /\
         (forall pre v post,
            Settings bi = pre ++ ("vcs.revision", v) :: post ->
            (forall kv, kv ∈ post -> kv.1 <> "vcs.revision") ->
            revision = v) /\
         ((forall kv, kv ∈ Settings bi -> kv.1 <> "vcs.revision") ->
          revision = "unknown")
     end).
Proof.
  split; [reflexivity|]. split.
  - intros Hnone. unfold vcsInfo. now rewrite Hnone.
  - intros bi Hbi. unfold vcsInfo. rewrite Hbi.
    pose proof (vcs_fold_dirty (Settings bi) "unknown" "" "unknown") as Hdirty.
    destruct (foldl vcsInfo_step ("unknown", "", "unknown") (Settings bi))
      as [[revision dirty] date] eqn:Hfold.
    destruct Hdirty as [Hiff Hor]. split; [|split; [exact Hor|split]].
    + rewrite Hiff. split; [intros [H|H]; [discriminate|exact H]|now right].
    + intros pre v post Heq Hfree. rewrite Heq, foldl_app in Hfold.
      destruct (foldl vcsInfo_step ("unknown", "", "unknown") pre)
        as [[r0 d0] t0].
      simpl in Hfold.
      pose proof (vcs_fold_keeps_revision post Hfree v d0 t0) as Hkeep.
      rewrite Hfold in Hkeep. exact Hkeep.
    + intros Hfree.
      pose proof (vcs_fold_keeps_revision (Settings bi) Hfree
                    "unknown" "" "unknown") as Hkeep.
      rewrite Hfold in Hkeep. exact Hkeep.
Qed.

Lemma vcsInfo_spec_witness :
  let bi := {| Path := ourPath;
               Main := {| mod_Path := ourPath; mod_Version := "(devel)";
                          mod_Replace := None |};
               Deps := [];
               Settings := [("vcs.revision", "dea1ce05");
                            ("vcs.modified", "true");
                            ("vcs.modified", "false");
                            ("vcs.revision", "21c059b6")] |} in
  let R := {| ReadBuildInfo := Some bi; runtime_Version := "go1.19";
              GOARCH := "amd64"; GOOS := "linux" |} in
  vcsInfo R bi = ("21c059b6", " (dirty)", "unknown").
Proof.
  intros bi R.
  destruct (vcsInfo_spec R bi) as (_ & _ & Hspec).
  specialize (Hspec bi eq_refl).
  destruct (vcsInfo R bi) as [[revision dirty] date] eqn:Hvcs.
  destruct Hspec as (Hdirty & _ & Hrev & _).
  assert (Hdate : date = "unknown").
  { vm_compute in Hvcs. now injection Hvcs as _ _ <-. }
  rewrite (Hrev [("vcs.revision", "dea1ce05"); ("vcs.modified", "true");
                 ("vcs.modified", "false")] "21c059b6" [] eq_refl).
  - rewrite (proj2 Hdirty), Hdate; [reflexivity|].
    apply elem_of_cons. right. apply elem_of_cons. now left.
  - intros kv Hkv. now apply elem_of_nil in Hkv.
Defined.

End ParamsExtra.
